(** * Tournament progression engine: a shallow embedding

    The development follows the JavaScript sources of the tournament manager:
    [js/models/team.js], [js/models/match.js], [js/models/group.js],
    [js/models/tournament.js], [js/utils/helpers.js],
    [js/controllers/knockoutController.js],
    [js/controllers/tournamentController.js],
    [js/controllers/matchController.js] and the save handlers of
    [js/views/knockoutView.js] and [js/views/matchView.js].

    Objects are records, arrays are lists read with [!!] and written with
    [<[i:=x]>], [null] is [None].  Every class or module of the source is a
    Rocq [Module] of the same name, so that [Match.updateResult] below is
    the method [updateResult] of class [Match], and so on. *)

From Stdlib Require Import ZArith Lia Ascii.
From stdpp Require Import base list strings pretty.

Local Open Scope string_scope.
Local Open Scope list_scope.

(** ** JavaScript numbers and the operators the engine applies to them *)

Module Js.

(** The numbers the engine stores are results of [parseInt]: an integer
    or [NaN].  An integer is given by its decimal digits: [Int z] is the
    number that JavaScript prints with the digits of [z], in positional
    notation below 10^21 and in exponential notation from there on.  Sums
    and differences are exact, as they are in JavaScript for the numbers
    of goals and of matches of a tournament. *)
Inductive num : Type :=
  | Int (z : Z)
  | NaN.

(** A nullable number field ([null] or a number). *)
Definition val : Type := option num.

(** [ToNumber]: [null] converts to [0]. *)
Definition toNumber (v : val) : num :=
  match v with
  | Some n => n
  | None => Int 0
  end.

(** A value as a caller hands it to [parseInt]: a number of the engine,
    or any other value, given by the text [ToString] makes of it (the
    number 1.5 is the text [1.5], a string is itself). *)
Inductive value : Type :=
  | Number (n : num)
  | Text (s : string).

(** The digits of an integer without its trailing zeros. *)
Fixpoint significant (digits : string) : string :=
  match digits with
  | EmptyString => EmptyString
  | String c rest =>
    let rest := significant rest in
    if bool_decide (c = "0"%char) && bool_decide (rest = EmptyString)
    then EmptyString else String c rest
  end.

(** [Number::toString(x)] on the numbers of the engine: the decimal digits
    below 10^21, the exponential notation from there on. *)
Definition toString (n : num) : string :=
  match n with
  | NaN => "NaN"
  | Int z =>
    if (Z.abs z <? 10 ^ 21)%Z then pretty z
    else
      let digits := pretty (Z.abs z) in
      let sign := if (z <? 0)%Z then "-" else "" in
      match significant digits with
      | EmptyString => "0"
      | String first rest =>
        sign
        +:+ String first (if bool_decide (rest = EmptyString) then "" else "." +:+ rest)
        +:+ "e+" +:+ pretty (String.length digits - 1)%nat
      end
  end.

(** [ToString(v)] *)
Definition text (v : value) : string :=
  match v with
  | Number n => toString n
  | Text s => s
  end.

(** The value of a decimal digit. *)
Definition digit (c : ascii) : option Z :=
  let n := Z.of_nat (nat_of_ascii c) in
  if (48 <=? n)%Z && (n <=? 57)%Z then Some (n - 48)%Z else None.

(** The value of the longest run of decimal digits a text starts with. *)
Fixpoint digits (acc : Z) (s : string) : Z :=
  match s with
  | EmptyString => acc
  | String c rest =>
    match digit c with
    | Some d => digits (10 * acc + d) rest
    | None => acc
    end
  end.

(** White space, on ASCII text: the space and the controls from tab to
    carriage return. *)
Definition isWhiteSpace (c : ascii) : bool :=
  let n := nat_of_ascii c in
  (n =? 32)%nat || ((9 <=? n)%nat && (n <=? 13)%nat).

Fixpoint trimStart (s : string) : string :=
  match s with
  | EmptyString => EmptyString
  | String c rest => if isWhiteSpace c then trimStart rest else s
  end.

(** [parseInt(v, 10)]: the text of the value without its leading white
    space, an optional sign, then the longest run of decimal digits; [NaN]
    when no digit follows. *)
Definition parseInt (v : value) : num :=
  let s := trimStart (text v) in
  let '(sign, s) :=
    match s with
    | String c rest =>
      if Ascii.eqb c "-" then ((-1)%Z, rest)
      else if Ascii.eqb c "+" then (1%Z, rest)
      else (1%Z, s)
    | EmptyString => (1%Z, s)
    end in
  match s with
  | EmptyString => NaN
  | String c _ =>
    match digit c with
    | Some _ => Int (sign * digits 0 s)
    | None => NaN
    end
  end.

Definition isNaN (v : num) : bool :=
  match v with
  | NaN => true
  | Int _ => false
  end.

(** [a > b] and [a < b]: false as soon as one side is [NaN]. *)
Definition gt (a b : num) : bool :=
  match a, b with
  | Int x, Int y => (y <? x)%Z
  | _, _ => false
  end.

Definition lt (a b : num) : bool :=
  match a, b with
  | Int x, Int y => (x <? y)%Z
  | _, _ => false
  end.

(** [a !== b] on numbers: [NaN] differs from everything, itself included. *)
Definition strict_neq (a b : num) : bool :=
  match a, b with
  | Int x, Int y => negb (x =? y)%Z
  | _, _ => true
  end.

Definition add (a b : num) : num :=
  match a, b with
  | Int x, Int y => Int (x + y)
  | _, _ => NaN
  end.

Definition sub (a b : num) : num :=
  match a, b with
  | Int x, Int y => Int (x - y)
  | _, _ => NaN
  end.

(** [a === b] on identifiers that are a string or [null]. *)
Definition id_eq (a b : option string) : bool := bool_decide (a = b).

(** Truthiness of a nullable string and of a nullable number: the empty
    string, [0], [NaN] and [null] are falsy. *)
Definition truthy_string (s : option string) : bool :=
  match s with
  | Some s => negb (bool_decide (s = ""))
  | None => false
  end.

Definition truthy_int (z : option Z) : bool :=
  match z with
  | Some z => negb (z =? 0)%Z
  | None => false
  end.

(** [a.localeCompare(b)], taken on code units: negative, zero or positive. *)
Definition localeCompare (a b : string) : num :=
  match String.compare a b with
  | Lt => Int (-1)
  | Eq => Int 0
  | Gt => Int 1
  end.

(** [Array.prototype.sort(cmp)].  The sort is stable, a result of [NaN]
    of the comparator counts as [+0], and [a] stays before [b] unless
    [cmp(a, b) > 0]; for a consistent comparator every conforming
    engine returns this list. *)
Definition after {A} (cmp : A -> A -> num) (a b : A) : bool :=
  gt (cmp a b) (Int 0).

Fixpoint insert {A} (cmp : A -> A -> num) (x : A) (l : list A) : list A :=
  match l with
  | [] => [x]
  | y :: l' => if after cmp x y then y :: insert cmp x l' else x :: l
  end.

Fixpoint sort {A} (cmp : A -> A -> num) (l : list A) : list A :=
  match l with
  | [] => []
  | x :: l' => insert cmp x (sort cmp l')
  end.

(** [array.slice(0, end)] for an integer [end]: a negative [end] counts
    from the end of the array. *)
Definition slice {A} (end_ : Z) (l : list A) : list A :=
  take (Z.to_nat (if (end_ <? 0)%Z then (Z.of_nat (length l) + end_)%Z else end_)) l.

(** How a template literal prints a score that may be [null]. *)
Definition show (v : val) : string :=
  match v with
  | Some n => toString n
  | None => "null"
  end.

End Js.

(** A number of the engine is a value. *)
Coercion Js.Number : Js.num >-> Js.value.

(** ** The data model *)

Module Team.
Record t : Type := { id : option string; name : string }.

(** The [stats] block of an instance of [class Team] (js/models/team.js),
    the part of the instance that [updateStats], [updateQualificationStatus]
    and [resetStats] read and write. *)
Module Stats.
Record t : Type := {
  played : Z;
  won : Z;
  drawn : Z;
  lost : Z;
  goalsFor : Js.num;
  goalsAgainst : Js.num;
  goalDifference : Js.num;
  points : Z;
  position : option Z;
  isQualified : bool;
  isBestThird : bool
}.
End Stats.



End Team.

(** The placeholder [{ id: null, name: 'TBD' }]. *)
Definition TBD : Team.t := {| Team.id := None; Team.name := "TBD" |}.

Module ExtraTime.
Record t : Type := {
  played : bool;
  homeScore : Js.val;
  awayScore : Js.val
}.
Definition initial : t :=
  {| played := false; homeScore := None; awayScore := None |}.
End ExtraTime.

Module Penalties.
Record t : Type := {
  played : bool;
  homeScore : Js.val;
  awayScore : Js.val;
  winner : option Team.t
}.
Definition initial : t :=
  {| played := false; homeScore := None; awayScore := None; winner := None |}.
End Penalties.

(** The [config] object handed to the [Match] constructor, which is also
    the plain object [serialize] returns.  A property that is absent or
    [null] is [None].  The timestamps ([date], [createdAt], [updatedAt]),
    [venue] and the [stats] block are carried along by the source and never
    read by the engine; they are left out. *)
Module Config.
Record t : Type := {
  id : option string;
  homeTeam : option Team.t;
  awayTeam : option Team.t;
  homeScore : Js.val;
  awayScore : Js.val;
  played : option bool;
  matchday : option Z;
  round : option string;
  roundIndex : option Z;
  group : option string;
  winner : option Team.t;
  extraTime : option ExtraTime.t;
  penalties : option Penalties.t
}.
Definition empty : t :=
  {| id := None; homeTeam := None; awayTeam := None; homeScore := None;
     awayScore := None; played := None; matchday := None; round := None;
     roundIndex := None; group := None; winner := None;
     extraTime := None; penalties := None |}.
End Config.

(** ** [class Match] (js/models/match.js) *)

Module Match.

Record t : Type := {
  id : string;
  homeTeam : Team.t;
  awayTeam : Team.t;
  homeScore : Js.val;
  awayScore : Js.val;
  played : bool;
  matchday : option Z;
  round : option string;
  roundIndex : option Z;
  group : option string;
  winner : option Team.t;
  extraTime : ExtraTime.t;
  penalties : Penalties.t
}.

(** Field assignments [this.f = v]. *)
Definition set_homeTeam (this : t) (v : Team.t) : t :=
  {| id := id this; homeTeam := v; awayTeam := awayTeam this;
     homeScore := homeScore this; awayScore := awayScore this;
     played := played this; matchday := matchday this; round := round this;
     roundIndex := roundIndex this; group := group this;
     winner := winner this; extraTime := extraTime this;
     penalties := penalties this |}.

Definition set_awayTeam (this : t) (v : Team.t) : t :=
  {| id := id this; homeTeam := homeTeam this; awayTeam := v;
     homeScore := homeScore this; awayScore := awayScore this;
     played := played this; matchday := matchday this; round := round this;
     roundIndex := roundIndex this; group := group this;
     winner := winner this; extraTime := extraTime this;
     penalties := penalties this |}.

Definition set_homeScore (this : t) (v : Js.val) : t :=
  {| id := id this; homeTeam := homeTeam this; awayTeam := awayTeam this;
     homeScore := v; awayScore := awayScore this;
     played := played this; matchday := matchday this; round := round this;
     roundIndex := roundIndex this; group := group this;
     winner := winner this; extraTime := extraTime this;
     penalties := penalties this |}.

Definition set_awayScore (this : t) (v : Js.val) : t :=
  {| id := id this; homeTeam := homeTeam this; awayTeam := awayTeam this;
     homeScore := homeScore this; awayScore := v;
     played := played this; matchday := matchday this; round := round this;
     roundIndex := roundIndex this; group := group this;
     winner := winner this; extraTime := extraTime this;
     penalties := penalties this |}.

Definition set_played (this : t) (v : bool) : t :=
  {| id := id this; homeTeam := homeTeam this; awayTeam := awayTeam this;
     homeScore := homeScore this; awayScore := awayScore this;
     played := v; matchday := matchday this; round := round this;
     roundIndex := roundIndex this; group := group this;
     winner := winner this; extraTime := extraTime this;
     penalties := penalties this |}.

Definition set_winner (this : t) (v : option Team.t) : t :=
  {| id := id this; homeTeam := homeTeam this; awayTeam := awayTeam this;
     homeScore := homeScore this; awayScore := awayScore this;
     played := played this; matchday := matchday this; round := round this;
     roundIndex := roundIndex this; group := group this;
     winner := v; extraTime := extraTime this;
     penalties := penalties this |}.

Definition set_extraTime (this : t) (v : ExtraTime.t) : t :=
  {| id := id this; homeTeam := homeTeam this; awayTeam := awayTeam this;
     homeScore := homeScore this; awayScore := awayScore this;
     played := played this; matchday := matchday this; round := round this;
     roundIndex := roundIndex this; group := group this;
     winner := winner this; extraTime := v;
     penalties := penalties this |}.

Definition set_penalties (this : t) (v : Penalties.t) : t :=
  {| id := id this; homeTeam := homeTeam this; awayTeam := awayTeam this;
     homeScore := homeScore this; awayScore := awayScore this;
     played := played this; matchday := matchday this; round := round this;
     roundIndex := roundIndex this; group := group this;
     winner := winner this; extraTime := extraTime this;
     penalties := v |}.

Definition set_group (this : t) (v : option string) : t :=
  {| id := id this; homeTeam := homeTeam this; awayTeam := awayTeam this;
     homeScore := homeScore this; awayScore := awayScore this;
     played := played this; matchday := matchday this; round := round this;
     roundIndex := roundIndex this; group := v;
     winner := winner this; extraTime := extraTime this;
     penalties := penalties this |}.

(** [constructor(config = {})].  [generated] is the identifier
    [this._generateId()] would return (time and random digits). *)
Definition constructor (generated : string) (config : Config.t) : t :=
  {| id := if Js.truthy_string (Config.id config)
           then default generated (Config.id config) else generated;
     homeTeam := default TBD (Config.homeTeam config);
     awayTeam := default TBD (Config.awayTeam config);
     homeScore := Config.homeScore config;
     awayScore := Config.awayScore config;
     played := default false (Config.played config);
     matchday := if Js.truthy_int (Config.matchday config)
                 then Config.matchday config else None;
     round := if Js.truthy_string (Config.round config)
              then Config.round config else None;
     roundIndex := if Js.truthy_int (Config.roundIndex config)
                   then Config.roundIndex config else None;
     group := if Js.truthy_string (Config.group config)
              then Config.group config else None;
     winner := Config.winner config;
     extraTime := default ExtraTime.initial (Config.extraTime config);
     penalties := default Penalties.initial (Config.penalties config) |}.

(** [updateResult(homeScore, awayScore)] *)
Definition updateResult (this : t) (homeScore' awayScore' : Js.value) : t :=
  let this := set_homeScore this (Some (Js.parseInt homeScore')) in
  let this := set_awayScore this (Some (Js.parseInt awayScore')) in
  let this := set_played this true in
  if Js.gt (Js.toNumber (homeScore this)) (Js.toNumber (awayScore this))
  then set_winner this (Some (homeTeam this))
  else if Js.lt (Js.toNumber (homeScore this)) (Js.toNumber (awayScore this))
  then set_winner this (Some (awayTeam this))
  else set_winner this None.

(** [updateExtraTimeResult(homeScore, awayScore)] *)
Definition updateExtraTimeResult (this : t) (homeScore' awayScore' : Js.value) : t :=
  let this :=
    set_extraTime this
      {| ExtraTime.played := true;
         ExtraTime.homeScore := Some (Js.parseInt homeScore');
         ExtraTime.awayScore := Some (Js.parseInt awayScore') |} in
  let aggHomeScore :=
    Js.add (Js.toNumber (homeScore this))
           (Js.toNumber (ExtraTime.homeScore (extraTime this))) in
  let aggAwayScore :=
    Js.add (Js.toNumber (awayScore this))
           (Js.toNumber (ExtraTime.awayScore (extraTime this))) in
  if Js.gt aggHomeScore aggAwayScore
  then set_winner this (Some (homeTeam this))
  else if Js.lt aggHomeScore aggAwayScore
  then set_winner this (Some (awayTeam this))
  else set_winner this None.

(** [updatePenaltyResult(homeScore, awayScore)]: the three penalty fields
    are written first, the comparison comes after; on a level shootout
    the last branch only logs 'Penalty shootout cannot end in a draw'. *)
Definition updatePenaltyResult (this : t) (homeScore' awayScore' : Js.value) : t :=
  let this :=
    set_penalties this
      {| Penalties.played := true;
         Penalties.homeScore := Some (Js.parseInt homeScore');
         Penalties.awayScore := Some (Js.parseInt awayScore');
         Penalties.winner := Penalties.winner (penalties this) |} in
  let p := penalties this in
  if Js.gt (Js.toNumber (Penalties.homeScore p)) (Js.toNumber (Penalties.awayScore p))
  then
    let this := set_winner this (Some (homeTeam this)) in
    set_penalties this
      {| Penalties.played := Penalties.played p;
         Penalties.homeScore := Penalties.homeScore p;
         Penalties.awayScore := Penalties.awayScore p;
         Penalties.winner := Some (homeTeam this) |}
  else if Js.lt (Js.toNumber (Penalties.homeScore p)) (Js.toNumber (Penalties.awayScore p))
  then
    let this := set_winner this (Some (awayTeam this)) in
    set_penalties this
      {| Penalties.played := Penalties.played p;
         Penalties.homeScore := Penalties.homeScore p;
         Penalties.awayScore := Penalties.awayScore p;
         Penalties.winner := Some (awayTeam this) |}
  else this.

(** [serialize()] *)
Definition serialize (this : t) : Config.t :=
  {| Config.id := Some (id this);
     Config.homeTeam := Some (homeTeam this);
     Config.awayTeam := Some (awayTeam this);
     Config.homeScore := homeScore this;
     Config.awayScore := awayScore this;
     Config.played := Some (played this);
     Config.matchday := matchday this;
     Config.round := round this;
     Config.roundIndex := roundIndex this;
     Config.group := group this;
     Config.winner := winner this;
     Config.extraTime := Some (extraTime this);
     Config.penalties := Some (penalties this) |}.

(** [static deserialize(data)] *)
Definition deserialize (generated : string) (data : Config.t) : t :=
  constructor generated data.

(** [_generateId()]: ['match_'] followed by the time and three random
    digits in base 36, here [suffix]. *)
Definition _generateId (suffix : string) : string := "match_" +:+ suffix.

(** [isScheduled()], as a condition: both sides carry a truthy
    identifier. *)
Definition isScheduled (this : t) : bool :=
  Js.truthy_string (Team.id (homeTeam this))
  && Js.truthy_string (Team.id (awayTeam this)).

(** [hadExtraTime()] and [hadPenalties()] *)
Definition hadExtraTime (this : t) : bool := ExtraTime.played (extraTime this).

Definition hadPenalties (this : t) : bool := Penalties.played (penalties this).

(** [getFinalScoreDisplay()] *)
Definition getFinalScoreDisplay (this : t) : string :=
  if negb (played this) then "vs"
  else
    let scoreDisplay :=
      Js.show (homeScore this) +:+ " - " +:+ Js.show (awayScore this) in
    let scoreDisplay :=
      if hadExtraTime this
      then scoreDisplay +:+ " (AET: "
             +:+ Js.show (ExtraTime.homeScore (extraTime this)) +:+ " - "
             +:+ Js.show (ExtraTime.awayScore (extraTime this)) +:+ ")"
      else scoreDisplay in
    if hadPenalties this
    then scoreDisplay +:+ " (Pens: "
           +:+ Js.show (Penalties.homeScore (penalties this)) +:+ " - "
           +:+ Js.show (Penalties.awayScore (penalties this)) +:+ ")"
    else scoreDisplay.

(** The [matchPattern] table of [createGroupMatches]: per matchday, the
    positions of the home and the away team in the group's team list. *)
Definition matchPattern : list (list (nat * nat)) :=
  [ [ (0, 3); (1, 2) ];
    [ (0, 1); (2, 3) ];
    [ (2, 0); (3, 1) ] ].

(** [static createGroupMatches(teams, groupId)].  [generated k] is the
    identifier drawn for the [k]-th match created. *)
Definition createGroupMatches (generated : nat -> string)
    (teams : list Team.t) (groupId : string) : list t :=
  if negb (length teams =? 4)%nat then []
  else
    concat (imap (fun matchdayIndex matchdayPattern =>
      let matchday' := (Z.of_nat matchdayIndex + 1)%Z in
      imap (fun matchIndex '(home, away) =>
        constructor (generated (2 * matchdayIndex + matchIndex))
          {| Config.id := None;
             Config.homeTeam := teams !! home;
             Config.awayTeam := teams !! away;
             Config.homeScore := None;
             Config.awayScore := None;
             Config.played := None;
             Config.matchday := Some matchday';
             Config.round := None;
             Config.roundIndex := None;
             Config.group := Some groupId;
             Config.winner := None;
             Config.extraTime := None;
             Config.penalties := None |}) matchdayPattern) matchPattern).

End Match.

(** ** Standings rows *)

(** One row of a standings table.  The counters start at [0] and only
    grow by integer steps; the goal columns add up scores and can be [NaN]
    when a score is.  The flags [qualified] and [bestThird], written only
    by the qualification marking of the group controller, are left out. *)
Module Row.
Record t : Type := {
  id : option string;
  name : string;
  played : Z;
  won : Z;
  drawn : Z;
  lost : Z;
  goalsFor : Js.num;
  goalsAgainst : Js.num;
  goalDifference : Js.num;
  points : Z
}.

(** The row a team starts with. *)
Definition initial (team : Team.t) : t :=
  {| id := Team.id team; name := Team.name team; played := 0; won := 0;
     drawn := 0; lost := 0; goalsFor := Js.Int 0; goalsAgainst := Js.Int 0;
     goalDifference := Js.Int 0; points := 0 |}.

(** The team a row stands for, as it is put into a bracket slot. *)
Definition team (r : t) : Team.t := {| Team.id := id r; Team.name := name r |}.

(** [row.played += k], [row.won += k], ... *)
Definition add_played (k : Z) (r : t) : t :=
  {| id := id r; name := name r; played := played r + k; won := won r;
     drawn := drawn r; lost := lost r; goalsFor := goalsFor r;
     goalsAgainst := goalsAgainst r; goalDifference := goalDifference r;
     points := points r |}.

Definition add_won (k : Z) (r : t) : t :=
  {| id := id r; name := name r; played := played r; won := won r + k;
     drawn := drawn r; lost := lost r; goalsFor := goalsFor r;
     goalsAgainst := goalsAgainst r; goalDifference := goalDifference r;
     points := points r |}.

Definition add_drawn (k : Z) (r : t) : t :=
  {| id := id r; name := name r; played := played r; won := won r;
     drawn := drawn r + k; lost := lost r; goalsFor := goalsFor r;
     goalsAgainst := goalsAgainst r; goalDifference := goalDifference r;
     points := points r |}.

Definition add_lost (k : Z) (r : t) : t :=
  {| id := id r; name := name r; played := played r; won := won r;
     drawn := drawn r; lost := lost r + k; goalsFor := goalsFor r;
     goalsAgainst := goalsAgainst r; goalDifference := goalDifference r;
     points := points r |}.

Definition add_points (k : Z) (r : t) : t :=
  {| id := id r; name := name r; played := played r; won := won r;
     drawn := drawn r; lost := lost r; goalsFor := goalsFor r;
     goalsAgainst := goalsAgainst r; goalDifference := goalDifference r;
     points := points r + k |}.

Definition add_goalsFor (v : Js.num) (r : t) : t :=
  {| id := id r; name := name r; played := played r; won := won r;
     drawn := drawn r; lost := lost r; goalsFor := Js.add (goalsFor r) v;
     goalsAgainst := goalsAgainst r; goalDifference := goalDifference r;
     points := points r |}.

Definition add_goalsAgainst (v : Js.num) (r : t) : t :=
  {| id := id r; name := name r; played := played r; won := won r;
     drawn := drawn r; lost := lost r; goalsFor := goalsFor r;
     goalsAgainst := Js.add (goalsAgainst r) v;
     goalDifference := goalDifference r; points := points r |}.

(** [team.goalDifference = team.goalsFor - team.goalsAgainst] *)
Definition set_goalDifference (r : t) : t :=
  {| id := id r; name := name r; played := played r; won := won r;
     drawn := drawn r; lost := lost r; goalsFor := goalsFor r;
     goalsAgainst := goalsAgainst r;
     goalDifference := Js.sub (goalsFor r) (goalsAgainst r);
     points := points r |}.
End Row.

(** [array.findIndex(p)]; [None] stands for [-1]. *)
Fixpoint findIndex {A} (p : A -> bool) (l : list A) : option nat :=
  match l with
  | [] => None
  | x :: l' => if p x then Some 0%nat else S <$> findIndex p l'
  end.

(** The callback both standings calculators run on every match
    ([calculateGroupStandings] of helpers.js and [recalculateStandings] of
    group.js carry the same text). *)
Definition tally (standings : list Row.t) (m : Match.t) : list Row.t :=
  match Match.played m, Match.homeScore m, Match.awayScore m with
  | true, Some homeScore, Some awayScore =>
    match findIndex (fun team => Js.id_eq (Row.id team) (Team.id (Match.homeTeam m))) standings,
          findIndex (fun team => Js.id_eq (Row.id team) (Team.id (Match.awayTeam m))) standings with
    | Some homeTeamIndex, Some awayTeamIndex =>
      let standings := alter (Row.add_played 1) homeTeamIndex standings in
      let standings := alter (Row.add_played 1) awayTeamIndex standings in
      let standings := alter (Row.add_goalsFor homeScore) homeTeamIndex standings in
      let standings := alter (Row.add_goalsAgainst awayScore) homeTeamIndex standings in
      let standings := alter (Row.add_goalsFor awayScore) awayTeamIndex standings in
      let standings := alter (Row.add_goalsAgainst homeScore) awayTeamIndex standings in
      if Js.gt homeScore awayScore then
        let standings := alter (Row.add_won 1) homeTeamIndex standings in
        let standings := alter (Row.add_points 3) homeTeamIndex standings in
        alter (Row.add_lost 1) awayTeamIndex standings
      else if Js.lt homeScore awayScore then
        let standings := alter (Row.add_won 1) awayTeamIndex standings in
        let standings := alter (Row.add_points 3) awayTeamIndex standings in
        alter (Row.add_lost 1) homeTeamIndex standings
      else
        let standings := alter (Row.add_drawn 1) homeTeamIndex standings in
        let standings := alter (Row.add_points 1) homeTeamIndex standings in
        let standings := alter (Row.add_drawn 1) awayTeamIndex standings in
        alter (Row.add_points 1) awayTeamIndex standings
    | _, _ => standings
    end
  | _, _, _ => standings
  end.

(** A knockout round: its matches in bracket order under its name, which
    the rounds of the knockout controller carry as the property [name] and
    the rounds of the helpers as the property [round]; the property an
    object does not have reads as [undefined], here [None]. *)
Module Round.
Record t : Type := {
  name : option string;
  round : option string;
  matches : list Match.t
}.

Definition set_matches (r : t) (ms : list Match.t) : t :=
  {| name := name r; round := round r; matches := ms |}.
End Round.

(** A qualifier: a standings row tagged with the name of its group. *)
Module Qualifier.
Record t : Type := { team : Row.t; group : string }.
End Qualifier.

Module Qualified.
Record t : Type := {
  winners : list Qualifier.t;
  runnersUp : list Qualifier.t;
  bestThirds : list Qualifier.t
}.
End Qualified.

(** The first container (group or round), in order, one of whose matches
    has the identifier, with the position of that match: the shape of the
    loops [for (...) { idx = matches.findIndex(m => m.id === matchId);
    if (idx !== -1) { ...; break; } }]. *)
Fixpoint locate {C} (matches_of : C -> list Match.t) (matchId : string)
    (cs : list C) : option (nat * nat) :=
  match cs with
  | [] => None
  | c :: cs' =>
    match findIndex (fun m => bool_decide (Match.id m = matchId)) (matches_of c) with
    | Some i => Some (0%nat, i)
    | None => prod_map S (fun i => i) <$> locate matches_of matchId cs'
    end
  end.

(** A group: [{ id, name, teams, matches, standings }], as a plain object
    of the [Tournament] model or as an instance of [class Group]. *)
Module GroupData.
Record t : Type := {
  id : string;
  name : string;
  teams : list Team.t;
  matches : list Match.t;
  standings : list Row.t
}.

Definition set_matches (g : t) (ms : list Match.t) : t :=
  {| id := id g; name := name g; teams := teams g; matches := ms;
     standings := standings g |}.

Definition set_standings (g : t) (st : list Row.t) : t :=
  {| id := id g; name := name g; teams := teams g; matches := matches g;
     standings := st |}.

Definition set_teams (g : t) (ts : list Team.t) : t :=
  {| id := id g; name := name g; teams := ts; matches := matches g;
     standings := standings g |}.
End GroupData.

(** ** [Helpers] (js/utils/helpers.js) *)

Module Helpers.

(** A plain match object as the helpers build it.  It has no [extraTime]
    and no [penalties] property; nothing in the helpers or in the
    [Tournament] model reads them, and the record carries the unplayed
    blocks in their place. *)
Definition plain (id : string) (matchday : option Z) (round : option string)
    (homeTeam awayTeam : Team.t) : Match.t :=
  {| Match.id := id; Match.homeTeam := homeTeam; Match.awayTeam := awayTeam;
     Match.homeScore := None; Match.awayScore := None; Match.played := false;
     Match.matchday := matchday; Match.round := round;
     Match.roundIndex := None; Match.group := None; Match.winner := None;
     Match.extraTime := ExtraTime.initial;
     Match.penalties := Penalties.initial |}.

(** How a template literal prints an identifier that may be [null]. *)
Definition print_id (i : option string) : string := default "null" i.

(** [generateMatchId(homeTeamId, awayTeamId, matchday)]; [now] is the
    value of [Date.now()]. *)
Definition generateMatchId (now : Z) (homeTeamId awayTeamId : option string)
    (matchday : Z) : string :=
  "match_" +:+ print_id homeTeamId +:+ "_" +:+ print_id awayTeamId +:+ "_"
  +:+ pretty matchday +:+ "_" +:+ pretty now.

(** One entry [{ matchday, matches }] of a schedule. *)
Definition Matchday : Type := (Z * list Match.t)%type.

(** The [matchPattern] table of [generateMatchSchedule]. *)
Definition matchPattern : list (list (nat * nat)) :=
  [ [ (0, 3); (1, 2) ];
    [ (0, 1); (2, 3) ];
    [ (2, 0); (3, 1) ] ]%nat.

(** [generateMatchSchedule(teams)]; [clock k] is [Date.now()] at the
    [k]-th match built.  With four teams every position of the pattern is
    in range. *)
Definition generateMatchSchedule (clock : nat -> Z) (teams : list Team.t)
    : list Matchday :=
  if negb (length teams =? 4)%nat then []
  else
    imap (fun matchdayIndex matchdayPattern =>
      let matchday := (Z.of_nat matchdayIndex + 1)%Z in
      (matchday,
       omap (fun x => x)
         (imap (fun matchIndex '(home, away) =>
           homeTeam ← teams !! home;
           awayTeam ← teams !! away;
           Some (plain
             (generateMatchId (clock (2 * matchdayIndex + matchIndex)%nat)
                (Team.id homeTeam) (Team.id awayTeam) matchday)
             (Some matchday) None homeTeam awayTeam)) matchdayPattern)))
      matchPattern.

(** The comparator of [sortGroupStandings]: points, goal difference,
    goals scored, then the name ('5. Alphabetically'); the source notes
    that the head-to-head step is left out here. *)
Definition compareStandings (a b : Row.t) : Js.num :=
  if negb (Row.points b =? Row.points a)%Z
  then Js.Int (Row.points b - Row.points a)
  else if Js.strict_neq (Row.goalDifference b) (Row.goalDifference a)
  then Js.sub (Row.goalDifference b) (Row.goalDifference a)
  else if Js.strict_neq (Row.goalsFor b) (Row.goalsFor a)
  then Js.sub (Row.goalsFor b) (Row.goalsFor a)
  else Js.localeCompare (Row.name a) (Row.name b).

(** [sortGroupStandings(standings)] *)
Definition sortGroupStandings (standings : list Row.t) : list Row.t :=
  Js.sort compareStandings standings.

(** [calculateGroupStandings(teams, matches)] *)
Definition calculateGroupStandings (teams : list Team.t)
    (matches : list Match.t) : list Row.t :=
  let standings := map Row.initial teams in
  let standings := fold_left tally matches standings in
  let standings := map Row.set_goalDifference standings in
  sortGroupStandings standings.

(** [updateMatchResult(match, homeScore, awayScore)] *)
Definition updateMatchResult (m : Match.t) (homeScore awayScore : Js.value)
    : Match.t :=
  let m := Match.set_homeScore m (Some (Js.parseInt homeScore)) in
  let m := Match.set_awayScore m (Some (Js.parseInt awayScore)) in
  let m := Match.set_played m true in
  if Js.gt (Js.toNumber (Match.homeScore m)) (Js.toNumber (Match.awayScore m))
  then Match.set_winner m (Some (Match.homeTeam m))
  else if Js.lt (Js.toNumber (Match.homeScore m)) (Js.toNumber (Match.awayScore m))
  then Match.set_winner m (Some (Match.awayTeam m))
  else Match.set_winner m None.

(** [areAllMatchesPlayed(matches)] *)
Definition areAllMatchesPlayed (matches : list Match.t) : bool :=
  forallb Match.played matches.

(** The comparator of the third-placed teams in [determineQualifiedTeams]. *)
Definition compareThirds (a b : Qualifier.t) : Js.num :=
  compareStandings (Qualifier.team a) (Qualifier.team b).

(** [determineQualifiedTeams(groups)] *)
Definition determineQualifiedTeams (groups : list GroupData.t) : Qualified.t :=
  let pick (k : nat) :=
    omap (fun group =>
      (fun row => {| Qualifier.team := row; Qualifier.group := GroupData.name group |})
        <$> GroupData.standings group !! k) groups in
  {| Qualified.winners := pick 0%nat;
     Qualified.runnersUp := pick 1%nat;
     Qualified.bestThirds :=
       if (length groups =? 3)%nat || (length groups =? 6)%nat
       then
         let thirdPlacedTeams := Js.sort compareThirds (pick 2%nat) in
         let requiredBestThirds := if (length groups =? 3)%nat then 2%nat else 4%nat in
         take requiredBestThirds thirdPlacedTeams
       else [] |}.

(** [getSuffix(position)] *)
Definition getSuffix (position : nat) : string :=
  let position := (position + 1)%nat in
  let j := (position mod 10)%nat in
  let k := (position mod 100)%nat in
  if (j =? 1)%nat && negb (k =? 11)%nat then pretty position +:+ "st"
  else if (j =? 2)%nat && negb (k =? 12)%nat then pretty position +:+ "nd"
  else if (j =? 3)%nat && negb (k =? 13)%nat then pretty position +:+ "rd"
  else pretty position +:+ "th".

(** The named placeholder [{ name: 'TBD', id: ... }] of a bracket slot. *)
Definition placeholder (id : string) : Team.t :=
  {| Team.id := Some id; Team.name := "TBD" |}.

(** [generateRoundOf16(winners, runnersUp, bestThirds)] *)
Definition generateRoundOf16 (winners runnersUp bestThirds : list Qualifier.t)
    : list Match.t :=
  let pairedTeams :=
    [ (winners !! 0%nat, runnersUp !! 3%nat);
      (winners !! 1%nat, runnersUp !! 2%nat);
      (winners !! 2%nat, runnersUp !! 1%nat);
      (winners !! 3%nat, runnersUp !! 0%nat);
      (winners !! 4%nat, bestThirds !! 0%nat);
      (winners !! 5%nat, bestThirds !! 1%nat);
      (winners !! 6%nat, bestThirds !! 2%nat);
      (winners !! 7%nat, bestThirds !! 3%nat) ] in
  omap (fun x => x)
    (imap (fun index (pair : option Qualifier.t * option Qualifier.t) =>
      home ← pair.1;
      away ← pair.2;
      Some (plain ("r16_" +:+ pretty index) None (Some "Round of 16")
              (Row.team (Qualifier.team home)) (Row.team (Qualifier.team away))))
      pairedTeams).

(** [generateQuarterfinals(winners, runnersUp, bestThirds)] *)
Definition generateQuarterfinals (winners runnersUp bestThirds : list Qualifier.t)
    : list Match.t :=
  if (0 <? length winners)%nat || (0 <? length runnersUp)%nat
     || (0 <? length bestThirds)%nat
  then
    let allTeams := winners ++ runnersUp ++ bestThirds in
    omap (fun i : nat =>
      if (i * 2 + 1 <? length allTeams)%nat then
        home ← allTeams !! (i * 2)%nat;
        away ← allTeams !! (i * 2 + 1)%nat;
        Some (plain ("qf_" +:+ pretty i) None (Some "Quarterfinals")
                (Row.team (Qualifier.team home)) (Row.team (Qualifier.team away)))
      else None) (seq 0 4)
  else
    map (fun i : nat =>
      plain ("qf_" +:+ pretty i) None (Some "Quarterfinals")
        (placeholder ("qf_home_" +:+ pretty i))
        (placeholder ("qf_away_" +:+ pretty i))) (seq 0 4).

(** [generateSemifinals(winners)] *)
Definition generateSemifinals (winners : list Qualifier.t) : list Match.t :=
  match winners with
  | first :: _ =>
    omap (fun i : nat =>
      if (i * 2 + 1 <? length winners * 4)%nat then
        let team1Pos := (i * 2)%nat in
        let team2Pos := (i * 2 + 1)%nat in
        let team1 :=
          if (team1Pos <? length winners * 4)%nat
          then {| Team.name := "Group " +:+ Qualifier.group first +:+ " " +:+ getSuffix team1Pos;
                  Team.id := Some ("sf_direct_" +:+ pretty team1Pos) |}
          else placeholder ("sf_direct_" +:+ pretty i +:+ "_home") in
        let team2 :=
          if (team2Pos <? length winners * 4)%nat
          then {| Team.name := "Group " +:+ Qualifier.group first +:+ " " +:+ getSuffix team2Pos;
                  Team.id := Some ("sf_direct_" +:+ pretty team2Pos) |}
          else placeholder ("sf_direct_" +:+ pretty i +:+ "_away") in
        Some (plain ("sf_" +:+ pretty i) None (Some "Semifinals") team1 team2)
      else None) (seq 0 2)
  | [] =>
    map (fun i : nat =>
      plain ("sf_" +:+ pretty i) None (Some "Semifinals")
        (placeholder ("sf_home_" +:+ pretty i))
        (placeholder ("sf_away_" +:+ pretty i))) (seq 0 2)
  end.

(** [generateFinal()] *)
Definition generateFinal : list Match.t :=
  [ plain "final" None (Some "Final")
      (placeholder "final_home") (placeholder "final_away") ].

(** [generateKnockoutStage(qualifiedTeams, groupCount)] *)
Definition generateKnockoutStage (qualifiedTeams : Qualified.t)
    (groupCount : Z) : list Round.t :=
  let winners := Qualified.winners qualifiedTeams in
  let runnersUp := Qualified.runnersUp qualifiedTeams in
  let bestThirds := Qualified.bestThirds qualifiedTeams in
  let round name matches :=
    {| Round.name := None; Round.round := Some name; Round.matches := matches |} in
  if (groupCount =? 1)%Z then
    [ round "Semifinals" (generateSemifinals (take 1 winners));
      round "Final" generateFinal ]
  else if (groupCount =? 2)%Z then
    [ round "Quarterfinals" (generateQuarterfinals winners runnersUp []);
      round "Semifinals" (generateSemifinals []);
      round "Final" generateFinal ]
  else if (groupCount =? 3)%Z then
    [ round "Quarterfinals" (generateQuarterfinals winners runnersUp bestThirds);
      round "Semifinals" (generateSemifinals []);
      round "Final" generateFinal ]
  else if (groupCount =? 4)%Z then
    [ round "Quarterfinals" (generateQuarterfinals winners runnersUp []);
      round "Semifinals" (generateSemifinals []);
      round "Final" generateFinal ]
  else if (groupCount =? 6)%Z || (groupCount =? 8)%Z then
    [ round "Round of 16" (generateRoundOf16 winners runnersUp bestThirds);
      round "Quarterfinals" (generateQuarterfinals [] [] []);
      round "Semifinals" (generateSemifinals []);
      round "Final" generateFinal ]
  else [].

(** The exchange [[a[i], a[j]] = [a[j], a[i]]].  Both positions lie in
    the array wherever the shuffle performs it. *)
Definition swap {A} (i j : nat) (a : list A) : list A :=
  match a !! i, a !! j with
  | Some x, Some y => <[j := x]> (<[i := y]> a)
  | _, _ => a
  end.

(** The loop [for (let i = newArray.length - 1; i > 0; i--)] from [i]
    downwards; [draw i] is the index
    [Math.floor(Math.random() * (i + 1))] drawn at step [i]. *)
Fixpoint shuffleFrom {A} (draw : nat -> nat) (i : nat) (newArray : list A)
    : list A :=
  match i with
  | 0%nat => newArray
  | S i' => shuffleFrom draw i' (swap (S i') (draw (S i')) newArray)
  end.

(** [shuffleArray(array)] *)
Definition shuffleArray {A} (draw : nat -> nat) (array : list A) : list A :=
  shuffleFrom draw (length array - 1) array.

(** The [countries] table of [generateRandomTeamNames]. *)
Definition countries : list string :=
  [ "Brazil"; "France"; "Germany"; "Italy"; "Argentina"; "Spain"; "England";
    "Netherlands"; "Portugal"; "Belgium"; "Uruguay"; "Colombia"; "Mexico";
    "Sweden"; "Croatia"; "Denmark"; "Japan"; "South Korea"; "Australia";
    "Switzerland"; "Poland"; "Chile"; "USA"; "Nigeria"; "Cameroon"; "Egypt";
    "Morocco"; "Senegal"; "Ghana"; "Ivory Coast"; "Algeria"; "Tunisia" ].

(** [generateRandomTeamNames(count)] *)
Definition generateRandomTeamNames (draw : nat -> nat) (count : Z)
    : list string :=
  Js.slice count (shuffleArray draw countries).

(** [formatTeamWithScore(team, score)] *)
Definition formatTeamWithScore (team : Team.t) (score : Js.val) : string :=
  match score with
  | None => Team.name team
  | Some _ => Team.name team +:+ " (" +:+ Js.show score +:+ ")"
  end.

End Helpers.

(** ** [class Group] (js/models/group.js) *)

(** The object [getStats()] returns.  Its [averageGoalsPerMatch], the
    two-decimal rendering of a floating-point quotient, is left out. *)
Module GroupStats.
Record t : Type := {
  teams : Z;
  matches : Z;
  matchesPlayed : Z;
  matchesRemaining : Z;
  totalGoals : Js.num;
  completed : bool
}.
End GroupStats.

Module Group.

(** [_getHeadToHeadResult(teamAId, teamBId)] *)
Definition _getHeadToHeadResult (this : GroupData.t)
    (teamAId teamBId : option string) : Js.num :=
  match
    List.find (fun m =>
      ((Js.id_eq (Team.id (Match.homeTeam m)) teamAId
          && Js.id_eq (Team.id (Match.awayTeam m)) teamBId)
       || (Js.id_eq (Team.id (Match.homeTeam m)) teamBId
          && Js.id_eq (Team.id (Match.awayTeam m)) teamAId))
      && Match.played m) (GroupData.matches this)
  with
  | None => Js.Int 0
  | Some m =>
    let homeScore := Js.toNumber (Match.homeScore m) in
    let awayScore := Js.toNumber (Match.awayScore m) in
    if Js.id_eq (Team.id (Match.homeTeam m)) teamAId then
      if Js.gt homeScore awayScore then Js.Int 1
      else if Js.lt homeScore awayScore then Js.Int (-1)
      else Js.Int 0
    else
      if Js.gt awayScore homeScore then Js.Int 1
      else if Js.lt awayScore homeScore then Js.Int (-1)
      else Js.Int 0
  end.

(** The comparator of [sortStandings]. *)
Definition compareStandings (this : GroupData.t) (a b : Row.t) : Js.num :=
  if negb (Row.points b =? Row.points a)%Z
  then Js.Int (Row.points b - Row.points a)
  else if Js.strict_neq (Row.goalDifference b) (Row.goalDifference a)
  then Js.sub (Row.goalDifference b) (Row.goalDifference a)
  else if Js.strict_neq (Row.goalsFor b) (Row.goalsFor a)
  then Js.sub (Row.goalsFor b) (Row.goalsFor a)
  else
    let headToHeadResult := _getHeadToHeadResult this (Row.id a) (Row.id b) in
    if Js.strict_neq headToHeadResult (Js.Int 0) then headToHeadResult
    else Js.localeCompare (Row.name a) (Row.name b).

(** [sortStandings()] *)
Definition sortStandings (this : GroupData.t) : GroupData.t :=
  GroupData.set_standings this
    (Js.sort (compareStandings this) (GroupData.standings this)).

(** [recalculateStandings()] *)
Definition recalculateStandings (this : GroupData.t) : GroupData.t :=
  let this := GroupData.set_standings this (map Row.initial (GroupData.teams this)) in
  let this :=
    GroupData.set_standings this
      (fold_left tally (GroupData.matches this) (GroupData.standings this)) in
  let this :=
    GroupData.set_standings this
      (map Row.set_goalDifference (GroupData.standings this)) in
  sortStandings this.

(** [constructor(config)] with the identifier, name, teams, matches and
    standings of the configuration; [generated] is the identifier
    [this._generateId()] would return. *)
Definition constructor (generated : string) (config : GroupData.t) : GroupData.t :=
  let this :=
    {| GroupData.id :=
         if bool_decide (GroupData.id config = "") then generated
         else GroupData.id config;
       GroupData.name :=
         if bool_decide (GroupData.name config = "") then "Group"
         else GroupData.name config;
       GroupData.teams := GroupData.teams config;
       GroupData.matches := GroupData.matches config;
       GroupData.standings := GroupData.standings config |} in
  if (0 <? length (GroupData.teams this))%nat
     && (length (GroupData.standings this) =? 0)%nat
  then recalculateStandings this
  else this.

(** [generateMatches()] *)
Definition generateMatches (generated : nat -> string) (this : GroupData.t)
    : GroupData.t :=
  if negb (length (GroupData.teams this) =? 4)%nat then this
  else
    GroupData.set_matches this
      (Match.createGroupMatches generated (GroupData.teams this) (GroupData.id this)).

(** [updateMatchResult(matchId, homeScore, awayScore)] *)
Definition updateMatchResult (this : GroupData.t) (matchId : string)
    (homeScore awayScore : Js.num) : bool * GroupData.t :=
  match findIndex (fun m => bool_decide (Match.id m = matchId)) (GroupData.matches this) with
  | None => (false, this)
  | Some matchIndex =>
    let this :=
      GroupData.set_matches this
        (alter (fun m => Match.updateResult m homeScore awayScore) matchIndex
           (GroupData.matches this)) in
    (true, recalculateStandings this)
  end.

(** [isCompleted()] *)
Definition isCompleted (this : GroupData.t) : bool :=
  forallb Match.played (GroupData.matches this).

(** [addTeam(team)] *)
Definition addTeam (this : GroupData.t) (team : Team.t) : GroupData.t :=
  let existingTeamIndex :=
    findIndex (fun t => Js.id_eq (Team.id t) (Team.id team)) (GroupData.teams this) in
  match existingTeamIndex with
  | None =>
    let this := GroupData.set_teams this (GroupData.teams this ++ [team]) in
    recalculateStandings this
  | Some _ => this
  end.

(** [removeTeam(teamId)] *)
Definition removeTeam (this : GroupData.t) (teamId : option string) : GroupData.t :=
  let initialLength := length (GroupData.teams this) in
  let this :=
    GroupData.set_teams this
      (List.filter (fun team => negb (Js.id_eq (Team.id team) teamId))
         (GroupData.teams this)) in
  if negb (length (GroupData.teams this) =? initialLength)%nat
  then recalculateStandings this
  else this.

(** [getMatchesByMatchday(matchday)] *)
Definition getMatchesByMatchday (this : GroupData.t) (matchday : Z) : list Match.t :=
  List.filter (fun m => bool_decide (Match.matchday m = Some matchday))
    (GroupData.matches this).

(** [getStats()] *)
Definition getStats (this : GroupData.t) : GroupStats.t :=
  let '(totalGoals, matchesPlayed) :=
    fold_left (fun '(totalGoals, matchesPlayed) m =>
      if Match.played m
      then (Js.add totalGoals
              (Js.add (Js.toNumber (Match.homeScore m))
                      (Js.toNumber (Match.awayScore m))),
            (matchesPlayed + 1)%Z)
      else (totalGoals, matchesPlayed))
      (GroupData.matches this) (Js.Int 0, 0%Z) in
  {| GroupStats.teams := Z.of_nat (length (GroupData.teams this));
     GroupStats.matches := Z.of_nat (length (GroupData.matches this));
     GroupStats.matchesPlayed := matchesPlayed;
     GroupStats.matchesRemaining :=
       (Z.of_nat (length (GroupData.matches this)) - matchesPlayed)%Z;
     GroupStats.totalGoals := totalGoals;
     GroupStats.completed := isCompleted this |}.

End Group.

(** ** [class Tournament] (js/models/tournament.js) *)

Module Stage.
Inductive t : Type := setup | group | knockout | complete.
End Stage.

Module Status.
Inductive t : Type := active | completed.
End Status.

(** The entries of the event log (their timestamps left out). *)
Inductive Event : Type :=
  | match_updated (matchId : string) (homeScore awayScore : Js.num)
  | group_stage_completed (winners runnersUp bestThirds : list string)
  | team_advanced (teamName : string) (fromRound toRound : option string)
  | tournament_completed (winner : string).

(** An entry of [config.teams]: a team name or a team object. *)
Inductive Entrant : Type :=
  | team_name (name : string)
  | team_object (team : Team.t).

(** The [config] object handed to the [Tournament] constructor, which is
    also the plain object [serialize] returns; a property that is absent
    is [None]. *)
Module TournamentConfig.
Record t : Type := {
  id : option string;
  name : option string;
  groupCount : option Z;
  currentStage : option Stage.t;
  status : option Status.t;
  groups : option (list GroupData.t);
  teams : option (list Entrant);
  knockout : option (list Round.t);
  events : option (list Event)
}.
End TournamentConfig.

(** What one run of the constructor draws from the clock and the random
    generator: the indices of the shuffle, the random part of the
    identifier of the team at each position and of each group, and the
    time at which each match of each group is built; and the random
    part of the identifier of the tournament. *)
Module Drawn.
Record t : Type := {
  idSuffix : string;
  draw : nat -> nat;
  teamSuffix : nat -> string;
  groupSuffix : nat -> string;
  clock : nat -> nat -> Z
}.
End Drawn.

Module Tournament.

Record t : Type := {
  id : string;
  name : string;
  groupCount : Z;
  currentStage : Stage.t;
  status : Status.t;
  groups : list GroupData.t;
  knockout : option (list Round.t);
  events : list Event
}.

Definition set_currentStage (this : t) (v : Stage.t) : t :=
  {| id := id this; name := name this;
     groupCount := groupCount this; currentStage := v; status := status this;
     groups := groups this; knockout := knockout this; events := events this |}.

Definition set_status (this : t) (v : Status.t) : t :=
  {| id := id this; name := name this;
     groupCount := groupCount this; currentStage := currentStage this;
     status := v; groups := groups this; knockout := knockout this;
     events := events this |}.

Definition set_groups (this : t) (v : list GroupData.t) : t :=
  {| id := id this; name := name this;
     groupCount := groupCount this; currentStage := currentStage this;
     status := status this; groups := v; knockout := knockout this;
     events := events this |}.

Definition set_knockout (this : t) (v : option (list Round.t)) : t :=
  {| id := id this; name := name this;
     groupCount := groupCount this; currentStage := currentStage this;
     status := status this; groups := groups this; knockout := v;
     events := events this |}.

(** [_addEvent(type, data)] *)
Definition _addEvent (this : t) (e : Event) : t :=
  {| id := id this; name := name this;
     groupCount := groupCount this; currentStage := currentStage this;
     status := status this; groups := groups this; knockout := knockout this;
     events := events this ++ [e] |}.

Definition is_group (s : Stage.t) : bool :=
  match s with Stage.group => true | _ => false end.

Definition is_knockout (s : Stage.t) : bool :=
  match s with Stage.knockout => true | _ => false end.

(** [_checkGroupsCompletion()] *)
Definition _checkGroupsCompletion (this : t) : t :=
  let allGroupsCompleted :=
    forallb (fun g => Helpers.areAllMatchesPlayed (GroupData.matches g)) (groups this) in
  if allGroupsCompleted && is_group (currentStage this) then
    let qualifiedTeams := Helpers.determineQualifiedTeams (groups this) in
    let this :=
      set_knockout this
        (Some (Helpers.generateKnockoutStage qualifiedTeams (groupCount this))) in
    let this := set_currentStage this Stage.knockout in
    let names := map (fun item => Row.name (Qualifier.team item)) in
    _addEvent this
      (group_stage_completed
         (names (Qualified.winners qualifiedTeams))
         (names (Qualified.runnersUp qualifiedTeams))
         (names (Qualified.bestThirds qualifiedTeams)))
  else this.

(** [_updateKnockoutProgression(match)].  The rounds are those of
    [this.knockout]; the caller has checked that they exist. *)
Definition _updateKnockoutProgression (this : t) (m : Match.t) : t :=
  match Match.winner m with
  | None => this
  | Some winner =>
    let rounds := default [] (knockout this) in
    match locate Round.matches (Match.id m) rounds with
    | None => this
    | Some (roundIndex, matchPosition) =>
      if (roundIndex + 1 <? length rounds)%nat then
        match rounds !! (roundIndex + 1)%nat with
        | None => this
        | Some nextRound =>
          let nextMatchIndex := (matchPosition / 2)%nat in
          if (nextMatchIndex <? length (Round.matches nextRound))%nat then
            let isHome := (matchPosition mod 2 =? 0)%nat in
            let nextMatches :=
              if isHome
              then alter (fun n => Match.set_homeTeam n winner) nextMatchIndex
                     (Round.matches nextRound)
              else alter (fun n => Match.set_awayTeam n winner) nextMatchIndex
                     (Round.matches nextRound) in
            let rounds :=
              <[(roundIndex + 1)%nat := Round.set_matches nextRound nextMatches]> rounds in
            let this := set_knockout this (Some rounds) in
            _addEvent this
              (team_advanced (Team.name winner) (Match.round m) (Round.round nextRound))
          else this
        end
      else
        let this := set_status this Status.completed in
        _addEvent this (tournament_completed (Team.name winner))
    end
  end.

(** [updateMatchResult(matchId, homeScore, awayScore)] *)
Definition updateMatchResult (this : t) (matchId : string)
    (homeScore awayScore : Js.num) : bool * t :=
  let '(matchUpdated, this) :=
    if is_group (currentStage this) then
      match locate GroupData.matches matchId (groups this) with
      | Some (groupIndex, matchIndex) =>
        match groups this !! groupIndex with
        | Some group =>
          let group :=
            GroupData.set_matches group
              (alter (fun m => Helpers.updateMatchResult m homeScore awayScore)
                 matchIndex (GroupData.matches group)) in
          let group :=
            GroupData.set_standings group
              (Helpers.calculateGroupStandings (GroupData.teams group)
                 (GroupData.matches group)) in
          let this := set_groups this (<[groupIndex := group]> (groups this)) in
          let this :=
            if Helpers.areAllMatchesPlayed (GroupData.matches group)
            then _checkGroupsCompletion this else this in
          (true, this)
        | None => (false, this)
        end
      | None => (false, this)
      end
    else if is_knockout (currentStage this) then
      match knockout this with
      | Some rounds =>
        match locate Round.matches matchId rounds with
        | Some (roundIndex, matchIndex) =>
          match rounds !! roundIndex with
          | Some round =>
            let matches :=
              alter (fun m => Helpers.updateMatchResult m homeScore awayScore)
                matchIndex (Round.matches round) in
            let this :=
              set_knockout this
                (Some (<[roundIndex := Round.set_matches round matches]> rounds)) in
            let this :=
              match matches !! matchIndex with
              | Some m => _updateKnockoutProgression this m
              | None => this
              end in
            (true, this)
          | None => (false, this)
          end
        | None => (false, this)
        end
      | None => (false, this)
      end
    else (false, this) in
  if matchUpdated
  then (true, _addEvent this (match_updated matchId homeScore awayScore))
  else (false, this).

(** [_countTotalMatches()] *)
Definition _countTotalMatches (this : t) : Z :=
  let count :=
    fold_left (fun count group =>
      (count + Z.of_nat (length (GroupData.matches group)))%Z) (groups this) 0%Z in
  match knockout this with
  | Some rounds =>
    fold_left (fun count round =>
      (count + Z.of_nat (length (Round.matches round)))%Z) rounds count
  | None => count
  end.

(** [_countPlayedMatches()] *)
Definition _countPlayedMatches (this : t) : Z :=
  let count :=
    fold_left (fun count group =>
      (count + Z.of_nat (length (List.filter Match.played (GroupData.matches group))))%Z)
      (groups this) 0%Z in
  match knockout this with
  | Some rounds =>
    fold_left (fun count round =>
      (count + Z.of_nat (length (List.filter Match.played (Round.matches round))))%Z)
      rounds count
  | None => count
  end.

(** [_countTotalTeams()] *)
Definition _countTotalTeams (this : t) : Z :=
  fold_left (fun count group =>
    (count + Z.of_nat (length (GroupData.teams group)))%Z) (groups this) 0%Z.

(** [getMatchesByMatchday(matchday)]: copies of the matches, their
    [group] overwritten with the name of the group. *)
Definition getMatchesByMatchday (this : t) (matchday : Z) : list Match.t :=
  concat (map (fun group =>
    map (fun m => Match.set_group m (Some (GroupData.name group)))
      (List.filter (fun m => bool_decide (Match.matchday m = Some matchday))
         (GroupData.matches group))) (groups this)).

(** [getTotalMatchdays()] *)
Definition getTotalMatchdays (this : t) : Z := 3.

(** [_generateTeamId()] and [_generateGroupId()]: a prefix followed by the
    time and random digits in base 36, here [suffix]. *)
Definition _generateTeamId (suffix : string) : string := "team_" +:+ suffix.

Definition _generateGroupId (suffix : string) : string := "group_" +:+ suffix.

(** The team put into a group for an entry of the team list: a name gets
    a generated identifier, and so does an object whose identifier is
    missing or empty. *)
Definition entered (suffix : string) (entry : Entrant) : Team.t :=
  match entry with
  | team_name name =>
    {| Team.id := Some (_generateTeamId suffix); Team.name := name |}
  | team_object team =>
    if Js.truthy_string (Team.id team) then team
    else {| Team.id := Some (_generateTeamId suffix); Team.name := Team.name team |}
  end.

(** [_initializeGroups(teamNames)]; [None] is the error 'Not enough teams
    provided'.  The name of group [i] is [String.fromCharCode(65 + i)], a
    single code unit. *)
Definition _initializeGroups (d : Drawn.t) (this : t) (teamNames : list Entrant)
    : option t :=
  let teamsPerGroup := 4%nat in
  let requiredTeams := (groupCount this * Z.of_nat teamsPerGroup)%Z in
  if (Z.of_nat (length teamNames) <? requiredTeams)%Z then None
  else
    let shuffledTeams := Helpers.shuffleArray (Drawn.draw d) teamNames in
    Some (set_groups this
      (map (fun i : nat =>
         let groupTeams :=
           omap (fun j : nat =>
             let teamIndex := (i * teamsPerGroup + j)%nat in
             entered (Drawn.teamSuffix d teamIndex) <$> shuffledTeams !! teamIndex)
             (seq 0 teamsPerGroup) in
         let matches :=
           concat (map snd (Helpers.generateMatchSchedule (Drawn.clock d i) groupTeams)) in
         {| GroupData.id := _generateGroupId (Drawn.groupSuffix d i);
            GroupData.name := String (ascii_of_nat (65 + i)) "";
            GroupData.teams := groupTeams;
            GroupData.matches := matches;
            GroupData.standings := Helpers.calculateGroupStandings groupTeams matches |})
         (seq 0 (Z.to_nat (groupCount this))))).

(** [_generateId()]: ['tournament_'] followed by the time and random
    digits in base 36, here [suffix]. *)
Definition _generateId (suffix : string) : string := "tournament_" +:+ suffix.

(** [constructor(config = {})].  The timestamps of the tournament, which
    the engine never reads, are not part of the record; [knockout] and
    [events], which the source assigns after the groups, do not depend on
    them. *)
Definition constructor (d : Drawn.t) (config : TournamentConfig.t) : option t :=
  let this :=
    {| id :=
         if Js.truthy_string (TournamentConfig.id config)
         then default "" (TournamentConfig.id config)
         else _generateId (Drawn.idSuffix d);
       name :=
         if Js.truthy_string (TournamentConfig.name config)
         then default "" (TournamentConfig.name config)
         else "New Tournament";
       groupCount :=
         if Js.truthy_int (TournamentConfig.groupCount config)
         then default 1%Z (TournamentConfig.groupCount config) else 1%Z;
       currentStage := default Stage.group (TournamentConfig.currentStage config);
       status := default Status.active (TournamentConfig.status config);
       groups := default [] (TournamentConfig.groups config);
       knockout := TournamentConfig.knockout config;
       events := default [] (TournamentConfig.events config) |} in
  match TournamentConfig.teams config with
  | Some teams =>
    if (0 <? length teams)%nat && (length (groups this) =? 0)%nat
    then _initializeGroups d this teams
    else Some this
  | None => Some this
  end.

(** [serialize()] *)
Definition serialize (this : t) : TournamentConfig.t :=
  {| TournamentConfig.id := Some (id this);
     TournamentConfig.name := Some (name this);
     TournamentConfig.groupCount := Some (groupCount this);
     TournamentConfig.currentStage := Some (currentStage this);
     TournamentConfig.status := Some (status this);
     TournamentConfig.groups := Some (groups this);
     TournamentConfig.teams := None;
     TournamentConfig.knockout := knockout this;
     TournamentConfig.events := Some (events this) |}.

(** [static deserialize(data)] *)
Definition deserialize (d : Drawn.t) (data : TournamentConfig.t) : option t :=
  constructor d data.

End Tournament.

(** ** The controllers *)

(** What the listeners of the tournament controller are sent.  The
    [tournamentSaved] notification depends on the storage and is not
    recorded. *)
Inductive Notification : Type :=
  | stageChanged (previousStage newStage : Stage.t)
  | matchUpdated (matchId : string)
  | tournamentCompleted (winner : option Team.t).

(** The fields of the held [Tournament] instance that the controllers
    write.  Its [knockout] array holds the very round objects of the
    knockout controller's [_rounds], which the state below stores once. *)
Module Held.
Record t : Type := { status : Status.t; currentStage : Stage.t }.
End Held.

(** The private variables of the knockout controller ([_rounds] and
    [_tournamentController], set by [init]) and of the tournament
    controller ([_tournament], [_currentStage], [_isLoading]), with the
    notifications sent so far.  The current-round cursor and the listener
    table, which no operation below reads, are left out. *)
Module App.
Record t : Type := {
  _rounds : list Round.t;
  _tournamentController : bool;
  _tournament : option Held.t;
  _currentStage : Stage.t;
  _isLoading : bool;
  notifications : list Notification
}.

Definition set_rounds (s : t) (v : list Round.t) : t :=
  {| _rounds := v; _tournamentController := _tournamentController s;
     _tournament := _tournament s; _currentStage := _currentStage s;
     _isLoading := _isLoading s; notifications := notifications s |}.

Definition set_tournament (s : t) (v : option Held.t) : t :=
  {| _rounds := _rounds s; _tournamentController := _tournamentController s;
     _tournament := v; _currentStage := _currentStage s;
     _isLoading := _isLoading s; notifications := notifications s |}.

Definition set_currentStage (s : t) (v : Stage.t) : t :=
  {| _rounds := _rounds s; _tournamentController := _tournamentController s;
     _tournament := _tournament s; _currentStage := v;
     _isLoading := _isLoading s; notifications := notifications s |}.
End App.

(** *** [TournamentController] (js/controllers/tournamentController.js) *)

Module TournamentController.

(** [_triggerEvent(eventName, data)] *)
Definition _triggerEvent (n : Notification) (s : App.t) : App.t :=
  {| App._rounds := App._rounds s;
     App._tournamentController := App._tournamentController s;
     App._tournament := App._tournament s;
     App._currentStage := App._currentStage s;
     App._isLoading := App._isLoading s;
     App.notifications := App.notifications s ++ [n] |}.

(** [saveTournament()]: before handing the serialized tournament to the
    storage it copies the controller's stage into the tournament (its
    groups and rounds are the controllers' own objects); a failure of the
    storage is caught and changes nothing here. *)
Definition saveTournament (s : App.t) : App.t :=
  match App._tournament s with
  | None => s
  | Some t =>
    App.set_tournament s
      (Some {| Held.status := Held.status t;
               Held.currentStage := App._currentStage s |})
  end.

(** [setCurrentStage(stage)] *)
Definition setCurrentStage (stage : Stage.t) (s : App.t) : App.t :=
  let previousStage := App._currentStage s in
  let s := App.set_currentStage s stage in
  let s :=
    match App._tournament s with
    | Some t =>
      saveTournament
        (App.set_tournament s
           (Some {| Held.status := Held.status t; Held.currentStage := stage |}))
    | None => s
    end in
  _triggerEvent (stageChanged previousStage stage) s.

(** [notifyKnockoutMatchUpdated(matchId)] *)
Definition notifyKnockoutMatchUpdated (matchId : string) (s : App.t) : App.t :=
  if App._isLoading s then s
  else _triggerEvent (matchUpdated matchId) (saveTournament s).

(** [notifyTournamentCompleted(winner)]; [None] is the [TypeError] of
    writing [status] when no tournament is held. *)
Definition notifyTournamentCompleted (winner : option Team.t) (s : App.t)
    : option App.t :=
  if App._isLoading s then Some s
  else
    match App._tournament s with
    | None => None
    | Some t =>
      let s :=
        App.set_tournament s
          (Some {| Held.status := Status.completed;
                   Held.currentStage := Held.currentStage t |}) in
      let s := setCurrentStage Stage.complete s in
      let s := saveTournament s in
      Some (_triggerEvent (tournamentCompleted winner) s)
    end.

End TournamentController.

(** The object [getKnockoutStageStats()] returns.  Its
    [averageGoalsPerMatch], the two-decimal rendering of a floating-point
    quotient, is left out. *)
Module KnockoutStats.
Record t : Type := {
  rounds : Z;
  matches : Z;
  matchesPlayed : Z;
  matchesRemaining : Z;
  totalGoals : Js.num;
  extraTimeMatches : Z;
  penaltyShootouts : Z;
  upsets : Z;
  completed : bool
}.
End KnockoutStats.

(** *** [KnockoutController] (js/controllers/knockoutController.js) *)

Module KnockoutController.

(** [new Match({ id, homeTeam, awayTeam, round, roundIndex, date })].
    Every identifier the controller passes is non-empty, so none is
    generated. *)
Definition newMatch (id : string) (homeTeam awayTeam : Team.t)
    (round : string) (roundIndex : Z) : Match.t :=
  Match.constructor id
    {| Config.id := Some id;
       Config.homeTeam := Some homeTeam;
       Config.awayTeam := Some awayTeam;
       Config.homeScore := None;
       Config.awayScore := None;
       Config.played := None;
       Config.matchday := None;
       Config.round := Some round;
       Config.roundIndex := Some roundIndex;
       Config.group := None;
       Config.winner := None;
       Config.extraTime := None;
       Config.penalties := None |}.

(** [a || b] on array reads. *)
Definition orElse {A} (a b : option A) : option A :=
  match a with
  | Some _ => a
  | None => b
  end.

(** The loop [pairings.forEach((pair, index) => { if (pair.home &&
    pair.away) matches.push(new Match(...)) })]. *)
Definition matchesOf (prefix round : string) (roundIndex : Z)
    (pairings : list (option Qualifier.t * option Qualifier.t)) : list Match.t :=
  omap (fun x => x)
    (imap (fun index (pair : option Qualifier.t * option Qualifier.t) =>
      home ← pair.1;
      away ← pair.2;
      Some (newMatch (prefix +:+ pretty index)
              (Row.team (Qualifier.team home)) (Row.team (Qualifier.team away))
              round roundIndex)) pairings).

(** [generateRoundOf16(winners, runnersUp, bestThirds)] *)
Definition generateRoundOf16 (winners runnersUp bestThirds : list Qualifier.t)
    : list Match.t :=
  matchesOf "r16_" "Round of 16" 0
    [ (winners !! 0%nat, runnersUp !! 3%nat);
      (winners !! 1%nat, runnersUp !! 2%nat);
      (winners !! 2%nat, runnersUp !! 1%nat);
      (winners !! 3%nat, runnersUp !! 0%nat);
      (winners !! 4%nat, bestThirds !! 0%nat);
      (winners !! 5%nat, bestThirds !! 1%nat);
      (orElse (winners !! 6%nat) (bestThirds !! 2%nat),
       orElse (bestThirds !! 3%nat) (runnersUp !! 5%nat));
      (orElse (winners !! 7%nat) (bestThirds !! 3%nat),
       orElse (bestThirds !! 2%nat) (runnersUp !! 4%nat)) ].

(** [roundName.toLowerCase().replace(/\s+/g, '_')] on ASCII text. *)
Definition lower (c : ascii) : ascii :=
  let n := nat_of_ascii c in
  if (65 <=? n)%nat && (n <=? 90)%nat then ascii_of_nat (n + 32) else c.

Definition isSpace (c : ascii) : bool :=
  let n := nat_of_ascii c in
  (n =? 32)%nat || ((9 <=? n)%nat && (n <=? 13)%nat).

Fixpoint slug (inSpace : bool) (s : string) : string :=
  match s with
  | EmptyString => EmptyString
  | String c s' =>
    if isSpace c
    then if inSpace then slug true s' else String "_" (slug true s')
    else String (lower c) (slug false s')
  end.

(** [generateEmptyRound(count, roundName = '', roundIndex = 0)] *)
Definition generateEmptyRound (count : nat) (roundName : string)
    (roundIndex : Z) : list Match.t :=
  map (fun i : nat =>
    newMatch (slug false roundName +:+ "_" +:+ pretty i) TBD TBD roundName roundIndex)
    (seq 0 count).

(** [generateQuarterfinals(winners, runnersUp, bestThirds)] *)
Definition generateQuarterfinals (winners runnersUp bestThirds : list Qualifier.t)
    : list Match.t :=
  if (0 <? length winners)%nat || (0 <? length runnersUp)%nat
     || (0 <? length bestThirds)%nat
  then
    let pairings :=
      match length winners with
      | 2%nat =>
        [ (winners !! 0%nat, runnersUp !! 1%nat);
          (winners !! 1%nat, runnersUp !! 0%nat) ]
      | 3%nat =>
        [ (winners !! 0%nat, bestThirds !! 0%nat);
          (winners !! 1%nat, runnersUp !! 2%nat);
          (winners !! 2%nat, runnersUp !! 1%nat);
          (runnersUp !! 0%nat, bestThirds !! 1%nat) ]
      | 4%nat =>
        [ (winners !! 0%nat, runnersUp !! 3%nat);
          (winners !! 1%nat, runnersUp !! 2%nat);
          (winners !! 2%nat, runnersUp !! 1%nat);
          (winners !! 3%nat, runnersUp !! 0%nat) ]
      | _ =>
        let allTeams := winners ++ runnersUp ++ bestThirds in
        omap (fun i : nat =>
          if (i <? Nat.min 8 (length allTeams))%nat
             && (i + 1 <? length allTeams)%nat
          then Some (allTeams !! i, allTeams !! (i + 1)%nat)
          else None) [0; 2; 4; 6]%nat
      end in
    matchesOf "qf_" "Quarterfinals" 1 pairings
  else generateEmptyRound 4 "Quarterfinals" 1.

(** [generateSemifinals(teams)] *)
Definition generateSemifinals (teams : list Qualifier.t) : list Match.t :=
  if (0 <? length teams)%nat then
    match teams !! 0%nat, teams !! 1%nat, teams !! 2%nat, teams !! 3%nat with
    | Some t0, Some t1, Some t2, Some t3 =>
      let roundIndex := if (4 <? length teams)%nat then 2%Z else 1%Z in
      [ newMatch "sf_0" (Row.team (Qualifier.team t0)) (Row.team (Qualifier.team t3))
          "Semifinals" roundIndex;
        newMatch "sf_1" (Row.team (Qualifier.team t1)) (Row.team (Qualifier.team t2))
          "Semifinals" roundIndex ]
    | _, _, _, _ => []
    end
  else generateEmptyRound 2 "Semifinals" 2.

(** [generateFinals()] *)
Definition generateFinals : list Match.t :=
  [ newMatch "final_0" TBD TBD "Final" 3 ].

(** [generateKnockoutStage(qualifiedTeams, groupCount)]: the rounds it
    returns, which it also stores in [_rounds]. *)
Definition generateKnockoutStage (qualifiedTeams : Qualified.t)
    (groupCount : Z) (s : App.t) : list Round.t * App.t :=
  let winners := Qualified.winners qualifiedTeams in
  let runnersUp := Qualified.runnersUp qualifiedTeams in
  let bestThirds := Qualified.bestThirds qualifiedTeams in
  let round name matches :=
    {| Round.name := Some name; Round.round := None; Round.matches := matches |} in
  let stored knockoutStage := (knockoutStage, App.set_rounds s knockoutStage) in
  if (groupCount =? 1)%Z then
    stored
      [ round "Semifinals" (generateSemifinals winners);
        round "Final" generateFinals ]
  else if (groupCount =? 2)%Z || (groupCount =? 3)%Z || (groupCount =? 4)%Z then
    stored
      [ round "Quarterfinals" (generateQuarterfinals winners runnersUp bestThirds);
        round "Semifinals" (generateSemifinals []);
        round "Final" generateFinals ]
  else if (groupCount =? 6)%Z || (groupCount =? 8)%Z then
    stored
      [ round "Round of 16" (generateRoundOf16 winners runnersUp bestThirds);
        round "Quarterfinals" (generateEmptyRound 4 "" 0);
        round "Semifinals" (generateEmptyRound 2 "" 0);
        round "Final" generateFinals ]
  else ([], s).

(** [progressWinnerToNextRound(match, roundIndex, matchIndex)] on [_rounds] *)
Definition progressWinnerToNextRound (m : Match.t) (roundIndex matchIndex : nat)
    (_rounds : list Round.t) : list Round.t :=
  match Match.winner m with
  | None => _rounds
  | Some winner =>
    if (Z.of_nat roundIndex >=? Z.of_nat (length _rounds) - 1)%Z then _rounds
    else
      let nextRoundIndex := (roundIndex + 1)%nat in
      let nextMatchIndex := (matchIndex / 2)%nat in
      match _rounds !! nextRoundIndex with
      | Some nextRound =>
        match Round.matches nextRound !! nextMatchIndex with
        | Some nextMatch =>
          let isHome := (matchIndex mod 2 =? 0)%nat in
          let nextMatch :=
            if isHome then Match.set_homeTeam nextMatch winner
            else Match.set_awayTeam nextMatch winner in
          <[nextRoundIndex :=
              Round.set_matches nextRound
                (<[nextMatchIndex := nextMatch]> (Round.matches nextRound))]> _rounds
        | None => _rounds
        end
      | None => _rounds
      end
  end.

(** [isTournamentComplete()] *)
Definition isTournamentComplete (s : App.t) : bool :=
  match last (App._rounds s) with
  | None => false
  | Some finalRound => forallb Match.played (Round.matches finalRound)
  end.

(** [getTournamentWinner()] *)
Definition getTournamentWinner (s : App.t) : option Team.t :=
  if negb (isTournamentComplete s) then None
  else
    match last (App._rounds s) with
    | None => None
    | Some finalRound =>
      match Round.matches finalRound with
      | [] => None
      | finalMatch :: _ => Match.winner finalMatch
      end
    end.

(** [getMatchById(matchId)] on [_rounds] *)
Fixpoint getMatchById (_rounds : list Round.t) (matchId : string)
    : option Match.t :=
  match _rounds with
  | [] => None
  | round :: rest =>
    match List.find (fun m => bool_decide (Match.id m = matchId)) (Round.matches round) with
    | Some m => Some m
    | None => getMatchById rest matchId
    end
  end.

(** The part of [updateMatchResult] that writes the result into the match
    found (from 'Update the match result' to 'Ensure there's a winner for
    knockout matches'). *)
Definition recordResult (m : Match.t) (homeScore awayScore : Js.num)
    (extraTimeScores penaltyScores : option (Js.num * Js.num)) : Match.t :=
  let m := Match.updateResult m homeScore awayScore in
  let m :=
    match extraTimeScores with
    | Some (home, away) =>
      let m :=
        Match.set_extraTime m
          {| ExtraTime.played := true; ExtraTime.homeScore := Some home;
             ExtraTime.awayScore := Some away |} in
      let totalHomeScore :=
        Js.add (Js.toNumber (Match.homeScore m))
               (Js.toNumber (ExtraTime.homeScore (Match.extraTime m))) in
      let totalAwayScore :=
        Js.add (Js.toNumber (Match.awayScore m))
               (Js.toNumber (ExtraTime.awayScore (Match.extraTime m))) in
      if Js.gt totalHomeScore totalAwayScore
      then Match.set_winner m (Some (Match.homeTeam m))
      else if Js.gt totalAwayScore totalHomeScore
      then Match.set_winner m (Some (Match.awayTeam m))
      else Match.set_winner m None
    | None => m
    end in
  let m :=
    match penaltyScores with
    | Some (home, away) =>
      let m :=
        Match.set_penalties m
          {| Penalties.played := true; Penalties.homeScore := Some home;
             Penalties.awayScore := Some away;
             Penalties.winner := Penalties.winner (Match.penalties m) |} in
      let p := Match.penalties m in
      if Js.gt home away then
        Match.set_penalties (Match.set_winner m (Some (Match.homeTeam m)))
          {| Penalties.played := Penalties.played p;
             Penalties.homeScore := Penalties.homeScore p;
             Penalties.awayScore := Penalties.awayScore p;
             Penalties.winner := Some (Match.homeTeam m) |}
      else if Js.lt home away then
        Match.set_penalties (Match.set_winner m (Some (Match.awayTeam m)))
          {| Penalties.played := Penalties.played p;
             Penalties.homeScore := Penalties.homeScore p;
             Penalties.awayScore := Penalties.awayScore p;
             Penalties.winner := Some (Match.awayTeam m) |}
      else m
    | None => m
    end in
  match Match.winner m with
  | Some _ => m
  | None =>
    if Js.gt homeScore awayScore then Match.set_winner m (Some (Match.homeTeam m))
    else if Js.gt awayScore homeScore then Match.set_winner m (Some (Match.awayTeam m))
    else m
  end.

(** [updateMatchResult(matchId, homeScore, awayScore, extraTimeScores,
    penaltyScores)]; [None] is a [TypeError] raised on the way. *)
Definition updateMatchResult (matchId : string) (homeScore awayScore : Js.num)
    (extraTimeScores penaltyScores : option (Js.num * Js.num)) (s : App.t)
    : option (bool * App.t) :=
  match locate Round.matches matchId (App._rounds s) with
  | None => Some (false, s)
  | Some (roundIndex, matchIndex) =>
    match App._rounds s !! roundIndex with
    | None => Some (false, s)
    | Some round =>
      match Round.matches round !! matchIndex with
      | None => Some (false, s)
      | Some m =>
        let m := recordResult m homeScore awayScore extraTimeScores penaltyScores in
        let s :=
          App.set_rounds s
            (<[roundIndex :=
                 Round.set_matches round (<[matchIndex := m]> (Round.matches round))]>
               (App._rounds s)) in
        let s :=
          App.set_rounds s
            (progressWinnerToNextRound m roundIndex matchIndex (App._rounds s)) in
        if App._tournamentController s then
          let s := TournamentController.notifyKnockoutMatchUpdated (Match.id m) s in
          if isTournamentComplete s then
            s ← TournamentController.notifyTournamentCompleted (getTournamentWinner s) s;
            Some (true, s)
          else Some (true, s)
        else Some (true, s)
      end
    end
  end.

(** [getRoundByName(roundName)] *)
Definition getRoundByName (s : App.t) (roundName : string) : option Round.t :=
  List.find (fun round => bool_decide (Round.name round = Some roundName))
    (App._rounds s).

(** [isKnockoutStageCompleted()] *)
Definition isKnockoutStageCompleted (s : App.t) : bool :=
  if (length (App._rounds s) =? 0)%nat then false
  else
    forallb (fun round => forallb Match.played (Round.matches round))
      (App._rounds s).

(** The body of the inner loop of [getKnockoutStageStats]. *)
Definition counted (stats : KnockoutStats.t) (m : Match.t) : KnockoutStats.t :=
  let matches := (KnockoutStats.matches stats + 1)%Z in
  if Match.played m then
    let totalGoals :=
      Js.add (KnockoutStats.totalGoals stats)
        (Js.add (Js.toNumber (Match.homeScore m)) (Js.toNumber (Match.awayScore m))) in
    let '(extraTimeMatches, totalGoals) :=
      if ExtraTime.played (Match.extraTime m)
      then ((KnockoutStats.extraTimeMatches stats + 1)%Z,
            Js.add totalGoals
              (Js.add (Js.toNumber (ExtraTime.homeScore (Match.extraTime m)))
                      (Js.toNumber (ExtraTime.awayScore (Match.extraTime m)))))
      else (KnockoutStats.extraTimeMatches stats, totalGoals) in
    {| KnockoutStats.rounds := KnockoutStats.rounds stats;
       KnockoutStats.matches := matches;
       KnockoutStats.matchesPlayed := (KnockoutStats.matchesPlayed stats + 1)%Z;
       KnockoutStats.matchesRemaining := KnockoutStats.matchesRemaining stats;
       KnockoutStats.totalGoals := totalGoals;
       KnockoutStats.extraTimeMatches := extraTimeMatches;
       KnockoutStats.penaltyShootouts :=
         if Penalties.played (Match.penalties m)
         then (KnockoutStats.penaltyShootouts stats + 1)%Z
         else KnockoutStats.penaltyShootouts stats;
       KnockoutStats.upsets := KnockoutStats.upsets stats;
       KnockoutStats.completed := KnockoutStats.completed stats |}
  else
    {| KnockoutStats.rounds := KnockoutStats.rounds stats;
       KnockoutStats.matches := matches;
       KnockoutStats.matchesPlayed := KnockoutStats.matchesPlayed stats;
       KnockoutStats.matchesRemaining := (KnockoutStats.matchesRemaining stats + 1)%Z;
       KnockoutStats.totalGoals := KnockoutStats.totalGoals stats;
       KnockoutStats.extraTimeMatches := KnockoutStats.extraTimeMatches stats;
       KnockoutStats.penaltyShootouts := KnockoutStats.penaltyShootouts stats;
       KnockoutStats.upsets := KnockoutStats.upsets stats;
       KnockoutStats.completed := KnockoutStats.completed stats |}.

(** [getKnockoutStageStats()] *)
Definition getKnockoutStageStats (s : App.t) : KnockoutStats.t :=
  let stats :=
    {| KnockoutStats.rounds := Z.of_nat (length (App._rounds s));
       KnockoutStats.matches := 0; KnockoutStats.matchesPlayed := 0;
       KnockoutStats.matchesRemaining := 0;
       KnockoutStats.totalGoals := Js.Int 0;
       KnockoutStats.extraTimeMatches := 0;
       KnockoutStats.penaltyShootouts := 0; KnockoutStats.upsets := 0;
       KnockoutStats.completed := false |} in
  let stats :=
    fold_left (fun stats round => fold_left counted (Round.matches round) stats)
      (App._rounds s) stats in
  {| KnockoutStats.rounds := KnockoutStats.rounds stats;
     KnockoutStats.matches := KnockoutStats.matches stats;
     KnockoutStats.matchesPlayed := KnockoutStats.matchesPlayed stats;
     KnockoutStats.matchesRemaining := KnockoutStats.matchesRemaining stats;
     KnockoutStats.totalGoals := KnockoutStats.totalGoals stats;
     KnockoutStats.extraTimeMatches := KnockoutStats.extraTimeMatches stats;
     KnockoutStats.penaltyShootouts := KnockoutStats.penaltyShootouts stats;
     KnockoutStats.upsets := KnockoutStats.upsets stats;
     KnockoutStats.completed := isKnockoutStageCompleted s |}.

(** The assignments [resetKnockoutStage] makes to one match. *)
Definition cleared (m : Match.t) : Match.t :=
  let m := Match.set_homeScore m None in
  let m := Match.set_awayScore m None in
  let m := Match.set_played m false in
  let m := Match.set_winner m None in
  let m := Match.set_extraTime m ExtraTime.initial in
  Match.set_penalties m Penalties.initial.

(** [resetKnockoutStage()] *)
Definition resetKnockoutStage (s : App.t) : App.t :=
  App.set_rounds s
    (map (fun round => Round.set_matches round (map cleared (Round.matches round)))
       (App._rounds s)).

End KnockoutController.

(** *** [MatchController] (js/controllers/matchController.js) *)

(** The object [getHeadToHeadStats] returns. *)
Module HeadToHead.
Record t : Type := {
  matches : Z;
  team1Wins : Z;
  team2Wins : Z;
  draws : Z;
  team1Goals : Js.num;
  team2Goals : Js.num
}.
End HeadToHead.

Module MatchController.

(** [getMatchesByStatus(status)] on the loaded matches [_matches]. *)
Definition getMatchesByStatus (_matches : list Match.t) (status : string)
    : list Match.t :=
  List.filter (fun m =>
    if bool_decide (status = "scheduled") then negb (Match.played m)
    else if bool_decide (status = "completed") then Match.played m
    else false) _matches.

(** The body of the loop of [getHeadToHeadStats]. *)
Definition faced (teamId1 : option string) (stats : HeadToHead.t) (m : Match.t)
    : HeadToHead.t :=
  if negb (Match.played m) then stats
  else
    let matches := (HeadToHead.matches stats + 1)%Z in
    let homeScore := Js.toNumber (Match.homeScore m) in
    let awayScore := Js.toNumber (Match.awayScore m) in
    let '(goals1, goals2) :=
      if Js.id_eq (Team.id (Match.homeTeam m)) teamId1
      then (homeScore, awayScore) else (awayScore, homeScore) in
    {| HeadToHead.matches := matches;
       HeadToHead.team1Wins :=
         if Js.gt goals1 goals2 then (HeadToHead.team1Wins stats + 1)%Z
         else HeadToHead.team1Wins stats;
       HeadToHead.team2Wins :=
         if Js.gt goals1 goals2 then HeadToHead.team2Wins stats
         else if Js.lt goals1 goals2 then (HeadToHead.team2Wins stats + 1)%Z
         else HeadToHead.team2Wins stats;
       HeadToHead.draws :=
         if Js.gt goals1 goals2 then HeadToHead.draws stats
         else if Js.lt goals1 goals2 then HeadToHead.draws stats
         else (HeadToHead.draws stats + 1)%Z;
       HeadToHead.team1Goals := Js.add (HeadToHead.team1Goals stats) goals1;
       HeadToHead.team2Goals := Js.add (HeadToHead.team2Goals stats) goals2 |}.

(** [getHeadToHeadStats(teamId1, teamId2)] on the loaded matches. *)
Definition getHeadToHeadStats (_matches : list Match.t)
    (teamId1 teamId2 : option string) : HeadToHead.t :=
  let headToHeadMatches :=
    List.filter (fun m =>
      (Js.id_eq (Team.id (Match.homeTeam m)) teamId1
         && Js.id_eq (Team.id (Match.awayTeam m)) teamId2)
      || (Js.id_eq (Team.id (Match.homeTeam m)) teamId2
         && Js.id_eq (Team.id (Match.awayTeam m)) teamId1)) _matches in
  fold_left (faced teamId1) headToHeadMatches
    {| HeadToHead.matches := 0; HeadToHead.team1Wins := 0;
       HeadToHead.team2Wins := 0; HeadToHead.draws := 0;
       HeadToHead.team1Goals := Js.Int 0; HeadToHead.team2Goals := Js.Int 0 |}.

(** [formatMatchResult(match)] *)
Definition formatMatchResult (m : option Match.t) : string :=
  match m with
  | None => ""
  | Some m =>
    if negb (Match.played m) then "vs"
    else
      let result :=
        Js.show (Match.homeScore m) +:+ " - " +:+ Js.show (Match.awayScore m) in
      let result :=
        if ExtraTime.played (Match.extraTime m)
        then result +:+ " (AET: "
               +:+ Js.show (ExtraTime.homeScore (Match.extraTime m)) +:+ " - "
               +:+ Js.show (ExtraTime.awayScore (Match.extraTime m)) +:+ ")"
        else result in
      if Penalties.played (Match.penalties m)
      then result +:+ " (Pen: "
             +:+ Js.show (Penalties.homeScore (Match.penalties m)) +:+ " - "
             +:+ Js.show (Penalties.awayScore (Match.penalties m)) +:+ ")"
      else result
  end.

End MatchController.

(** *** The result handlers of the views (js/views/knockoutView.js,
    js/views/matchView.js) *)

(** How a handler ends: it returns or it throws, in either case with the
    state it has reached. *)
Inductive ended (S : Type) : Type :=
  | Returned (s : S)
  | Threw (error : string) (s : S).
Arguments Returned {S} s.
Arguments Threw {S} error s.

Module KnockoutView.

(** The modal as the handler reads it: the text of each score field
    ([field.value]) and whether a check box is there and checked. *)
Record Form : Type := {
  homeTeamScore : string;
  awayTeamScore : string;
  extraTimeCheck : bool;
  homeExtraTimeScore : string;
  awayExtraTimeScore : string;
  penaltiesCheck : bool;
  homePenaltiesScore : string;
  awayPenaltiesScore : string
}.

(** One score check [isNaN(h) || isNaN(a) || h < 0 || a < 0]. *)
Definition invalid (h a : Js.num) : bool :=
  Js.isNaN h || Js.isNaN a || Js.lt h (Js.Int 0) || Js.lt a (Js.Int 0).

(** [_saveKnockoutMatchResult(matchId)].  [update] is the method
    [updateMatchResult] of the match controller the view was given, on a
    state of type [S]; every refusal returns before it is called. *)
Definition _saveKnockoutMatchResult {S : Type}
    (update : string -> Js.num -> Js.num -> option (Js.num * Js.num) ->
              option (Js.num * Js.num) -> S -> S)
    (matchId : string) (form : Form) (s : S) : S :=
  if bool_decide (matchId = "") then s
  else
    let homeScore := Js.parseInt (Js.Text (homeTeamScore form)) in
    let awayScore := Js.parseInt (Js.Text (awayTeamScore form)) in
    if invalid homeScore awayScore then s
    else
      let homeETScore := Js.parseInt (Js.Text (homeExtraTimeScore form)) in
      let awayETScore := Js.parseInt (Js.Text (awayExtraTimeScore form)) in
      if extraTimeCheck form && invalid homeETScore awayETScore then s
      else
        let extraTimeData :=
          if extraTimeCheck form then Some (homeETScore, awayETScore) else None in
        let homePenScore := Js.parseInt (Js.Text (homePenaltiesScore form)) in
        let awayPenScore := Js.parseInt (Js.Text (awayPenaltiesScore form)) in
        if penaltiesCheck form && invalid homePenScore awayPenScore then s
        else if penaltiesCheck form && negb (Js.strict_neq homePenScore awayPenScore)
        then s
        else
          let penaltiesData :=
            if penaltiesCheck form then Some (homePenScore, awayPenScore) else None in
          update matchId homeScore awayScore extraTimeData penaltiesData s.

End KnockoutView.

Module MatchView.

(** The save button's [dataset] and the text of the two score fields. *)
Record Modal : Type := {
  matchId : option string;
  stage : option string;
  homeTeamScore : string;
  awayTeamScore : string
}.

(** [_saveMatchResult()].  [_saveResultBtn] and [_matchController] tell
    whether the view holds the button and a match controller, [update] is
    that controller's [updateMatchResult] called with three arguments, and
    [knockoutView] whether the global [KnockoutView] is defined.  The object
    [KnockoutView] exports [init], [render] and [updateMatch] only, so the
    call [KnockoutView._saveKnockoutMatchResult(matchId)] throws. *)
Definition _saveMatchResult {S : Type}
    (update : string -> Js.num -> Js.num -> S -> S)
    (_saveResultBtn _matchController knockoutView : bool)
    (modal : Modal) (s : S) : ended S :=
  if negb _saveResultBtn || negb _matchController then Returned s
  else
    match matchId modal with
    | None => Returned s
    | Some matchId =>
      if bool_decide (matchId = "") then Returned s
      else
        let homeScore := Js.parseInt (Js.Text (homeTeamScore modal)) in
        let awayScore := Js.parseInt (Js.Text (awayTeamScore modal)) in
        if Js.isNaN homeScore || Js.isNaN awayScore
           || Js.lt homeScore (Js.Int 0) || Js.lt awayScore (Js.Int 0)
        then Returned s
        else
          let isKnockout := bool_decide (stage modal = Some "knockout") in
          if isKnockout && knockoutView
          then Threw "TypeError: KnockoutView._saveKnockoutMatchResult is not a function" s
          else Returned (update matchId homeScore awayScore s)
    end.

End MatchView.

(** ** Vocabulary of the statements *)

(** The fixture list of a set of matches: home side, away side, matchday. *)
Definition fixtures (ms : list Match.t) : list (Team.t * Team.t * option Z) :=
  map (fun m => (Match.homeTeam m, Match.awayTeam m, Match.matchday m)) ms.

(** Whether an entry of a match pattern opposes the positions [i] and [j]. *)
Definition opposes (i j : nat) (entry : nat * nat) : bool :=
  ((entry.1 =? i)%nat && (entry.2 =? j)%nat)
  || ((entry.1 =? j)%nat && (entry.2 =? i)%nat).

(** The six unordered pairs of positions in a group of four. *)
Definition position_pairs : list (nat * nat) :=
  [ (0, 1); (0, 2); (0, 3); (1, 2); (1, 3); (2, 3) ]%nat.

(** The columns the first three sorting steps compare. *)
Definition ranks (r : Row.t) : Z * Js.num * Js.num :=
  (Row.points r, Row.goalDifference r, Row.goalsFor r).

(** The accounting identities of a standings row. *)
Definition accounting (r : Row.t) : Prop :=
  (Row.played r = Row.won r + Row.drawn r + Row.lost r
   ∧ Row.points r = 3 * Row.won r + Row.drawn r)%Z.

Definition well_kept (r : Row.t) : Prop :=
  accounting r
  ∧ Row.goalDifference r = Js.sub (Row.goalsFor r) (Row.goalsAgainst r).

(** An identifier is listed when a team of the list carries it; a match
    is present when both of its sides are listed. *)
Definition listed (teams : list Team.t) (i : option string) : bool :=
  bool_decide (i ∈ map Team.id teams).

Definition present (teams : list Team.t) (m : Match.t) : bool :=
  listed teams (Team.id (Match.homeTeam m))
  && listed teams (Team.id (Match.awayTeam m)).

(** The two sides of each match, and the team of a qualifier. *)
Definition sides (ms : list Match.t) : list (Team.t * Team.t) :=
  map (fun m => (Match.homeTeam m, Match.awayTeam m)) ms.

Definition side (q : Qualifier.t) : Team.t := Row.team (Qualifier.team q).

(** The winner the result functions derive from two scores. *)
Definition outcome (m : Match.t) (h a : Js.num) : option Team.t :=
  if Js.gt h a then Some (Match.homeTeam m)
  else if Js.lt h a then Some (Match.awayTeam m)
  else None.

(** The shape of a bracket: per round, the identifiers of its matches in
    bracket order. *)
Definition shape (rounds : list Round.t) : list (list string) :=
  map (fun r => map Match.id (Round.matches r)) rounds.

(** The slot of a next-round match that the winner of the match at
    position [i] is written to, and the bracket once match [i / 2] of round
    [r + 1] has received it. *)
Definition advance (w : Team.t) (i : nat) (n : Match.t) : Match.t :=
  if Nat.even i then Match.set_homeTeam n w else Match.set_awayTeam n w.

Definition advanced (rounds : list Round.t) (r i : nat) (nextRound : Round.t)
    (nextMatch : Match.t) (w : Team.t) : list Round.t :=
  <[S r := Round.set_matches nextRound
             (<[(i / 2)%nat := advance w i nextMatch]> (Round.matches nextRound))]> rounds.

(** What a match holds besides its two sides. *)
Definition besides_sides (m : Match.t) :=
  (Match.id m, Match.homeScore m, Match.awayScore m, Match.played m,
   Match.matchday m, Match.round m, Match.roundIndex m, Match.group m,
   Match.winner m, Match.extraTime m, Match.penalties m).

(** The match [n'] is the match [n] with the team [w] in the slot that
    position [i] feeds: the home side when [i] is even, the away side when
    it is odd; the other side and everything else are those of [n]. *)
Definition received (i : nat) (w : Team.t) (n n' : Match.t) : Prop :=
  (if Nat.even i
   then Match.homeTeam n' = w ∧ Match.awayTeam n' = Match.awayTeam n
   else Match.awayTeam n' = w ∧ Match.homeTeam n' = Match.homeTeam n)
  ∧ besides_sides n' = besides_sides n.

(** The bracket [rounds'] is the bracket [rounds] in which the winner [w]
    of position [i] of round [r] has been progressed: match [i / 2] of
    round [r + 1] has received it, every other match of that round and
    every other round are as they were, and no round or match has been
    added or removed. *)
Definition progressed (rounds rounds' : list Round.t) (r i : nat) (w : Team.t)
    : Prop :=
  length rounds' = length rounds
  ∧ (∀ k round, k ≠ S r → rounds !! k = Some round → rounds' !! k = Some round)
  ∧ ∃ nextRound nextRound' n n',
      rounds !! S r = Some nextRound
      ∧ rounds' !! S r = Some nextRound'
      ∧ Round.name nextRound' = Round.name nextRound
      ∧ Round.round nextRound' = Round.round nextRound
      ∧ length (Round.matches nextRound') = length (Round.matches nextRound)
      ∧ (∀ j x, j ≠ (i / 2)%nat →
           Round.matches nextRound !! j = Some x → Round.matches nextRound' !! j = Some x)
      ∧ Round.matches nextRound !! (i / 2)%nat = Some n
      ∧ Round.matches nextRound' !! (i / 2)%nat = Some n'
      ∧ received i w n n'.

(** The matches of a run: a match is built by the constructor of the
    class, with a generated identifier when the configuration has none,
    and is then changed by the result methods of the class, by the result
    code of the knockout controller and by the progression, which assigns
    its sides. *)
Inductive built : Match.t → Prop :=
  | built_constructor (suffix : string) (config : Config.t) :
      built (Match.constructor (Match._generateId suffix) config)
  | built_updateResult (m : Match.t) (h a : Js.value) :
      built m → built (Match.updateResult m h a)
  | built_updateExtraTimeResult (m : Match.t) (h a : Js.value) :
      built m → built (Match.updateExtraTimeResult m h a)
  | built_updatePenaltyResult (m : Match.t) (h a : Js.value) :
      built m → built (Match.updatePenaltyResult m h a)
  | built_recordResult (m : Match.t) (h a : Js.num) (et pen : option (Js.num * Js.num)) :
      built m → built (KnockoutController.recordResult m h a et pen)
  | built_homeTeam (m : Match.t) (w : Team.t) :
      built m → built (Match.set_homeTeam m w)
  | built_awayTeam (m : Match.t) (w : Team.t) :
      built m → built (Match.set_awayTeam m w).

(** The tournaments of a run: a tournament is built by the constructor
    of the class, from a configuration or from serialized data, and is
    then changed by [updateMatchResult]. *)
Inductive run : Tournament.t → Prop :=
  | run_constructor (d : Drawn.t) (config : TournamentConfig.t) (t : Tournament.t) :
      Tournament.constructor d config = Some t → run t
  | run_updateMatchResult (t : Tournament.t) (matchId : string) (h a : Js.num) :
      run t → run (Tournament.updateMatchResult t matchId h a).2.

(** What names a tournament and fixes its format. *)
Definition identity (t : Tournament.t) : string * string * Z :=
  (Tournament.id t, Tournament.name t, Tournament.groupCount t).

(** A text that does not go on with a digit. *)
Definition ends_number (tail : string) : Prop :=
  match tail with
  | EmptyString => True
  | String c _ => Js.digit c = None
  end.

(** A score line as the displays print it. *)
Definition scoreline (h a : Js.num) : string :=
  Js.show (Some h) +:+ " - " +:+ Js.show (Some a).

(** The side of a match that is ahead in a pair of integer scores. *)
Definition leader (m : Match.t) (score : Z * Z) : option Team.t :=
  if (score.2 <? score.1)%Z then Some (Match.homeTeam m)
  else if (score.1 <? score.2)%Z then Some (Match.awayTeam m)
  else None.



(** A score as the forms deliver it: an integer from 0 up to, but not
    including, 10^21. *)
Definition form_score (z : Z) : Prop := (0 ≤ z < 10 ^ 21)%Z.



(** The head-to-head statistics read from the other team's side. *)
Definition mirrored (stats : HeadToHead.t) : HeadToHead.t :=
  {| HeadToHead.matches := HeadToHead.matches stats;
     HeadToHead.team1Wins := HeadToHead.team2Wins stats;
     HeadToHead.team2Wins := HeadToHead.team1Wins stats;
     HeadToHead.draws := HeadToHead.draws stats;
     HeadToHead.team1Goals := HeadToHead.team2Goals stats;
     HeadToHead.team2Goals := HeadToHead.team1Goals stats |}.

(** Whether a match opposes the teams with the two identifiers. *)
Definition between (teamId1 teamId2 : option string) (m : Match.t) : bool :=
  (Js.id_eq (Team.id (Match.homeTeam m)) teamId1
     && Js.id_eq (Team.id (Match.awayTeam m)) teamId2)
  || (Js.id_eq (Team.id (Match.homeTeam m)) teamId2
     && Js.id_eq (Team.id (Match.awayTeam m)) teamId1).

(** Two scores that the forms' checks let through: integers that are not
    negative. *)
Definition admitted (p : Js.num * Js.num) : Prop :=
  match p with
  | (Js.Int x, Js.Int y) => (0 ≤ x)%Z ∧ (0 ≤ y)%Z
  | _ => False
  end.

(** A shootout with a winner. *)
Definition unlevel (p : Js.num * Js.num) : Prop :=
  match p with
  | (Js.Int x, Js.Int y) => x ≠ y
  | _ => False
  end.

(** All the matches of a bracket, round after round. *)
Definition bracket_matches (rounds : list Round.t) : list Match.t :=
  concat (map Round.matches rounds).


(** A bracket feeds when every round has at most twice as many matches as
    the round after it, so that position [i] always has its slot
    [i / 2] in the next round. *)
Definition feeds (rounds : list Round.t) : Prop :=
  ∀ r round next,
    rounds !! r = Some round → rounds !! S r = Some next →
    (length (Round.matches round) ≤ 2 * length (Round.matches next))%nat.

(** ** Worked examples *)

Module Example.

Definition team (n : string) : Team.t := {| Team.id := Some n; Team.name := n |}.
Definition A : Team.t := team "A".
Definition B : Team.t := team "B".
Definition C : Team.t := team "C".
Definition D : Team.t := team "D".
Definition teams : list Team.t := [A; B; C; D].

(** A one-group tournament as the constructor sets it up: the schedule of
    the helpers (every match built at time [0]) and the all-zero table. *)
Definition schedule : list Match.t :=
  concat (map snd (Helpers.generateMatchSchedule (fun _ => 0%Z) teams)).

Definition created : Tournament.t :=
  {| Tournament.id := "tournament_example";
     Tournament.name := "Example";
     Tournament.groupCount := 1;
     Tournament.currentStage := Stage.group;
     Tournament.status := Status.active;
     Tournament.groups :=
       [ {| GroupData.id := "group_a"; GroupData.name := "A";
            GroupData.teams := teams; GroupData.matches := schedule;
            GroupData.standings := Helpers.calculateGroupStandings teams schedule |} ];
     Tournament.knockout := None;
     Tournament.events := [] |}.

Definition result (matchId : string) (home away : Z) (t : Tournament.t)
    : Tournament.t :=
  (Tournament.updateMatchResult t matchId (Js.Int home) (Js.Int away)).2.

(** B wins 1-0 at A, A wins 2-1 at C, D beats B 2-1. *)
Definition after_three : Tournament.t :=
  result "match_D_B_3_0" 2 1
    (result "match_C_A_3_0" 1 2
       (result "match_A_B_2_0" 0 1 created)).

(** The other three fixtures end 0-0: the group phase is over and the
    bracket of a one-group tournament is generated. *)
Definition after_six : Tournament.t :=
  result "match_C_D_2_0" 0 0
    (result "match_B_C_1_0" 0 0
       (result "match_A_D_1_0" 0 0 after_three)).

(** Both semifinals are won by their home side. *)
Definition after_semifinals : Tournament.t :=
  result "sf_1" 1 0 (result "sf_0" 2 1 after_six).

(** The same group and the same three results through [class Group]; the
    matches created get the identifiers [m0] to [m5]. *)
Definition group_created : GroupData.t :=
  Group.generateMatches (fun k => "m" +:+ pretty k)
    (Group.constructor "group_lq3k2x1ab"
       {| GroupData.id := "group_a"; GroupData.name := "A";
          GroupData.teams := teams; GroupData.matches := [];
          GroupData.standings := [] |}).

Definition group_result (matchId : string) (home away : Z) (g : GroupData.t)
    : GroupData.t :=
  (Group.updateMatchResult g matchId (Js.Int home) (Js.Int away)).2.

Definition group_after_three : GroupData.t :=
  group_result "m5" 2 1 (group_result "m4" 1 2 (group_result "m2" 0 1 group_created)).

(** The mirror image: A beats B 1-0 at home, C beats A 2-1, B wins 2-1 at D. *)
Definition group_mirror : GroupData.t :=
  group_result "m5" 1 2 (group_result "m4" 2 1 (group_result "m2" 1 0 group_created)).

(** The qualifiers of a four-group and of a two-group tournament. *)
Definition qualifier (n g : string) : Qualifier.t :=
  {| Qualifier.team := Row.initial (team n); Qualifier.group := g |}.

Definition four_groups : Qualified.t :=
  {| Qualified.winners :=
       [ qualifier "WA" "A"; qualifier "WB" "B"; qualifier "WC" "C"; qualifier "WD" "D" ];
     Qualified.runnersUp :=
       [ qualifier "RA" "A"; qualifier "RB" "B"; qualifier "RC" "C"; qualifier "RD" "D" ];
     Qualified.bestThirds := [] |}.

Definition two_groups : Qualified.t :=
  {| Qualified.winners := [ qualifier "WA" "A"; qualifier "WB" "B" ];
     Qualified.runnersUp := [ qualifier "RA" "A"; qualifier "RB" "B" ];
     Qualified.bestThirds := [] |}.

(** The controllers before the bracket is generated, and at the start of
    the knockout stage of a four-group and of a two-group tournament. *)
Definition started : App.t :=
  {| App._rounds := []; App._tournamentController := true;
     App._tournament :=
       Some {| Held.status := Status.active; Held.currentStage := Stage.knockout |};
     App._currentStage := Stage.knockout; App._isLoading := false;
     App.notifications := [] |}.

Definition app : App.t :=
  (KnockoutController.generateKnockoutStage four_groups 4 started).2.

Definition app_two : App.t :=
  (KnockoutController.generateKnockoutStage two_groups 2 started).2.

(** A result entered through the knockout controller, with no extra time
    and no penalties. *)
Definition knockout_result (matchId : string) (home away : Z) (s : App.t) : App.t :=
  default s
    (snd <$> KnockoutController.updateMatchResult matchId (Js.Int home) (Js.Int away)
               None None s).

(** The four-group bracket once the quarterfinals and the semifinals have
    been won by their home sides: the final opposes WA and WC. *)
Definition app_final : App.t :=
  knockout_result "semifinals_1" 1 0
    (knockout_result "semifinals_0" 2 1
       (knockout_result "qf_3" 1 0
          (knockout_result "qf_2" 3 1
             (knockout_result "qf_1" 2 0
                (knockout_result "qf_0" 1 0 app))))).

(** The two-group bracket once its two quarterfinals and the first
    semifinal have been won by their home sides. *)
Definition app_two_played : App.t :=
  knockout_result "semifinals_0" 1 0
    (knockout_result "qf_1" 1 0
       (knockout_result "qf_0" 1 0 app_two)).

(** A tournament of the model holding the same bracket. *)
Definition holding : Tournament.t :=
  {| Tournament.id := "tournament_holding";
     Tournament.name := "Holding";
     Tournament.groupCount := 4;
     Tournament.currentStage := Stage.knockout;
     Tournament.status := Status.active;
     Tournament.groups := [];
     Tournament.knockout := Some (App._rounds app);
     Tournament.events := [] |}.

(** The matches of that bracket the statements single out. *)
Definition qf_0 : Match.t :=
  KnockoutController.newMatch "qf_0" (team "WA") (team "RD") "Quarterfinals" 1.

Definition qf_1 : Match.t :=
  KnockoutController.newMatch "qf_1" (team "WB") (team "RC") "Quarterfinals" 1.

Definition semifinals_0 : Match.t :=
  KnockoutController.newMatch "semifinals_0" TBD TBD "Semifinals" 2.

Definition semifinals_1 : Match.t :=
  KnockoutController.newMatch "semifinals_1" TBD TBD "Semifinals" 2.

Definition final_0 : Match.t :=
  KnockoutController.newMatch "final_0" TBD TBD "Final" 3.

Definition final_WA_WC : Match.t :=
  KnockoutController.newMatch "final_0" (team "WA") (team "WC") "Final" 3.

(** The first match of a round of 16 as [generateRoundOf16] configures it. *)
Definition r16_config : Config.t :=
  {| Config.id := Some "r16_0";
     Config.homeTeam := Some (team "WA");
     Config.awayTeam := Some (team "RD");
     Config.homeScore := None; Config.awayScore := None;
     Config.played := None; Config.matchday := None;
     Config.round := Some "Round of 16";
     Config.roundIndex := Some 0%Z;
     Config.group := None; Config.winner := None;
     Config.extraTime := None; Config.penalties := None |}.

End Example.

(** * Properties *)

(** ** Sorting *)

Section sort_facts.
Context {A : Type} (cmp : A -> A -> Js.num).

Lemma insert_perm (x : A) (l : list A) : Js.insert cmp x l ≡ₚ x :: l.
Proof.
  induction l as [|y l IH]; simpl; [done|].
  destruct (Js.after cmp x y); [|done].
  rewrite IH. apply Permutation_swap.
Qed.

Lemma sort_perm (l : list A) : Js.sort cmp l ≡ₚ l.
Proof.
  induction l as [|x l IH]; simpl; [done|].
  by rewrite insert_perm, IH.
Qed.

(** The sort only calls the comparator on elements of the array. *)
Lemma insert_ext (cmp' : A -> A -> Js.num) (x : A) (l : list A) :
  (∀ y, y ∈ l → cmp x y = cmp' x y) →
  Js.insert cmp x l = Js.insert cmp' x l.
Proof.
  induction l as [|y l IH]; simpl; intros H; [done|].
  unfold Js.after. rewrite <- (H y) by (apply elem_of_cons; auto).
  destruct (Js.gt (cmp x y) (Js.Int 0)); [|done].
  f_equal. apply IH. intros z Hz. apply H. apply elem_of_cons; auto.
Qed.

End sort_facts.

Lemma sort_ext {A} (cmp cmp' : A -> A -> Js.num) (l : list A) :
  (∀ x y, x ∈ l → y ∈ l → cmp x y = cmp' x y) →
  Js.sort cmp l = Js.sort cmp' l.
Proof.
  induction l as [|x l IH]; simpl; intros H; [done|].
  rewrite <- IH by (intros; apply H; apply elem_of_cons; auto).
  apply insert_ext. intros y Hy. apply H; [apply elem_of_cons; auto|].
  apply elem_of_cons. right.
  by rewrite <- (sort_perm cmp l).
Qed.

(** ** The standings calculators *)

(** What one match does to the row at position [j]: the row keeps its
    team, and the accounting identities survive, also when the home and
    the away side are found at the same position. *)
Lemma tally_lookup (st : list Row.t) (m : Match.t) (j : nat) (r' : Row.t) :
  tally st m !! j = Some r' →
  ∃ r, st !! j = Some r ∧ Row.team r' = Row.team r ∧ (accounting r → accounting r').
Proof.
  unfold tally.
  destruct (Match.played m); [|by eauto].
  destruct (Match.homeScore m) as [hs|]; [|by eauto].
  destruct (Match.awayScore m) as [as_|]; [|by eauto].
  destruct (findIndex _ st) as [h|]; [|by eauto].
  destruct (findIndex _ st) as [a|]; [|by eauto].
  destruct (Js.gt hs as_); [|destruct (Js.lt hs as_)];
    (destruct (decide (h = j)) as [->|Hh], (decide (a = j)) as [->|Ha];
     repeat (rewrite list_lookup_alter_eq || rewrite list_lookup_alter_ne by done);
     (destruct (st !! j) as [[i n p w d l gf ga gd pt]|]; [|done]);
     intros [= <-]; (eexists; split; [reflexivity|]);
     (split; [reflexivity|]); unfold accounting; cbn; lia).
Qed.

Lemma tally_length (st : list Row.t) (m : Match.t) :
  length (tally st m) = length st.
Proof.
  unfold tally.
  repeat match goal with
  | |- context [match ?x with _ => _ end] => destruct x
  end; by rewrite ?length_alter.
Qed.

Lemma tally_teams (st : list Row.t) (m : Match.t) :
  map Row.team (tally st m) = map Row.team st.
Proof.
  apply list_eq. intros j.
  change (map Row.team) with (fmap (M:=list) Row.team).
  rewrite !list_lookup_fmap.
  destruct (tally st m !! j) as [r'|] eqn:H.
  - apply tally_lookup in H as (r & -> & Ht & _). simpl. by rewrite Ht.
  - apply lookup_ge_None in H. rewrite tally_length in H.
    apply lookup_ge_None in H. by rewrite H.
Qed.

Lemma tally_accounting (st : list Row.t) (m : Match.t) :
  Forall accounting st → Forall accounting (tally st m).
Proof.
  rewrite !Forall_lookup. intros H j r' Hj.
  apply tally_lookup in Hj as (r & Hr & _ & Hacc). eauto.
Qed.

Lemma fold_tally_teams (ms : list Match.t) (st : list Row.t) :
  map Row.team (fold_left tally ms st) = map Row.team st.
Proof.
  revert st. induction ms as [|m ms IH]; intros st; simpl; [done|].
  by rewrite IH, tally_teams.
Qed.

Lemma fold_tally_accounting (ms : list Match.t) (st : list Row.t) :
  Forall accounting st → Forall accounting (fold_left tally ms st).
Proof.
  revert st. induction ms as [|m ms IH]; intros st H; simpl; [done|].
  by apply IH, tally_accounting.
Qed.

Lemma team_initial (t : Team.t) : Row.team (Row.initial t) = t.
Proof. by destruct t. Qed.

Lemma teams_initial (teams : list Team.t) :
  map Row.team (map Row.initial teams) = teams.
Proof.
  induction teams as [|t teams IH]; simpl; [done|].
  by rewrite team_initial, IH.
Qed.

Lemma initial_accounting (teams : list Team.t) :
  Forall accounting (map Row.initial teams).
Proof.
  change (map Row.initial) with (fmap (M:=list) Row.initial).
  apply Forall_fmap, Forall_true. intros t. by split.
Qed.

Lemma set_goalDifference_well_kept (st : list Row.t) :
  Forall accounting st → Forall well_kept (map Row.set_goalDifference st).
Proof.
  intros H.
  change (map Row.set_goalDifference) with (fmap (M:=list) Row.set_goalDifference).
  apply Forall_fmap. eapply Forall_impl; [exact H|].
  intros r Hr. split; [exact Hr|done].
Qed.

Lemma teams_set_goalDifference (st : list Row.t) :
  map Row.team (map Row.set_goalDifference st) = map Row.team st.
Proof. rewrite map_map. by apply map_ext. Qed.

Lemma findIndex_None {A} (p : A -> bool) (l : list A) :
  (∀ x, x ∈ l → p x = false) → findIndex p l = None.
Proof.
  induction l as [|x l IH]; simpl; intros H; [done|].
  rewrite (H x) by (apply elem_of_cons; auto).
  rewrite IH; [done|]. intros y Hy. apply H, elem_of_cons; auto.
Qed.

Lemma findIndex_unlisted (teams : list Team.t) (st : list Row.t) (i : option string) :
  map Row.team st = teams → listed teams i = false →
  findIndex (fun team => Js.id_eq (Row.id team) i) st = None.
Proof.
  intros <- Hi. apply findIndex_None. intros r Hr.
  unfold Js.id_eq. apply bool_decide_eq_false. intros <-.
  unfold listed in Hi. apply bool_decide_eq_false in Hi. apply Hi.
  change (Row.id r) with (Team.id (Row.team r)).
  change (map Team.id) with (fmap (M:=list) Team.id).
  change (map Row.team) with (fmap (M:=list) Row.team).
  by apply list_elem_of_fmap_2, list_elem_of_fmap_2.
Qed.

Lemma tally_absent (teams : list Team.t) (st : list Row.t) (m : Match.t) :
  map Row.team st = teams → present teams m = false → tally st m = st.
Proof.
  intros Hst Hm. unfold tally.
  destruct (Match.played m); [|done].
  destruct (Match.homeScore m); [|done].
  destruct (Match.awayScore m); [|done].
  apply andb_false_iff in Hm as [H|H].
  - by rewrite (findIndex_unlisted teams st _ Hst H).
  - rewrite (findIndex_unlisted teams st (Team.id (Match.awayTeam m)) Hst H).
    by destruct (findIndex _ st).
Qed.

Lemma fold_tally_present (teams : list Team.t) (ms : list Match.t) (st : list Row.t) :
  map Row.team st = teams →
  fold_left tally (List.filter (present teams) ms) st = fold_left tally ms st.
Proof.
  revert st. induction ms as [|m ms IH]; intros st Hst; simpl; [done|].
  destruct (present teams m) eqn:Hm; simpl.
  - apply IH. by rewrite tally_teams.
  - rewrite (tally_absent teams st m Hst Hm). by apply IH.
Qed.

Lemma find_filter {A} (p q : A -> bool) (l : list A) :
  (∀ x, p x = true → q x = true) →
  List.find p (List.filter q l) = List.find p l.
Proof.
  intros H. induction l as [|x l IH]; simpl; [done|].
  destruct (q x) eqn:Hq; simpl.
  - by rewrite IH.
  - destruct (p x) eqn:Hp; [|done]. apply H in Hp. congruence.
Qed.

(** The head-to-head lookup between two listed teams never picks a match
    with an unlisted side. *)
Lemma headToHead_present (g : GroupData.t) (a b : option string) :
  listed (GroupData.teams g) a = true → listed (GroupData.teams g) b = true →
  Group._getHeadToHeadResult
    (GroupData.set_matches g
       (List.filter (present (GroupData.teams g)) (GroupData.matches g))) a b
  = Group._getHeadToHeadResult g a b.
Proof.
  intros Ha Hb. unfold Group._getHeadToHeadResult. simpl.
  rewrite find_filter; [done|].
  intros m Hm. unfold present, Js.id_eq in *.
  apply andb_true_iff in Hm as [Hm _].
  apply orb_true_iff in Hm as [Hm|Hm];
    apply andb_true_iff in Hm as [H1 H2];
    apply bool_decide_eq_true in H1, H2; rewrite H1, H2, Ha, Hb; done.
Qed.

(** C10.  Every table of the standings calculator
    ([Helpers.calculateGroupStandings]) and of the group's recomputation
    ([Group.recalculateStandings]) has exactly one row per input team (the
    teams of its rows are a permutation of the team list); every row
    satisfies played = won + drawn + lost, points = 3 * won + drawn and
    goalDifference = goalsFor - goalsAgainst; and the matches with a home
    or away team whose identifier is not in the team list contribute to no
    row: the table is the one computed without them. *)
Theorem C10_standings_accounting (teams : list Team.t) (matches : list Match.t)
    (g : GroupData.t) :
  let table := Helpers.calculateGroupStandings teams matches in
  let table' := GroupData.standings (Group.recalculateStandings g) in
  (map Row.team table ≡ₚ teams
   ∧ Forall well_kept table
   ∧ table = Helpers.calculateGroupStandings teams (List.filter (present teams) matches))
  ∧ (map Row.team table' ≡ₚ GroupData.teams g
     ∧ Forall well_kept table'
     ∧ table' =
       GroupData.standings
         (Group.recalculateStandings
            (GroupData.set_matches g
               (List.filter (present (GroupData.teams g)) (GroupData.matches g))))).
Proof.
  simpl. split.
  - unfold Helpers.calculateGroupStandings, Helpers.sortGroupStandings.
    split; [|split].
    + change (map Row.team) with (fmap (M:=list) Row.team) at 1.
      rewrite sort_perm. simpl.
      by rewrite teams_set_goalDifference, fold_tally_teams, teams_initial.
    + rewrite sort_perm.
      apply set_goalDifference_well_kept, fold_tally_accounting, initial_accounting.
    + by rewrite fold_tally_present by apply teams_initial.
  - unfold Group.recalculateStandings, Group.sortStandings. simpl.
    split; [|split].
    + change (map Row.team) with (fmap (M:=list) Row.team) at 1.
      rewrite sort_perm. simpl.
      by rewrite teams_set_goalDifference, fold_tally_teams, teams_initial.
    + rewrite sort_perm.
      apply set_goalDifference_well_kept, fold_tally_accounting, initial_accounting.
    + rewrite fold_tally_present by apply teams_initial.
      apply sort_ext. intros x y Hx Hy.
      assert (Hl : ∀ r, r ∈ map Row.set_goalDifference
                 (fold_left tally (GroupData.matches g)
                    (map Row.initial (GroupData.teams g))) →
               listed (GroupData.teams g) (Row.id r) = true).
      { intros r Hr. apply bool_decide_eq_true.
        change (Row.id r) with (Team.id (Row.team r)).
        change (map Team.id) with (fmap (M:=list) Team.id).
        apply list_elem_of_fmap_2.
        rewrite <- (teams_initial (GroupData.teams g)).
        rewrite <- (fold_tally_teams (GroupData.matches g)).
        rewrite <- teams_set_goalDifference.
        change (map Row.team) with (fmap (M:=list) Row.team).
        by apply list_elem_of_fmap_2. }
      unfold Group.compareStandings.
      pose proof (headToHead_present g (Row.id x) (Row.id y) (Hl x Hx) (Hl y Hy)) as Hh.
      simpl in Hh.
      unfold Group._getHeadToHeadResult in *. simpl in *. by rewrite Hh.
Qed.

(** C1.  The three results of the example (B wins 1-0 at A, A wins 2-1 at
    C, D beats B 2-1) leave A and B level on points, goal difference and
    goals scored, and the played match between them was won by B.  The
    helpers' calculator and the group's recomputation both rank A above B.
    In the mirror image, where A beat B, the group's recomputation ranks B
    above A: the helpers skip the head-to-head step, the group ranks the
    loser of the head-to-head match first. *)
Theorem C1_head_to_head_order :
  let helpers := concat (map GroupData.standings (Tournament.groups Example.after_three)) in
  let group := GroupData.standings Example.group_after_three in
  let mirror := GroupData.standings Example.group_mirror in
  map Row.name helpers = ["D"; "A"; "B"; "C"]
  ∧ map Row.name group = ["D"; "A"; "B"; "C"]
  ∧ (ranks <$> helpers !! 1%nat) = (ranks <$> helpers !! 2%nat)
  ∧ (ranks <$> group !! 1%nat) = (ranks <$> group !! 2%nat)
  ∧ Group._getHeadToHeadResult Example.group_after_three (Some "B") (Some "A") = Js.Int 1
  ∧ map Row.name mirror = ["C"; "B"; "A"; "D"]
  ∧ (ranks <$> mirror !! 1%nat) = (ranks <$> mirror !! 2%nat)
  ∧ Group._getHeadToHeadResult Example.group_mirror (Some "A") (Some "B") = Js.Int 1.
Proof. vm_compute. repeat split. Qed.

(** ** Group fixtures *)

(** C8.  For every list of four teams, [Match.createGroupMatches] gives
    exactly six matches: matchday 1 has team 1 v team 4 and team 2 v team
    3, matchday 2 has team 1 v team 2 and team 3 v team 4, matchday 3 has
    team 3 v team 1 and team 4 v team 2, the first-named side at home;
    [Helpers.generateMatchSchedule] gives the same fixtures on three
    matchdays of two matches; and every unordered pair of positions of the
    team list is opposed by exactly one entry of the pattern. *)
Theorem C8_round_robin (generated : nat -> string) (clock : nat -> Z)
    (t1 t2 t3 t4 : Team.t) (groupId : string) :
  let teams := [t1; t2; t3; t4] in
  let pattern :=
    [ (t1, t4, Some 1%Z); (t2, t3, Some 1%Z);
      (t1, t2, Some 2%Z); (t3, t4, Some 2%Z);
      (t3, t1, Some 3%Z); (t4, t2, Some 3%Z) ] in
  let created := Match.createGroupMatches generated teams groupId in
  let schedule := Helpers.generateMatchSchedule clock teams in
  (length created = 6%nat ∧ fixtures created = pattern)
  ∧ (map fst schedule = [1%Z; 2%Z; 3%Z]
     ∧ map (fun day => length (snd day)) schedule = [2; 2; 2]%nat
     ∧ fixtures (concat (map snd schedule)) = pattern)
  ∧ (map (fun m => (Some (Match.homeTeam m), Some (Match.awayTeam m))) created
       = map (fun entry => (teams !! entry.1, teams !! entry.2)) (concat Match.matchPattern)
     ∧ Helpers.matchPattern = Match.matchPattern
     ∧ Forall (fun pair =>
         length (List.filter (opposes pair.1 pair.2) (concat Match.matchPattern)) = 1%nat)
         position_pairs).
Proof.
  simpl. repeat split.
  repeat constructor.
Qed.

(** ** Bracket generation *)

(** C5.  For four groups the knockout controller pairs quarterfinal [i]
    as winner [i] against runner-up [3 - i], as claimed.  For two groups it
    pairs winner 0 against runner-up 1 and winner 1 against runner-up 0,
    but the round holds these two matches only, not four, under a
    semifinal round of two matches.  The generator of the helpers, which
    the tournament model calls, pairs consecutive entries of the winners
    followed by the runners-up: winner against winner and runner-up
    against runner-up, two matches for two groups.  In the two-group
    bracket of the example, once both quarterfinals and the first
    semifinal are decided, every match whose sides are known is played,
    the second semifinal is still TBD against TBD, the final has no away
    side and the tournament is not complete. *)
Theorem C5_two_group_quarterfinals :
  (∀ (w0 w1 w2 w3 r0 r1 r2 r3 : Qualifier.t) (bestThirds : list Qualifier.t) (s : App.t),
     let four :=
       KnockoutController.generateQuarterfinals [w0; w1; w2; w3] [r0; r1; r2; r3]
         bestThirds in
     sides four
     = [ (side w0, side r3); (side w1, side r2); (side w2, side r1); (side w3, side r0) ]
     ∧ map Match.id four = [ "qf_0"; "qf_1"; "qf_2"; "qf_3" ]
     ∧ (Round.matches <$>
          (KnockoutController.generateKnockoutStage
             {| Qualified.winners := [w0; w1; w2; w3];
                Qualified.runnersUp := [r0; r1; r2; r3];
                Qualified.bestThirds := bestThirds |} 4 s).1 !! 0%nat) = Some four)
  ∧ (∀ (w0 w1 r0 r1 : Qualifier.t) (bestThirds : list Qualifier.t) (s : App.t),
       let two := KnockoutController.generateQuarterfinals [w0; w1] [r0; r1] bestThirds in
       let stage :=
         (KnockoutController.generateKnockoutStage
            {| Qualified.winners := [w0; w1];
               Qualified.runnersUp := [r0; r1];
               Qualified.bestThirds := bestThirds |} 2 s).1 in
       sides two = [ (side w0, side r1); (side w1, side r0) ]
       ∧ map Match.id two = [ "qf_0"; "qf_1" ]
       ∧ length two = 2%nat
       ∧ map Round.name stage = [ Some "Quarterfinals"; Some "Semifinals"; Some "Final" ]
       ∧ (Round.matches <$> stage !! 0%nat) = Some two
       ∧ map (fun round => length (Round.matches round)) stage = [ 2; 2; 1 ]%nat)
  ∧ (∀ (w0 w1 w2 w3 r0 r1 r2 r3 : Qualifier.t) (bestThirds : list Qualifier.t),
       sides (Helpers.generateQuarterfinals [w0; w1; w2; w3] [r0; r1; r2; r3] bestThirds)
       = [ (side w0, side w1); (side w2, side w3); (side r0, side r1); (side r2, side r3) ]
       ∧ sides (Helpers.generateQuarterfinals [w0; w1] [r0; r1] [])
         = [ (side w0, side w1); (side r0, side r1) ]
       ∧ map (fun round => length (Round.matches round))
             (Helpers.generateKnockoutStage
                {| Qualified.winners := [w0; w1];
                   Qualified.runnersUp := [r0; r1];
                   Qualified.bestThirds := bestThirds |} 2)
         = [ 2; 2; 1 ]%nat)
  ∧ map (fun round =>
           map (fun m => (Match.id m, Team.name (Match.homeTeam m),
                          Team.name (Match.awayTeam m), Match.played m))
             (Round.matches round))
        (App._rounds Example.app_two_played)
    = [ [ ("qf_0", "WA", "RB", true); ("qf_1", "WB", "RA", true) ];
        [ ("semifinals_0", "WA", "WB", true); ("semifinals_1", "TBD", "TBD", false) ];
        [ ("final_0", "WA", "TBD", false) ] ]
  ∧ KnockoutController.getMatchById (App._rounds Example.app_two_played) "semifinals_1"
    = Some Example.semifinals_1
  ∧ KnockoutController.isTournamentComplete Example.app_two_played = false.
Proof.
  split; [|split; [|split]].
  - intros. cbv zeta. repeat split.
  - intros. cbv zeta. repeat split.
  - intros. repeat split.
  - vm_compute. repeat split.
Qed.

(** ** Bracket progression *)

Lemma even_mod (i : nat) : (i mod 2 =? 0)%nat = Nat.even i.
Proof.
  destruct (Nat.even i) eqn:H.
  - apply Nat.even_spec in H as [k ->]. apply Nat.eqb_eq.
    rewrite Nat.mul_comm. apply Nat.Div0.mod_mul.
  - apply Nat.eqb_neq. intros Hm.
    apply Nat.Div0.mod_divides in Hm as [k ->].
    rewrite Nat.even_mul in H. done.
Qed.

Lemma alter_insert {A} (f : A -> A) (l : list A) (i : nat) (x : A) :
  l !! i = Some x → alter f i l = <[i := f x]> l.
Proof.
  revert i. induction l as [|y l IH]; intros [|i] H; simplify_eq/=; [done|].
  f_equal. by apply IH.
Qed.

(** Replacing a match by one of the same identifier keeps the shape. *)
Lemma shape_insert (rounds : list Round.t) (r i : nat) (round : Round.t)
    (m m' : Match.t) :
  rounds !! r = Some round → Round.matches round !! i = Some m →
  Match.id m' = Match.id m →
  shape (<[r := Round.set_matches round (<[i := m']> (Round.matches round))]> rounds)
  = shape rounds.
Proof.
  intros Hr Hm Hid. unfold shape.
  change (map (fun r => map Match.id (Round.matches r)))
    with (fmap (M:=list) (fun r => map Match.id (Round.matches r))).
  rewrite list_fmap_insert. apply list_insert_id.
  rewrite list_lookup_fmap, Hr. simpl. f_equal.
  change (map Match.id) with (fmap (M:=list) Match.id).
  rewrite list_fmap_insert. symmetry. apply list_insert_id.
  rewrite list_lookup_fmap, Hm. simpl. by f_equal.
Qed.

Lemma shape_advanced rounds r i nextRound nextMatch w :
  rounds !! S r = Some nextRound →
  Round.matches nextRound !! (i / 2)%nat = Some nextMatch →
  shape (advanced rounds r i nextRound nextMatch w) = shape rounds.
Proof.
  intros Hr Hm. unfold advanced. eapply shape_insert; [done|done|].
  unfold advance. by destruct (Nat.even i).
Qed.

Lemma omap_length_le {A B} (f : A -> option B) (l : list A) :
  (length (omap f l) ≤ length l)%nat.
Proof.
  induction l as [|x l IH]; [done|].
  change (omap f (x :: l)) with (match f x with Some y => y :: omap f l | None => omap f l end).
  destruct (f x); simpl; lia.
Qed.

Lemma matchesOf_length prefix round roundIndex pairings :
  (length (KnockoutController.matchesOf prefix round roundIndex pairings)
   ≤ length pairings)%nat.
Proof.
  unfold KnockoutController.matchesOf.
  etrans; [apply omap_length_le|]. by rewrite length_imap.
Qed.

Lemma generateEmptyRound_length count roundName roundIndex :
  length (KnockoutController.generateEmptyRound count roundName roundIndex) = count.
Proof. unfold KnockoutController.generateEmptyRound. by rewrite length_map, length_seq. Qed.

Lemma controller_quarterfinals_length winners runnersUp bestThirds :
  (length (KnockoutController.generateQuarterfinals winners runnersUp bestThirds) ≤ 4)%nat.
Proof.
  unfold KnockoutController.generateQuarterfinals.
  destruct (_ || _ || _); [|by rewrite generateEmptyRound_length].
  etrans; [apply matchesOf_length|].
  destruct (length winners) as [|[|[|[|[|n]]]]];
    first [ cbn [length]; lia
          | etrans; [apply omap_length_le|]; cbn [length]; lia ].
Qed.

Lemma controller_semifinals_length teams :
  (length (KnockoutController.generateSemifinals teams) ≤ 2)%nat.
Proof.
  unfold KnockoutController.generateSemifinals.
  destruct (0 <? length teams)%nat; [|by rewrite generateEmptyRound_length].
  destruct (teams !! 0%nat), (teams !! 1%nat), (teams !! 2%nat), (teams !! 3%nat);
    simpl; lia.
Qed.

Lemma helpers_quarterfinals_length winners runnersUp bestThirds :
  (length (Helpers.generateQuarterfinals winners runnersUp bestThirds) ≤ 4)%nat.
Proof.
  unfold Helpers.generateQuarterfinals.
  destruct (_ || _ || _).
  - etrans; [apply omap_length_le|]. by rewrite length_seq.
  - by rewrite length_map, length_seq.
Qed.

Lemma helpers_semifinals_length winners :
  (length (Helpers.generateSemifinals winners) ≤ 2)%nat.
Proof.
  unfold Helpers.generateSemifinals. destruct winners.
  - by rewrite length_map, length_seq.
  - etrans; [apply omap_length_le|]. by rewrite length_seq.
Qed.

Lemma helpers_roundOf16_length winners runnersUp bestThirds :
  (length (Helpers.generateRoundOf16 winners runnersUp bestThirds) ≤ 8)%nat.
Proof.
  unfold Helpers.generateRoundOf16.
  etrans; [apply omap_length_le|]. by rewrite length_imap.
Qed.

Lemma feeds_three (a b c : Round.t) :
  (length (Round.matches a) ≤ 2 * length (Round.matches b))%nat →
  (length (Round.matches b) ≤ 2 * length (Round.matches c))%nat →
  feeds [a; b; c].
Proof.
  intros Hab Hbc [|[|[|r]]] round next Hr Hn; simplify_eq/=; done.
Qed.

Lemma feeds_four (a b c d : Round.t) :
  (length (Round.matches a) ≤ 2 * length (Round.matches b))%nat →
  (length (Round.matches b) ≤ 2 * length (Round.matches c))%nat →
  (length (Round.matches c) ≤ 2 * length (Round.matches d))%nat →
  feeds [a; b; c; d].
Proof.
  intros Hab Hbc Hcd [|[|[|[|r]]]] round next Hr Hn; simplify_eq/=; done.
Qed.

Lemma feeds_two (a b : Round.t) :
  (length (Round.matches a) ≤ 2 * length (Round.matches b))%nat →
  feeds [a; b].
Proof.
  intros Hab [|[|r]] round next Hr Hn; simplify_eq/=; done.
Qed.

Lemma feeds_nil : feeds [].
Proof. intros r round next Hr. done. Qed.

(** Every bracket the two generators build feeds. *)
Lemma generated_feeds (q : Qualified.t) (groupCount : Z) (s : App.t) :
  feeds (KnockoutController.generateKnockoutStage q groupCount s).1
  ∧ feeds (Helpers.generateKnockoutStage q groupCount).
Proof.
  split.
  - unfold KnockoutController.generateKnockoutStage.
    pose proof (controller_semifinals_length (Qualified.winners q)) as Hs.
    pose proof (controller_quarterfinals_length (Qualified.winners q)
                  (Qualified.runnersUp q) (Qualified.bestThirds q)) as Hq.
    pose proof (matchesOf_length "r16_" "Round of 16" 0) as Hr.
    assert (Hsf : length (KnockoutController.generateSemifinals []) = 2%nat)
      by reflexivity.
    assert (Hf : length KnockoutController.generateFinals = 1%nat) by reflexivity.
    repeat match goal with
    | |- context [if ?b then _ else _] => destruct b
    end; cbn [fst].
    + apply feeds_two; cbn [Round.matches]; lia.
    + apply feeds_three; cbn [Round.matches]; lia.
    + apply feeds_four; cbn [Round.matches]; rewrite ?generateEmptyRound_length; try lia.
      etrans; [apply Hr|]. cbn [length]. lia.
    + apply feeds_nil.
  - unfold Helpers.generateKnockoutStage.
    pose proof (helpers_quarterfinals_length (Qualified.winners q)
                  (Qualified.runnersUp q) []) as Hq.
    pose proof (helpers_quarterfinals_length (Qualified.winners q)
                  (Qualified.runnersUp q) (Qualified.bestThirds q)) as Hq'.
    pose proof (helpers_semifinals_length (take 1 (Qualified.winners q))) as Hs.
    pose proof (helpers_roundOf16_length (Qualified.winners q)
                  (Qualified.runnersUp q) (Qualified.bestThirds q)) as Hr.
    assert (Hsf : length (Helpers.generateSemifinals []) = 2%nat) by reflexivity.
    assert (Hqf : length (Helpers.generateQuarterfinals [] [] []) = 4%nat) by reflexivity.
    assert (Hf : length Helpers.generateFinal = 1%nat) by reflexivity.
    repeat match goal with
    | |- context [if ?b then _ else _] => destruct b
    end;
      first [ apply feeds_nil
            | apply feeds_two; cbn [Round.matches]; lia
            | apply feeds_three; cbn [Round.matches]; lia
            | apply feeds_four; cbn [Round.matches]; lia ].
Qed.

(** In a bracket that feeds, every position of a round has its slot in
    the next round. *)
Lemma feeds_slot (rounds : list Round.t) (r i : nat) (round next : Round.t) (m : Match.t) :
  feeds rounds →
  rounds !! r = Some round → Round.matches round !! i = Some m →
  rounds !! S r = Some next →
  is_Some (Round.matches next !! (i / 2)%nat).
Proof.
  intros Hf Hr Hm Hn. apply lookup_lt_is_Some.
  specialize (Hf r round next Hr Hn).
  apply lookup_lt_Some in Hm.
  apply Nat.Div0.div_lt_upper_bound. lia.
Qed.

(** The match counts decide whether a bracket feeds, and the progression
    keeps the counts. *)
Lemma feeds_shape (rounds rounds' : list Round.t) :
  shape rounds' = shape rounds → feeds rounds → feeds rounds'.
Proof.
  intros Hs Hf r round next Hr Hn.
  assert (Hl : ∀ k x, rounds' !! k = Some x →
            ∃ y, rounds !! k = Some y
                 ∧ length (Round.matches x) = length (Round.matches y)).
  { intros k x Hx.
    assert (Hk : shape rounds' !! k = Some (map Match.id (Round.matches x))).
    { unfold shape. change (map (fun r => map Match.id (Round.matches r)))
        with (fmap (M:=list) (fun r => map Match.id (Round.matches r))).
      by rewrite list_lookup_fmap, Hx. }
    rewrite Hs in Hk. unfold shape in Hk.
    change (map (fun r => map Match.id (Round.matches r)))
      with (fmap (M:=list) (fun r => map Match.id (Round.matches r))) in Hk.
    rewrite list_lookup_fmap in Hk.
    destruct (rounds !! k) as [y|]; simplify_eq/=.
    exists y. split; [done|].
    apply (f_equal length) in Hk. by rewrite !length_map in Hk. }
  destruct (Hl _ _ Hr) as (y & Hy & ->).
  destruct (Hl _ _ Hn) as (z & Hz & ->).
  by eapply Hf.
Qed.

(** Whatever the match and the positions, the progression keeps every
    match of the bracket in its place. *)
Lemma progressWinnerToNextRound_shape (m : Match.t) (r i : nat) (rounds : list Round.t) :
  shape (KnockoutController.progressWinnerToNextRound m r i rounds) = shape rounds.
Proof.
  unfold KnockoutController.progressWinnerToNextRound.
  destruct (Match.winner m) as [w|]; [|done].
  destruct (_ >=? _)%Z; [done|].
  destruct (rounds !! (r + 1)%nat) as [nextRound|] eqn:Hr; [|done].
  destruct (Round.matches nextRound !! (i / 2)%nat) as [nextMatch|] eqn:Hm; [|done].
  apply shape_insert with nextMatch; [done|done|].
  by destruct (i mod 2 =? 0)%nat.
Qed.

Lemma _updateKnockoutProgression_shape (this : Tournament.t) (m : Match.t) :
  shape (default [] (Tournament.knockout (Tournament._updateKnockoutProgression this m)))
  = shape (default [] (Tournament.knockout this)).
Proof.
  unfold Tournament._updateKnockoutProgression.
  destruct (Match.winner m) as [w|]; [|done].
  set (rounds := default [] (Tournament.knockout this)).
  destruct (locate Round.matches (Match.id m) rounds) as [[r i]|]; [|done].
  destruct (r + 1 <? length rounds)%nat; [|done].
  destruct (rounds !! (r + 1)%nat) as [nextRound|] eqn:Hr; [|done].
  destruct (i / 2 <? length (Round.matches nextRound))%nat eqn:Hlt; [|done].
  apply Nat.ltb_lt, lookup_lt_is_Some in Hlt as [nextMatch Hm].
  unfold Tournament._addEvent, Tournament.set_knockout.
  cbn [Tournament.knockout default from_option id].
  destruct (i mod 2 =? 0)%nat; rewrite (alter_insert _ _ _ _ Hm);
    by apply shape_insert with nextMatch.
Qed.

(** ** Reading numbers *)

Lemma digit_char (x : N) : (x < 10)%N → Js.digit (pretty_N_char x) = Some (Z.of_N x).
Proof.
  intros H.
  assert (x = 0 ∨ x = 1 ∨ x = 2 ∨ x = 3 ∨ x = 4 ∨ x = 5 ∨ x = 6 ∨ x = 7 ∨ x = 8 ∨ x = 9)%N
    as Hx by lia.
  destruct Hx as [->|[->|[->|[->|[->|[->|[->|[->|[->| ->]]]]]]]]]; reflexivity.
Qed.

(** Reading the digits that [pretty] writes in front of a text. *)
Lemma digits_pretty_go (x : N) : ∀ acc s,
  ∃ k : Z, (0 ≤ k)%Z ∧
    Js.digits acc (pretty_N_go x s) = Js.digits (acc * 10 ^ k + Z.of_N x) s.
Proof.
  induction (N.lt_wf_0 x) as [x _ IH]. intros acc s.
  destruct (decide (x = 0)%N) as [->|Hx].
  - exists 0%Z. split; [lia|]. rewrite pretty_N_go_0. f_equal. lia.
  - rewrite pretty_N_go_step by lia.
    destruct (IH (x `div` 10)%N ltac:(apply N.div_lt; lia) acc
                (String (pretty_N_char (x `mod` 10)) s)) as (k & Hk & E).
    exists (k + 1)%Z. split; [lia|]. rewrite E. simpl.
    rewrite digit_char by (apply N.mod_lt; lia). f_equal.
    rewrite Z.pow_add_r by lia. change (10 ^ 1)%Z with 10%Z.
    rewrite N2Z.inj_div, N2Z.inj_mod. change (Z.of_N 10) with 10%Z.
    pose proof (Z.div_mod (Z.of_N x) 10 ltac:(lia)) as D.
    set (q := (Z.of_N x `div` 10)%Z) in *. set (r := (Z.of_N x `mod` 10)%Z) in *.
    rewrite D. ring.
Qed.

Lemma pretty_go_head (x : N) : ∀ s, (0 < x)%N →
  ∃ c rest d, pretty_N_go x s = String c rest ∧ Js.digit c = Some d.
Proof.
  induction (N.lt_wf_0 x) as [x _ IH]. intros s Hx.
  rewrite pretty_N_go_step by done.
  destruct (decide (x `div` 10 = 0)%N) as [E|E].
  - rewrite E, pretty_N_go_0. eexists _, _, _. split; [done|].
    apply digit_char, N.mod_lt. lia.
  - apply IH; [apply N.div_lt; lia|]. by apply N.neq_0_lt_0.
Qed.

Lemma pretty_go_app (x : N) : ∀ s tail,
  pretty_N_go x s +:+ tail = pretty_N_go x (s +:+ tail).
Proof.
  induction (N.lt_wf_0 x) as [x _ IH]. intros s tail.
  destruct (decide (x = 0)%N) as [->|Hx].
  - by rewrite !pretty_N_go_0.
  - rewrite (pretty_N_go_step x s), (pretty_N_go_step x (s +:+ tail)) by lia.
    rewrite IH by (apply N.div_lt; lia). reflexivity.
Qed.

Lemma digit_not_space (c : ascii) (d : Z) :
  Js.digit c = Some d → Js.isWhiteSpace c = false ∧ c ≠ "-"%char ∧ c ≠ "+"%char.
Proof.
  unfold Js.digit, Js.isWhiteSpace. cbv zeta. intros H.
  destruct (_ && _) eqn:E in H; [|done]. apply andb_true_iff in E as [E1 E2].
  apply Z.leb_le in E1, E2.
  split; [|split].
  - apply orb_false_iff. split.
    + apply Nat.eqb_neq. lia.
    + apply andb_false_iff. right. apply Nat.leb_gt. lia.
  - intros ->. vm_compute in E1. by apply E1.
  - intros ->. vm_compute in E1. by apply E1.
Qed.

Lemma digits_ends (acc : Z) (tail : string) :
  ends_number tail → Js.digits acc tail = acc.
Proof. destruct tail as [|c tail]; [done|]. simpl. by intros ->. Qed.

Lemma parse_digits (p : positive) (tail : string) :
  ends_number tail →
  ∃ c rest d, pretty (N.pos p) +:+ tail = String c rest ∧ Js.digit c = Some d
    ∧ Js.digits 0 (pretty (N.pos p) +:+ tail) = Z.pos p.
Proof.
  intros Htail.
  unfold pretty, pretty_N. destruct (decide (N.pos p = 0%N)) as [|_]; [done|].
  rewrite pretty_go_app. change ("" +:+ tail) with tail.
  destruct (pretty_go_head (N.pos p) tail ltac:(lia)) as (c & rest & d & E & Hd).
  exists c, rest, d. split; [done|]. split; [done|].
  destruct (digits_pretty_go (N.pos p) 0 tail) as (k & _ & Ek). rewrite Ek.
  rewrite digits_ends by done. lia.
Qed.

(** [parseInt] reads back the integer that a text starts with. *)
Lemma parseInt_leading (z : Z) (tail : string) :
  ends_number tail → Js.parseInt (Js.Text (pretty z +:+ tail)) = Js.Int z.
Proof.
  intros Htail. unfold Js.parseInt, Js.text.
  destruct z as [|p|p].
  - change (pretty 0%Z +:+ tail) with (String "0" tail).
    simpl. by rewrite digits_ends.
  - destruct (parse_digits p tail Htail) as (c & rest & d & E & Hd & Hv).
    change (pretty (Z.pos p)) with (pretty (N.pos p)).
    destruct (digit_not_space c d Hd) as (Hs & Hm & Hp).
    rewrite E in *. simpl. rewrite Hs.
    rewrite (proj2 (Ascii.eqb_neq _ _) Hm), (proj2 (Ascii.eqb_neq _ _) Hp), Hd.
    f_equal. lia.
  - destruct (parse_digits p tail Htail) as (c & rest & d & E & Hd & Hv).
    change (pretty (Z.neg p) +:+ tail) with (String "-" (pretty (N.pos p) +:+ tail)).
    rewrite E in *. simpl. rewrite Hd.
    f_equal. simpl in Hv. rewrite Hd in Hv. lia.
Qed.

Lemma string_app_nil (s : string) : s +:+ "" = s.
Proof. induction s as [|c s IH]; [done|]. change (String c (s +:+ "") = String c s). by rewrite IH. Qed.

(** On an integer below 10^21 [parseInt] is the identity. *)
Lemma parseInt_Int (z : Z) :
  (Z.abs z < 10 ^ 21)%Z → Js.parseInt (Js.Number (Js.Int z)) = Js.Int z.
Proof.
  intros Hz.
  transitivity (Js.parseInt (Js.Text (pretty z +:+ ""))); [|by apply parseInt_leading].
  rewrite string_app_nil. unfold Js.parseInt, Js.text, Js.toString.
  destruct (Z.ltb_spec (Z.abs z) (10 ^ 21)); [done|lia].
Qed.

(** Comparing a number with itself. *)
Lemma gt_irrefl (x : Js.num) : Js.gt x x = false.
Proof. destruct x as [z|]; [|done]. cbv -[Z.ltb]. apply Z.ltb_irrefl. Qed.

Lemma lt_irrefl (x : Js.num) : Js.lt x x = false.
Proof. destruct x as [z|]; [|done]. cbv -[Z.ltb]. apply Z.ltb_irrefl. Qed.

(** The result methods, written with the numbers they store. *)
Lemma updateResult_stores (m : Match.t) (h a : Js.value) :
  Match.updateResult m h a
  = Match.set_winner
      (Match.set_played
         (Match.set_awayScore (Match.set_homeScore m (Some (Js.parseInt h)))
            (Some (Js.parseInt a))) true)
      (outcome m (Js.parseInt h) (Js.parseInt a)).
Proof.
  unfold Match.updateResult, outcome.
  generalize (Js.parseInt h) (Js.parseInt a). intros x y. cbn.
  destruct (Js.gt x y); [done|]. by destruct (Js.lt x y).
Qed.

Lemma helpers_updateMatchResult_stores (m : Match.t) (h a : Js.value) :
  Helpers.updateMatchResult m h a = Match.updateResult m h a.
Proof.
  unfold Helpers.updateMatchResult, Match.updateResult.
  generalize (Js.parseInt h) (Js.parseInt a). intros x y. cbn.
  destruct (Js.gt x y); [done|]. by destruct (Js.lt x y).
Qed.

(** The bracket [advanced] is the bracket [progressed]. *)
Lemma advanced_progressed rounds r i nextRound nextMatch w :
  rounds !! S r = Some nextRound →
  Round.matches nextRound !! (i / 2)%nat = Some nextMatch →
  progressed rounds (advanced rounds r i nextRound nextMatch w) r i w.
Proof.
  intros Hr Hm.
  assert (Hlen : (S r < length rounds)%nat) by (by eapply lookup_lt_Some).
  assert (Hlen' : (i / 2 < length (Round.matches nextRound))%nat)
    by (by eapply lookup_lt_Some).
  unfold progressed, advanced. split; [apply length_insert|]. split.
  - intros k round Hne Hround. by rewrite list_lookup_insert_ne.
  - eexists nextRound, _, nextMatch, (advance w i nextMatch).
    split; [done|]. split; [by apply list_lookup_insert_eq|].
    split; [done|]. split; [done|]. split; [apply length_insert|]. split.
    + intros j x Hne Hx. cbn. by rewrite list_lookup_insert_ne.
    + split; [done|]. split; [by apply list_lookup_insert_eq|].
      unfold received, advance. by destruct (Nat.even i).
Qed.

Lemma progressWinnerToNextRound_advanced rounds m r i w nextRound nextMatch :
  Match.winner m = Some w →
  rounds !! S r = Some nextRound →
  Round.matches nextRound !! (i / 2)%nat = Some nextMatch →
  KnockoutController.progressWinnerToNextRound m r i rounds
  = advanced rounds r i nextRound nextMatch w.
Proof.
  intros Hw Hr Hm.
  assert (Hlen : (S r < length rounds)%nat) by (by eapply lookup_lt_Some).
  unfold KnockoutController.progressWinnerToNextRound. rewrite Hw.
  destruct (Z.of_nat r >=? Z.of_nat (length rounds) - 1)%Z eqn:Hge; [lia|].
  replace (r + 1)%nat with (S r) by lia. rewrite Hr, Hm, even_mod. done.
Qed.

Lemma _updateKnockoutProgression_advanced rounds this m r i w nextRound nextMatch :
  Match.winner m = Some w →
  rounds !! S r = Some nextRound →
  Round.matches nextRound !! (i / 2)%nat = Some nextMatch →
  Tournament.knockout this = Some rounds →
  locate Round.matches (Match.id m) rounds = Some (r, i) →
  Tournament.knockout (Tournament._updateKnockoutProgression this m)
  = Some (advanced rounds r i nextRound nextMatch w).
Proof.
  intros Hw Hr Hm Hk Hloc.
  assert (Hlen : (S r < length rounds)%nat) by (by eapply lookup_lt_Some).
  assert (Hlen' : (i / 2 < length (Round.matches nextRound))%nat)
    by (by eapply lookup_lt_Some).
  unfold Tournament._updateKnockoutProgression. rewrite Hw, Hk.
  change (default [] (Some rounds)) with rounds. rewrite Hloc.
  replace (r + 1)%nat with (S r) by lia.
  destruct (S r <? length rounds)%nat eqn:Hlt; [|apply Nat.ltb_ge in Hlt; lia].
  rewrite Hr.
  destruct (i / 2 <? length (Round.matches nextRound))%nat eqn:Hlt';
    [|apply Nat.ltb_ge in Hlt'; lia].
  unfold Tournament._addEvent, Tournament.set_knockout.
  cbn [Tournament.knockout]. f_equal.
  unfold advanced, advance. rewrite even_mod.
  destruct (Nat.even i); by rewrite (alter_insert _ _ _ _ Hm).
Qed.

Lemma shape_counts (rounds rounds' : list Round.t) :
  shape rounds' = shape rounds →
  map (fun round => length (Round.matches round)) rounds'
  = map (fun round => length (Round.matches round)) rounds.
Proof.
  intros Hs. apply (f_equal (map length)) in Hs. unfold shape in Hs.
  rewrite !map_map in Hs.
  assert (E : ∀ l : list Round.t,
    map (fun x => length (map Match.id (Round.matches x))) l
    = map (fun round => length (Round.matches round)) l)
    by (intros; apply map_ext; intros; apply length_map).
  by rewrite !E in Hs.
Qed.

(** C6.  For a round [r] that has a next round in which the match at
    position floor(i / 2) exists, and a match with the winner [w]: the
    progression of the knockout controller ([progressWinnerToNextRound],
    called for position [i] of round [r]) and the one of the tournament
    model ([_updateKnockoutProgression], which finds the position of the
    match by its identifier) return a bracket in which the match at
    position floor(i / 2) of round [r + 1] has [w] as its home side when
    [i] is even and as its away side when [i] is odd, its other side and
    all its other fields being as before.  Every other match of that
    round and every other round are as they were, no match is removed or
    reordered (the identifiers of every round stay in place) and the
    number of matches of every round is unchanged. *)
Theorem C6_progression_parity (rounds : list Round.t) (m : Match.t) (r i : nat)
    (w : Team.t) (nextRound : Round.t) (nextMatch : Match.t) :
  Match.winner m = Some w →
  rounds !! S r = Some nextRound →
  Round.matches nextRound !! (i / 2)%nat = Some nextMatch →
  (∃ nextRound' n',
     KnockoutController.progressWinnerToNextRound m r i rounds !! S r = Some nextRound'
     ∧ Round.matches nextRound' !! (i / 2)%nat = Some n'
     ∧ (if Nat.even i
        then Match.homeTeam n' = w ∧ Match.awayTeam n' = Match.awayTeam nextMatch
        else Match.awayTeam n' = w ∧ Match.homeTeam n' = Match.homeTeam nextMatch)
     ∧ besides_sides n' = besides_sides nextMatch)
  ∧ (let rounds' := KnockoutController.progressWinnerToNextRound m r i rounds in
     progressed rounds rounds' r i w
     ∧ shape rounds' = shape rounds
     ∧ map (fun round => length (Round.matches round)) rounds'
       = map (fun round => length (Round.matches round)) rounds)
  ∧ (∀ this : Tournament.t,
       Tournament.knockout this = Some rounds →
       locate Round.matches (Match.id m) rounds = Some (r, i) →
       ∃ rounds' nextRound' n',
         Tournament.knockout (Tournament._updateKnockoutProgression this m) = Some rounds'
         ∧ rounds' !! S r = Some nextRound'
         ∧ Round.matches nextRound' !! (i / 2)%nat = Some n'
         ∧ (if Nat.even i
            then Match.homeTeam n' = w ∧ Match.awayTeam n' = Match.awayTeam nextMatch
            else Match.awayTeam n' = w ∧ Match.homeTeam n' = Match.homeTeam nextMatch)
         ∧ besides_sides n' = besides_sides nextMatch
         ∧ progressed rounds rounds' r i w
         ∧ shape rounds' = shape rounds
         ∧ map (fun round => length (Round.matches round)) rounds'
           = map (fun round => length (Round.matches round)) rounds).
Proof.
  intros Hw Hr Hm.
  pose proof (advanced_progressed rounds r i nextRound nextMatch w Hr Hm) as Hp.
  pose proof (shape_advanced rounds r i nextRound nextMatch w Hr Hm) as Hs.
  assert (Hslot : ∃ nextRound' n',
    advanced rounds r i nextRound nextMatch w !! S r = Some nextRound'
    ∧ Round.matches nextRound' !! (i / 2)%nat = Some n'
    ∧ (if Nat.even i
       then Match.homeTeam n' = w ∧ Match.awayTeam n' = Match.awayTeam nextMatch
       else Match.awayTeam n' = w ∧ Match.homeTeam n' = Match.homeTeam nextMatch)
    ∧ besides_sides n' = besides_sides nextMatch).
  { destruct Hp as (_ & _ & nr & nr' & n & n' & H1 & H2 & _ & _ & _ & _ & H3 & H4 & H5 & H6).
    rewrite Hr in H1. injection H1 as <-. rewrite Hm in H3. injection H3 as <-.
    by exists nr', n'. }
  split; [|split].
  - by rewrite (progressWinnerToNextRound_advanced rounds m r i w nextRound nextMatch).
  - cbv zeta.
    rewrite (progressWinnerToNextRound_advanced rounds m r i w nextRound nextMatch)
      by done.
    split; [done|]. split; [done|]. by apply shape_counts.
  - intros this Hk Hloc.
    destruct Hslot as (nextRound' & n' & H1 & H2 & H3 & H4).
    exists (advanced rounds r i nextRound nextMatch w), nextRound', n'.
    split; [by apply _updateKnockoutProgression_advanced|].
    repeat (split; [done|]). by apply shape_counts.
Qed.

(** The second quarterfinal of the example bracket, won 2-0 by its home
    side WB: position 1 is odd, and WB is the away side of the first
    semifinal afterwards, whose home side is still to be decided; the
    first quarterfinal, won by WA, fills the home side. *)
Lemma C6_progression_parity_witness :
  let m := KnockoutController.recordResult Example.qf_1 (Js.Int 2) (Js.Int 0) None None in
  let rounds := App._rounds Example.app in
  let nextRound :=
    {| Round.name := Some "Semifinals"; Round.round := None;
       Round.matches := KnockoutController.generateEmptyRound 2 "Semifinals" 2 |} in
  let sides_of matchId rounds :=
    (fun n => (Team.name (Match.homeTeam n), Team.name (Match.awayTeam n)))
      <$> KnockoutController.getMatchById rounds matchId in
  (Match.winner m = Some (Example.team "WB")
   ∧ rounds !! 1%nat = Some nextRound
   ∧ Round.matches nextRound !! (1 / 2)%nat = Some Example.semifinals_0
   ∧ Tournament.knockout Example.holding = Some rounds
   ∧ locate Round.matches (Match.id m) rounds = Some (0%nat, 1%nat))
  ∧ progressed rounds (KnockoutController.progressWinnerToNextRound m 0 1 rounds)
      0 1 (Example.team "WB")
  ∧ (∃ rounds',
       Tournament.knockout (Tournament._updateKnockoutProgression Example.holding m)
       = Some rounds'
       ∧ progressed rounds rounds' 0 1 (Example.team "WB"))
  ∧ sides_of "semifinals_0" rounds = Some ("TBD", "TBD")
  ∧ sides_of "semifinals_0" (KnockoutController.progressWinnerToNextRound m 0 1 rounds)
    = Some ("TBD", "WB")
  ∧ sides_of "semifinals_0"
      (default [] (Tournament.knockout
                     (Tournament._updateKnockoutProgression Example.holding m)))
    = Some ("TBD", "WB")
  ∧ sides_of "semifinals_0"
      (KnockoutController.progressWinnerToNextRound
         (KnockoutController.recordResult Example.qf_0 (Js.Int 1) (Js.Int 0) None None)
         0 0 (KnockoutController.progressWinnerToNextRound m 0 1 rounds))
    = Some ("WA", "WB").
Proof.
  cbv zeta.
  assert (H1 : Match.winner
                 (KnockoutController.recordResult Example.qf_1 (Js.Int 2) (Js.Int 0) None None)
               = Some (Example.team "WB")) by (vm_compute; reflexivity).
  assert (H2 : App._rounds Example.app !! 1%nat
               = Some {| Round.name := Some "Semifinals"; Round.round := None;
                         Round.matches :=
                           KnockoutController.generateEmptyRound 2 "Semifinals" 2 |})
    by (vm_compute; reflexivity).
  assert (H3 : Round.matches
                 {| Round.name := Some "Semifinals"; Round.round := None;
                    Round.matches :=
                      KnockoutController.generateEmptyRound 2 "Semifinals" 2 |}
                 !! (1 / 2)%nat = Some Example.semifinals_0)
    by (vm_compute; reflexivity).
  assert (H4 : Tournament.knockout Example.holding = Some (App._rounds Example.app))
    by reflexivity.
  assert (H5 : locate Round.matches
                 (Match.id (KnockoutController.recordResult Example.qf_1
                              (Js.Int 2) (Js.Int 0) None None))
                 (App._rounds Example.app) = Some (0%nat, 1%nat))
    by (vm_compute; reflexivity).
  pose proof (C6_progression_parity _ _ _ _ _ _ _ H1 H2 H3) as (_ & (Ha & _) & Hb).
  destruct (Hb _ H4 H5) as (rounds' & nextRound' & n' & Hc & _ & _ & _ & _ & Hd & _).
  split; [repeat split; assumption|].
  split; [exact Ha|]. split; [by exists rounds'|].
  vm_compute. repeat split.
Defined.

(** ** Results and completion *)

Lemma findIndex_ids (x : string) (l l' : list Match.t) :
  map Match.id l = map Match.id l' →
  findIndex (fun m => bool_decide (Match.id m = x)) l
  = findIndex (fun m => bool_decide (Match.id m = x)) l'.
Proof.
  revert l'. induction l as [|m l IH]; intros [|m' l'] H; simplify_eq/=; [done|].
  rewrite H. by rewrite (IH l').
Qed.

(** Where a match is found only depends on the shape of the bracket. *)
Lemma locate_shape (x : string) (rounds rounds' : list Round.t) :
  shape rounds = shape rounds' →
  locate Round.matches x rounds = locate Round.matches x rounds'.
Proof.
  revert rounds'. induction rounds as [|r rounds IH]; intros [|r' rounds'] H;
    simplify_eq/=; [done|].
  rewrite (findIndex_ids x _ _ H). by rewrite (IH rounds').
Qed.

(** A match located in a round of one match is that match. *)
Lemma locate_single (x : string) (rounds : list Round.t) (r i : nat)
    (round : Round.t) (m : Match.t) :
  locate Round.matches x rounds = Some (r, i) →
  rounds !! r = Some round → Round.matches round = [m] →
  i = 0%nat ∧ Match.id m = x.
Proof.
  revert r. induction rounds as [|c cs IH]; intros r Hloc Hr Hms; [done|].
  simpl in Hloc.
  destruct (findIndex _ (Round.matches c)) as [j|] eqn:Hj.
  - simplify_eq/=. rewrite Hms in Hj. simpl in Hj.
    destruct (bool_decide _) eqn:Hb; simplify_eq/=.
    by apply bool_decide_eq_true in Hb.
  - destruct (locate Round.matches x cs) as [[r' i']|] eqn:Hl; simplify_eq/=.
    by eapply IH.
Qed.

Lemma id_updateMatchResult (m : Match.t) (h a : Js.value) :
  Match.id (Helpers.updateMatchResult m h a) = Match.id m.
Proof.
  unfold Helpers.updateMatchResult.
  repeat match goal with |- context [if ?b then _ else _] => destruct b end; done.
Qed.

Lemma id_updateResult (m : Match.t) (h a : Js.value) :
  Match.id (Match.updateResult m h a) = Match.id m.
Proof.
  unfold Match.updateResult.
  repeat match goal with |- context [if ?b then _ else _] => destruct b end; done.
Qed.

Lemma played_updateResult (m : Match.t) (h a : Js.value) :
  Match.played (Match.updateResult m h a) = true.
Proof.
  unfold Match.updateResult.
  repeat match goal with |- context [if ?b then _ else _] => destruct b end; done.
Qed.

Lemma recordResult_id_played (m : Match.t) (h a : Js.num)
    (et pen : option (Js.num * Js.num)) :
  Match.id (KnockoutController.recordResult m h a et pen) = Match.id m
  ∧ Match.played (KnockoutController.recordResult m h a et pen) = true.
Proof.
  unfold KnockoutController.recordResult.
  pose proof (id_updateResult m h a) as Hi.
  pose proof (played_updateResult m h a) as Hp.
  destruct (Match.updateResult m h a) as [i ht at_ hs as_ p md rd ri g w e pn].
  simpl in *. subst.
  destruct et as [[eh ea]|], pen as [[ph pa]|]; simpl;
    repeat match goal with
    | |- context [if ?b then _ else _] => destruct b; simpl
    | |- context [match ?w with Some _ => _ | None => _ end] => destruct w; simpl
    end; done.
Qed.

Lemma last_insert_final {A} (l : list A) (r : nat) (x : A) :
  S r = length l → last (<[r := x]> l) = Some x.
Proof.
  intros H. rewrite last_lookup, length_insert, <- H. simpl.
  apply list_lookup_insert_eq. lia.
Qed.

(** The two notifications on a controller that holds a tournament and is
    not loading. *)
Lemma notifyKnockoutMatchUpdated_held (matchId : string) (s : App.t) (held : Held.t) :
  App._isLoading s = false → App._tournament s = Some held →
  TournamentController.notifyKnockoutMatchUpdated matchId s
  = {| App._rounds := App._rounds s;
       App._tournamentController := App._tournamentController s;
       App._tournament :=
         Some {| Held.status := Held.status held;
                 Held.currentStage := App._currentStage s |};
       App._currentStage := App._currentStage s;
       App._isLoading := false;
       App.notifications := App.notifications s ++ [matchUpdated matchId] |}.
Proof.
  destruct s as [rs ctl tour stage loading notes]. cbn. intros -> ->. reflexivity.
Qed.

Lemma notifyTournamentCompleted_held (winner : option Team.t) (s : App.t) (held : Held.t) :
  App._isLoading s = false → App._tournament s = Some held →
  TournamentController.notifyTournamentCompleted winner s
  = Some {| App._rounds := App._rounds s;
            App._tournamentController := App._tournamentController s;
            App._tournament :=
              Some {| Held.status := Status.completed;
                      Held.currentStage := Stage.complete |};
            App._currentStage := Stage.complete;
            App._isLoading := false;
            App.notifications :=
              App.notifications s
              ++ [ stageChanged (App._currentStage s) Stage.complete;
                   tournamentCompleted winner ] |}.
Proof.
  destruct s as [rs ctl tour stage loading notes]. cbn. intros -> ->.
  cbv -[app]. by rewrite <- app_assoc.
Qed.

(** The controller's update once the match is found. *)
Lemma updateMatchResult_found (matchId : string) (h a : Js.num)
    (et pen : option (Js.num * Js.num)) (s : App.t) (r i : nat)
    (round : Round.t) (m : Match.t) :
  locate Round.matches matchId (App._rounds s) = Some (r, i) →
  App._rounds s !! r = Some round →
  Round.matches round !! i = Some m →
  App._tournamentController s = true →
  let m' := KnockoutController.recordResult m h a et pen in
  let s1 :=
    App.set_rounds s
      (KnockoutController.progressWinnerToNextRound m' r i
         (<[r := Round.set_matches round (<[i := m']> (Round.matches round))]>
            (App._rounds s))) in
  let s2 := TournamentController.notifyKnockoutMatchUpdated (Match.id m') s1 in
  KnockoutController.updateMatchResult matchId h a et pen s
  = if KnockoutController.isTournamentComplete s2
    then s3 ← TournamentController.notifyTournamentCompleted
                (KnockoutController.getTournamentWinner s2) s2;
         Some (true, s3)
    else Some (true, s2).
Proof.
  intros Hloc Hr Hm Hctl. cbv zeta.
  unfold KnockoutController.updateMatchResult.
  rewrite Hloc, Hr, Hm.
  destruct s as [rs ctl tour stage loading notes]. cbn in Hctl. subst ctl.
  reflexivity.
Qed.

(** The controller's update of the single match of the last round. *)
Lemma controller_final (s : App.t) (held : Held.t)
    (matchId : string) (r i : nat) (round : Round.t)
    (m : Match.t) (h a : Js.num) (et pen : option (Js.num * Js.num)) (w' : Team.t) :
  App._tournamentController s = true →
  App._isLoading s = false →
  App._tournament s = Some held →
  locate Round.matches matchId (App._rounds s) = Some (r, i) →
  S r = length (App._rounds s) →
  App._rounds s !! r = Some round →
  Round.matches round = [m] →
  Match.winner (KnockoutController.recordResult m h a et pen) = Some w' →
  KnockoutController.updateMatchResult matchId h a et pen s
  = Some (true,
      {| App._rounds :=
           <[r := Round.set_matches round
                    [KnockoutController.recordResult m h a et pen]]> (App._rounds s);
         App._tournamentController := true;
         App._tournament :=
           Some {| Held.status := Status.completed; Held.currentStage := Stage.complete |};
         App._currentStage := Stage.complete;
         App._isLoading := false;
         App.notifications :=
           App.notifications s
           ++ [ matchUpdated matchId;
                stageChanged (App._currentStage s) Stage.complete;
                tournamentCompleted (Some w') ] |}).
Proof.
  intros Hctl Hload Hheld Hloc Hfinal Hr Hms Hw'.
  destruct (locate_single _ _ _ _ _ _ Hloc Hr Hms) as [-> Hid].
  assert (Hm : Round.matches round !! 0%nat = Some m) by (by rewrite Hms).
  destruct (recordResult_id_played m h a et pen) as [Hid' Hp'].
  rewrite (updateMatchResult_found _ _ _ _ _ _ _ _ _ _ Hloc Hr Hm Hctl).
  set (m' := KnockoutController.recordResult m h a et pen) in *.
  assert (Hprog :
    KnockoutController.progressWinnerToNextRound m' r 0
      (<[r := Round.set_matches round (<[0%nat := m']> (Round.matches round))]>
         (App._rounds s))
    = <[r := Round.set_matches round [m']]> (App._rounds s)).
  { unfold KnockoutController.progressWinnerToNextRound.
    rewrite Hw', length_insert, Hms.
    destruct (Z.of_nat r >=? Z.of_nat (length (App._rounds s)) - 1)%Z eqn:Hge; [done|lia]. }
  rewrite Hprog.
  set (s1 := App.set_rounds s _).
  rewrite (notifyKnockoutMatchUpdated_held _ s1 held) by (by destruct s).
  match goal with
  | |- context [KnockoutController.isTournamentComplete ?x] => set (s2 := x)
  end.
  assert (Hcomplete : KnockoutController.isTournamentComplete s2 = true).
  { unfold KnockoutController.isTournamentComplete, s2, s1. cbn.
    rewrite (last_insert_final _ _ _ Hfinal). cbn. by rewrite Hp'. }
  assert (Hwinner : KnockoutController.getTournamentWinner s2 = Some w').
  { unfold KnockoutController.getTournamentWinner. rewrite Hcomplete.
    unfold s2, s1. cbn. rewrite (last_insert_final _ _ _ Hfinal). by cbn. }
  rewrite Hcomplete, Hwinner.
  rewrite (notifyTournamentCompleted_held _ s2 {| Held.status := Held.status held;
             Held.currentStage := App._currentStage s1 |}) by done.
  unfold s2, s1. destruct s as [rs ctl tour stage loading notes].
  cbn in Hctl, Hload, Hheld |- *. subst ctl loading tour.
  rewrite Hid', Hid, <- app_assoc. reflexivity.
Qed.

(** C4, the claim refuted.  In the tournament model, once the final of the
    example is decided 2-1, the winner is in the final match and the status
    is 'completed', but the stage is still 'knockout'. *)
Lemma C4_counterexample :
  let this := (Tournament.updateMatchResult Example.after_semifinals "final"
                 (Js.Int 2) (Js.Int 1)).2 in
  Tournament.currentStage Example.after_semifinals = Stage.knockout
  ∧ ((fun m => Team.name <$> Match.winner m) <$>
       KnockoutController.getMatchById (default [] (Tournament.knockout this)) "final")
    = Some (Some "Group A 1st")
  ∧ Tournament.status this = Status.completed
  ∧ Tournament.currentStage this = Stage.knockout
  ∧ Tournament.currentStage this ≠ Stage.complete.
Proof. vm_compute. repeat split; discriminate. Qed.

(** The model's update of the single match of the last round. *)
Lemma model_final (this : Tournament.t) (rounds : list Round.t)
    (matchId : string) (r i : nat) (round : Round.t)
    (m : Match.t) (h a : Js.num) (w : Team.t) :
  Tournament.currentStage this = Stage.knockout →
  Tournament.knockout this = Some rounds →
  locate Round.matches matchId rounds = Some (r, i) →
  S r = length rounds →
  rounds !! r = Some round →
  Round.matches round = [m] →
  Match.winner (Helpers.updateMatchResult m h a) = Some w →
  ∃ this',
    Tournament.updateMatchResult this matchId h a = (true, this')
    ∧ Tournament.status this' = Status.completed
    ∧ Tournament.currentStage this' = Stage.knockout
    ∧ Tournament.events this'
      = Tournament.events this
        ++ [ tournament_completed (Team.name w); match_updated matchId h a ]
    ∧ Tournament.knockout this'
      = Some (<[r := Round.set_matches round [Helpers.updateMatchResult m h a]]> rounds).
Proof.
  intros Hstage Hk Hloc Hfinal Hr Hms Hw.
  destruct (locate_single _ _ _ _ _ _ Hloc Hr Hms) as [-> Hid].
  assert (Hm : Round.matches round !! 0%nat = Some m) by (by rewrite Hms).
  unfold Tournament.updateMatchResult. rewrite Hstage.
  cbn [Tournament.is_group Tournament.is_knockout]. rewrite Hk, Hloc, Hr.
  rewrite (alter_insert _ _ _ _ Hm).
  rewrite list_lookup_insert_eq by (by eapply lookup_lt_Some).
  set (m' := Helpers.updateMatchResult m h a) in *.
  unfold Tournament._updateKnockoutProgression. rewrite Hw.
  cbn [Tournament.set_knockout Tournament.knockout default from_option id].
  rewrite (locate_shape _ _ rounds)
    by (apply shape_insert with m; [done|done|apply id_updateMatchResult]).
  assert (Hid' : Match.id m' = matchId) by (unfold m'; by rewrite id_updateMatchResult).
  rewrite Hid', Hloc, length_insert.
  destruct (r + 1 <? length rounds)%nat eqn:Hlt; [apply Nat.ltb_lt in Hlt; lia|].
  eexists. split; [reflexivity|].
  cbn. rewrite Hstage, Hms. cbn. rewrite <- app_assoc. done.
Qed.

(** C4, amended.  When the only match of the last round is given a result
    that decides it, be it in regulation, in extra time or on penalties:
    through the knockout controller the held tournament gets status
    'completed' and stage 'complete', the controller's stage becomes
    'complete', the champion query [getTournamentWinner] returns the
    winner and the [tournamentCompleted] notification carries it.  When it
    is given a result that decides it through [Tournament.updateMatchResult],
    the status becomes 'completed' and a [tournament_completed] event with
    the winner's name is logged, the stage staying 'knockout'.  In both,
    the bracket only changes in the final match itself: nothing is
    propagated. *)
Theorem C4_final_decided :
  (∀ (s : App.t) (held : Held.t) (matchId : string) (r i : nat) (round : Round.t)
     (m : Match.t) (h a : Js.num) (et pen : option (Js.num * Js.num)) (w : Team.t),
     App._tournamentController s = true →
     App._isLoading s = false →
     App._tournament s = Some held →
     locate Round.matches matchId (App._rounds s) = Some (r, i) →
     S r = length (App._rounds s) →
     App._rounds s !! r = Some round →
     Round.matches round = [m] →
     Match.winner (KnockoutController.recordResult m h a et pen) = Some w →
     ∃ s',
       KnockoutController.updateMatchResult matchId h a et pen s = Some (true, s')
       ∧ App._tournament s'
         = Some {| Held.status := Status.completed; Held.currentStage := Stage.complete |}
       ∧ App._currentStage s' = Stage.complete
       ∧ KnockoutController.getTournamentWinner s' = Some w
       ∧ App.notifications s'
         = App.notifications s
           ++ [ matchUpdated matchId;
                stageChanged (App._currentStage s) Stage.complete;
                tournamentCompleted (Some w) ]
       ∧ App._rounds s'
         = <[r := Round.set_matches round
                    [KnockoutController.recordResult m h a et pen]]> (App._rounds s))
  ∧ (∀ (this : Tournament.t) (rounds : list Round.t) (matchId : string) (r i : nat)
       (round : Round.t) (m : Match.t) (h a : Js.num) (w : Team.t),
       Tournament.currentStage this = Stage.knockout →
       Tournament.knockout this = Some rounds →
       locate Round.matches matchId rounds = Some (r, i) →
       S r = length rounds →
       rounds !! r = Some round →
       Round.matches round = [m] →
       Match.winner (Helpers.updateMatchResult m h a) = Some w →
       ∃ this',
         Tournament.updateMatchResult this matchId h a = (true, this')
         ∧ Tournament.status this' = Status.completed
         ∧ Tournament.currentStage this' = Stage.knockout
         ∧ Tournament.events this'
           = Tournament.events this
             ++ [ tournament_completed (Team.name w); match_updated matchId h a ]
         ∧ Tournament.knockout this'
           = Some (<[r := Round.set_matches round [Helpers.updateMatchResult m h a]]>
                     rounds)).
Proof.
  split.
  - intros s held matchId r i round m h a et pen w Hctl Hload Hheld Hloc Hfinal Hr Hms Hw.
    eexists. split.
    + by apply (controller_final s held matchId r i round m h a et pen w).
    + cbn. repeat split.
      unfold KnockoutController.getTournamentWinner,
        KnockoutController.isTournamentComplete. cbn.
      rewrite (last_insert_final _ _ _ Hfinal). cbn.
      by rewrite (proj2 (recordResult_id_played m h a et pen)).
  - intros. by eapply model_final.
Qed.

(** The final between WA and WC of the example bracket, level at 1-1 and
    won by WA 5-4 on penalties, through the knockout controller; and the
    final of the one-group tournament, won 2-1 by its home side, through
    the tournament model. *)
Lemma C4_final_decided_witness :
  let final :=
    {| Round.name := Some "Final"; Round.round := None;
       Round.matches := [Example.final_WA_WC] |} in
  let decided :=
    KnockoutController.recordResult Example.final_WA_WC (Js.Int 1) (Js.Int 1) None
      (Some (Js.Int 5, Js.Int 4)) in
  (locate Round.matches "final_0" (App._rounds Example.app_final) = Some (2%nat, 0%nat)
   ∧ App._rounds Example.app_final !! 2%nat = Some final
   ∧ Match.winner decided = Some (Example.team "WA")
   ∧ Match.winner (Helpers.updateMatchResult Example.final_WA_WC (Js.Int 1) (Js.Int 1))
     = None)
  ∧ (∃ s',
       KnockoutController.updateMatchResult "final_0" (Js.Int 1) (Js.Int 1) None
         (Some (Js.Int 5, Js.Int 4)) Example.app_final = Some (true, s')
       ∧ App._tournament s'
         = Some {| Held.status := Status.completed; Held.currentStage := Stage.complete |}
       ∧ App._currentStage s' = Stage.complete
       ∧ KnockoutController.getTournamentWinner s' = Some (Example.team "WA")
       ∧ App._rounds s'
         = <[2%nat := Round.set_matches final [decided]]> (App._rounds Example.app_final))
  ∧ (∃ this' w,
       (Team.name <$> (KnockoutController.getMatchById
                         (default [] (Tournament.knockout Example.after_semifinals))
                         "final" ≫= fun m => Some (Match.homeTeam m))) = Some (Team.name w)
       ∧ Team.name w = "Group A 1st"
       ∧ Tournament.updateMatchResult Example.after_semifinals "final" (Js.Int 2) (Js.Int 1)
         = (true, this')
       ∧ Tournament.status this' = Status.completed
       ∧ Tournament.currentStage this' = Stage.knockout
       ∧ Tournament.events this'
         = Tournament.events Example.after_semifinals
           ++ [ tournament_completed (Team.name w);
                match_updated "final" (Js.Int 2) (Js.Int 1) ]).
Proof.
  cbv zeta.
  assert (H3 : App._tournamentController Example.app_final = true)
    by (vm_compute; reflexivity).
  assert (H4 : App._isLoading Example.app_final = false) by (vm_compute; reflexivity).
  assert (H5 : App._tournament Example.app_final
               = Some {| Held.status := Status.active;
                         Held.currentStage := Stage.knockout |})
    by (vm_compute; reflexivity).
  assert (H6 : locate Round.matches "final_0" (App._rounds Example.app_final)
               = Some (2%nat, 0%nat)) by (vm_compute; reflexivity).
  assert (H7 : 3%nat = length (App._rounds Example.app_final))
    by (vm_compute; reflexivity).
  assert (H8 : App._rounds Example.app_final !! 2%nat
               = Some {| Round.name := Some "Final"; Round.round := None;
                         Round.matches := [Example.final_WA_WC] |})
    by (vm_compute; reflexivity).
  assert (H9 : Match.winner
                 (KnockoutController.recordResult Example.final_WA_WC (Js.Int 1) (Js.Int 1)
                    None (Some (Js.Int 5, Js.Int 4))) = Some (Example.team "WA"))
    by (vm_compute; reflexivity).
  assert (H10 : Match.winner
                  (Helpers.updateMatchResult Example.final_WA_WC (Js.Int 1) (Js.Int 1))
                = None) by (vm_compute; reflexivity).
  destruct (proj1 C4_final_decided Example.app_final _ "final_0" 2%nat 0%nat _ _
              (Js.Int 1) (Js.Int 1) None (Some (Js.Int 5, Js.Int 4)) _
              H3 H4 H5 H6 H7 H8 eq_refl H9)
    as (s' & Ha & Hb & Hc & Hd & _ & He).
  set (rounds := default [] (Tournament.knockout Example.after_semifinals)).
  let x := eval vm_compute in
             (default Example.final_0 (KnockoutController.getMatchById rounds "final")) in
  set (final := x).
  assert (G1 : Tournament.currentStage Example.after_semifinals = Stage.knockout)
    by (vm_compute; reflexivity).
  assert (G2 : Tournament.knockout Example.after_semifinals = Some rounds)
    by (vm_compute; reflexivity).
  assert (G3 : locate Round.matches "final" rounds = Some (1%nat, 0%nat))
    by (vm_compute; reflexivity).
  assert (G4 : 2%nat = length rounds) by (vm_compute; reflexivity).
  assert (G5 : rounds !! 1%nat
               = Some {| Round.name := None; Round.round := Some "Final";
                         Round.matches := [final] |})
    by (vm_compute; reflexivity).
  assert (G6 : Match.winner (Helpers.updateMatchResult final (Js.Int 2) (Js.Int 1))
               = Some (Match.homeTeam final)) by (vm_compute; reflexivity).
  destruct (proj2 C4_final_decided Example.after_semifinals rounds "final" 1%nat 0%nat _ _
              (Js.Int 2) (Js.Int 1) _ G1 G2 G3 G4 G5 eq_refl G6)
    as (this' & Hf & Hg & Hh & Hi & _).
  split; [repeat split; assumption|]. split.
  - exists s'. repeat split; assumption.
  - exists this', (Match.homeTeam final).
    split; [vm_compute; reflexivity|]. split; [vm_compute; reflexivity|].
    repeat split; assumption.
Defined.

(** C2.  A drawn regulation score with no extra time and no penalties
    leaves a knockout match played with no winner: for every match, in the
    result code of the knockout controller and in the helper the
    tournament model calls; in the first quarterfinal of the example
    bracket after the controller's update with 1-1; and in the first
    semifinal of the one-group tournament, a state reached from its
    creation by seven calls of [Tournament.updateMatchResult]. *)
Theorem C2_drawn_knockout_match :
  (∀ (m : Match.t) (z : Z),
     let m' := KnockoutController.recordResult m (Js.Int z) (Js.Int z) None None in
     Match.played m' = true ∧ Match.winner m' = None)
  ∧ (∀ (m : Match.t) (z : Z),
     let m' := Helpers.updateMatchResult m (Js.Int z) (Js.Int z) in
     Match.played m' = true ∧ Match.winner m' = None)
  ∧ (∃ s',
       KnockoutController.updateMatchResult "qf_0" (Js.Int 1) (Js.Int 1) None None
         Example.app = Some (true, s')
       ∧ (Match.played <$> KnockoutController.getMatchById (App._rounds s') "qf_0")
         = Some true
       ∧ (Match.winner <$> KnockoutController.getMatchById (App._rounds s') "qf_0")
         = Some None)
  ∧ (∃ this',
       Tournament.updateMatchResult Example.after_six "sf_0" (Js.Int 1) (Js.Int 1)
       = (true, this')
       ∧ Tournament.currentStage Example.after_six = Stage.knockout
       ∧ Tournament.currentStage this' = Stage.knockout
       ∧ (Match.played <$>
            KnockoutController.getMatchById (default [] (Tournament.knockout this')) "sf_0")
         = Some true
       ∧ (Match.winner <$>
            KnockoutController.getMatchById (default [] (Tournament.knockout this')) "sf_0")
         = Some None).
Proof.
  split; [|split; [|split]].
  - intros m z. cbv zeta. unfold KnockoutController.recordResult.
    rewrite updateResult_stores. unfold outcome. rewrite gt_irrefl, lt_irrefl.
    cbn -[Js.gt]. by rewrite gt_irrefl.
  - intros m z. cbv zeta.
    rewrite helpers_updateMatchResult_stores, updateResult_stores.
    unfold outcome. by rewrite gt_irrefl, lt_irrefl.
  - eexists. split; [vm_compute; reflexivity|]. vm_compute. done.
  - eexists. split; [vm_compute; reflexivity|]. vm_compute. done.
Qed.

(** C3.  A level shootout is not refused.  [Match.updatePenaltyResult]
    with two equal scores marks the penalties as played and stores both
    scores as [parseInt] reads them, which for an integer below 10^21 is
    the integer itself; only the two winner fields and the match's
    [played] flag keep their values.  The knockout controller's update
    with a level shootout does the same with the scores as they are and
    marks the match played.  On the untouched final of the example bracket
    a 3-3 shootout turns [penalties.played] from false to true. *)
Theorem C3_level_shootout_is_recorded :
  (∀ (m : Match.t) (z : Z),
     let m' := Match.updatePenaltyResult m (Js.Int z) (Js.Int z) in
     Match.penalties m'
     = {| Penalties.played := true;
          Penalties.homeScore := Some (Js.parseInt (Js.Int z));
          Penalties.awayScore := Some (Js.parseInt (Js.Int z));
          Penalties.winner := Penalties.winner (Match.penalties m) |}
     ∧ ((Z.abs z < 10 ^ 21)%Z → Js.parseInt (Js.Int z) = Js.Int z)
     ∧ Match.winner m' = Match.winner m
     ∧ Match.played m' = Match.played m)
  ∧ (∀ (m : Match.t) (h a z : Z),
     let m' :=
       KnockoutController.recordResult m (Js.Int h) (Js.Int a) None
         (Some (Js.Int z, Js.Int z)) in
     Match.played m' = true
     ∧ Penalties.played (Match.penalties m') = true
     ∧ Penalties.homeScore (Match.penalties m') = Some (Js.Int z)
     ∧ Penalties.awayScore (Match.penalties m') = Some (Js.Int z))
  ∧ (KnockoutController.getMatchById (App._rounds Example.app) "final_0"
     = Some Example.final_0
     ∧ Penalties.played (Match.penalties Example.final_0) = false
     ∧ Penalties.played
         (Match.penalties
            (Match.updatePenaltyResult Example.final_0 (Js.Int 3) (Js.Int 3)))
       = true
     ∧ Match.penalties
         (Match.updatePenaltyResult Example.final_0 (Js.Int 3) (Js.Int 3))
       = {| Penalties.played := true;
            Penalties.homeScore := Some (Js.Int 3);
            Penalties.awayScore := Some (Js.Int 3);
            Penalties.winner := None |}).
Proof.
  split; [|split].
  - intros m z. cbv zeta. unfold Match.updatePenaltyResult.
    split; [|split; [apply parseInt_Int|]];
      generalize (Js.parseInt (Js.Int z)); intros x; cbn;
      by rewrite gt_irrefl, lt_irrefl.
  - intros m h a z. cbv zeta. unfold KnockoutController.recordResult.
    rewrite updateResult_stores.
    generalize (outcome m (Js.parseInt (Js.Int h)) (Js.parseInt (Js.Int a))).
    generalize (Js.parseInt (Js.Int h)) (Js.parseInt (Js.Int a)).
    intros x y o. cbn -[Js.gt Js.lt]. rewrite gt_irrefl, lt_irrefl. cbn -[Js.gt Js.lt].
    destruct o; cbn -[Js.gt Js.lt]; [done|].
    destruct (Js.gt (Js.Int h) (Js.Int a)); [done|].
    by destruct (Js.gt (Js.Int a) (Js.Int h)).
  - vm_compute. done.
Qed.





(** ** Serialization *)

(** Apart from the values the constructor takes for absent ones, a match
    comes back from [serialize] and [deserialize] as it was. *)
Lemma Match_roundtrip (generated : string) (m : Match.t) :
  Match.id m ≠ "" →
  Match.matchday m ≠ Some 0%Z →
  Match.round m ≠ Some "" →
  Match.roundIndex m ≠ Some 0%Z →
  Match.group m ≠ Some "" →
  Match.deserialize generated (Match.serialize m) = m.
Proof.
  destruct m as [i ht at_ hs as_ p md rd ri g w e pn]. cbn.
  intros Hi Hmd Hrd Hri Hg.
  unfold Match.deserialize, Match.constructor, Js.truthy_string, Js.truthy_int. cbn.
  rewrite (bool_decide_eq_false_2 _ Hi). cbn.
  f_equal.
  - destruct md as [z|]; [|done]. destruct (Z.eqb_spec z 0); [by subst|done].
  - destruct rd as [x|]; [|done]. case_bool_decide; [by subst|done].
  - destruct ri as [z|]; [|done]. destruct (Z.eqb_spec z 0); [by subst|done].
  - destruct g as [x|]; [|done]. case_bool_decide; [by subst|done].
Qed.

(** What the constructor and the changes of a run keep true of a match:
    its identifier is not empty and none of the fields that the
    constructor reads with [||] holds a falsy value. *)
Lemma built_truthy (m : Match.t) :
  built m →
  Match.id m ≠ "" ∧ Match.matchday m ≠ Some 0%Z ∧ Match.round m ≠ Some ""
  ∧ Match.roundIndex m ≠ Some 0%Z ∧ Match.group m ≠ Some "".
Proof.
  induction 1 as [suffix config|m h a _ IH|m h a _ IH|m h a _ IH|m h a et pen _ IH
                  |m w _ IH|m w _ IH].
  - unfold Match.constructor, Match._generateId, Js.truthy_string, Js.truthy_int. cbn.
    repeat split.
    + destruct (Config.id config) as [x|]; cbn; [|done].
      case_bool_decide; cbn; done.
    + destruct (Config.matchday config) as [z|]; [|done].
      destruct (Z.eqb_spec z 0); cbn; congruence.
    + destruct (Config.round config) as [x|]; [|done].
      case_bool_decide; cbn; congruence.
    + destruct (Config.roundIndex config) as [z|]; [|done].
      destruct (Z.eqb_spec z 0); cbn; congruence.
    + destruct (Config.group config) as [x|]; [|done].
      case_bool_decide; cbn; congruence.
  - by rewrite updateResult_stores.
  - unfold Match.updateExtraTimeResult.
    repeat match goal with |- context [if ?b then _ else _] => destruct b end; done.
  - unfold Match.updatePenaltyResult.
    repeat match goal with |- context [if ?b then _ else _] => destruct b end; done.
  - unfold KnockoutController.recordResult.
    rewrite updateResult_stores.
    generalize (outcome m (Js.parseInt h) (Js.parseInt a)).
    generalize (Js.parseInt h) (Js.parseInt a). intros x y o.
    destruct et as [[eh ea]|], pen as [[ph pa]|]; cbn -[Js.gt Js.lt Js.add];
      repeat match goal with
      | |- context [if ?b then _ else _] => destruct b; cbn -[Js.gt Js.lt Js.add]
      | |- context [match ?w with Some _ => _ | None => _ end] =>
          destruct w; cbn -[Js.gt Js.lt Js.add]
      end; done.
  - done.
  - done.
Qed.

Lemma _addEvent_identity (t : Tournament.t) (e : Event) :
  identity (Tournament._addEvent t e) = identity t.
Proof. done. Qed.

Lemma _checkGroupsCompletion_identity (t : Tournament.t) :
  identity (Tournament._checkGroupsCompletion t) = identity t.
Proof. unfold Tournament._checkGroupsCompletion. by destruct (_ && _). Qed.

Lemma _updateKnockoutProgression_identity (t : Tournament.t) (m : Match.t) :
  identity (Tournament._updateKnockoutProgression t m) = identity t.
Proof.
  unfold Tournament._updateKnockoutProgression.
  destruct (Match.winner m) as [w|]; [|done].
  destruct (locate _ _ _) as [[r i]|]; [|done].
  destruct (_ <? _)%nat; [|done].
  destruct (_ !! _) as [nextRound|]; [|done].
  by destruct (_ <? _)%nat.
Qed.

Lemma updateMatchResult_identity (t : Tournament.t) (matchId : string) (h a : Js.num) :
  identity (Tournament.updateMatchResult t matchId h a).2 = identity t.
Proof.
  unfold Tournament.updateMatchResult.
  destruct (Tournament.is_group (Tournament.currentStage t)).
  - destruct (locate GroupData.matches matchId (Tournament.groups t)) as [[gi mi]|];
      [|done].
    destruct (Tournament.groups t !! gi) as [group|]; [|done].
    cbv zeta. destruct (Helpers.areAllMatchesPlayed _); [|done].
    cbn [snd]. by rewrite _addEvent_identity, _checkGroupsCompletion_identity.
  - destruct (Tournament.is_knockout (Tournament.currentStage t)); [|done].
    destruct (Tournament.knockout t) as [rounds|]; [|done].
    destruct (locate Round.matches matchId rounds) as [[r i]|]; [|done].
    destruct (rounds !! r) as [round|]; [|done].
    cbv zeta. destruct (_ !! i) as [m|]; [|done].
    cbn [snd]. by rewrite _addEvent_identity, _updateKnockoutProgression_identity.
Qed.

Lemma run_truthy (t : Tournament.t) :
  run t → Tournament.id t ≠ "" ∧ Tournament.name t ≠ "" ∧ Tournament.groupCount t ≠ 0%Z.
Proof.
  induction 1 as [d config t H|t matchId h a _ IH].
  - unfold Tournament.constructor in H.
    match type of H with
    | context [Tournament._initializeGroups d ?this _] => set (this0 := this) in H
    end.
    assert (H0 : Tournament.id this0 ≠ "" ∧ Tournament.name this0 ≠ ""
                 ∧ Tournament.groupCount this0 ≠ 0%Z).
    { unfold this0, Tournament._generateId, Js.truthy_string, Js.truthy_int. cbn.
      repeat split.
      - destruct (TournamentConfig.id config) as [x|]; cbn; [|done].
        case_bool_decide; cbn; done.
      - destruct (TournamentConfig.name config) as [x|]; cbn; [|done].
        case_bool_decide; cbn; done.
      - destruct (TournamentConfig.groupCount config) as [z|]; cbn; [|done].
        destruct (Z.eqb_spec z 0); cbn; done. }
    clearbody this0.
    assert (Hinit : ∀ teams t, Tournament._initializeGroups d this0 teams = Some t →
      Tournament.id t ≠ "" ∧ Tournament.name t ≠ "" ∧ Tournament.groupCount t ≠ 0%Z).
    { intros teams t0. unfold Tournament._initializeGroups.
      destruct (_ <? _)%Z; [done|]. intros [= <-]. exact H0. }
    destruct (TournamentConfig.teams config) as [teams|].
    + destruct (_ && _); [by eapply Hinit|]. by injection H as <-.
    + by injection H as <-.
  - pose proof (updateMatchResult_identity t matchId h a) as E.
    unfold identity in E. injection E as -> -> ->. exact IH.
Qed.

(** C9.  Serialization is round-trip safe on the matches and the
    tournaments of a run.  A match built by the constructor and changed by
    the result methods, the knockout controller and the progression comes
    back from [serialize] and [deserialize] equal to itself, all its
    fields included, and so does a tournament built by its constructor and
    changed by [updateMatchResult].  No such match holds the round index 0
    (the constructor stores null for it), so that none can lose it. *)
Theorem C9_serialization_round_trip (m : Match.t) (t : Tournament.t) :
  built m → run t →
  (∀ generated : string, Match.deserialize generated (Match.serialize m) = m)
  ∧ Match.roundIndex m ≠ Some 0%Z
  ∧ (∀ d : Drawn.t, Tournament.deserialize d (Tournament.serialize t) = Some t).
Proof.
  intros Hm Ht.
  destruct (built_truthy m Hm) as (Hid & Hmd & Hrd & Hri & Hg).
  destruct (run_truthy t Ht) as (Htid & Htn & Hgc).
  split; [|split].
  - intros generated. by apply Match_roundtrip.
  - done.
  - intros d. unfold Tournament.deserialize, Tournament.constructor, Tournament.serialize.
    destruct t as [i n gc stage status groups knockout events].
    cbn in *. unfold Js.truthy_string, Js.truthy_int.
    rewrite (bool_decide_eq_false_2 _ Htid), (bool_decide_eq_false_2 _ Htn). cbn.
    destruct (Z.eqb_spec gc 0); [done|]. done.
Qed.

(** The first match of a round of 16, which the knockout controller
    configures with [roundIndex: 0], once decided 2-1; and the one-group
    tournament of the example, built from its serialized form, after its
    six group results and its two semifinals. *)
Lemma C9_serialization_round_trip_witness :
  let m :=
    KnockoutController.recordResult
      (Match.constructor (Match._generateId "lq3k2x1ab") Example.r16_config)
      (Js.Int 2) (Js.Int 1) None None in
  (Config.roundIndex Example.r16_config = Some 0%Z
   ∧ KnockoutController.generateRoundOf16
       (Qualified.winners Example.four_groups)
       (Qualified.runnersUp Example.four_groups) [] !! 0%nat
     = Some (Match.constructor (Match._generateId "lq3k2x1ab") Example.r16_config)
   ∧ Match.roundIndex m = None
   ∧ Match.played m = true)
  ∧ (∀ generated : string, Match.deserialize generated (Match.serialize m) = m)
  ∧ (∀ d : Drawn.t,
       Tournament.deserialize d (Tournament.serialize Example.after_semifinals)
       = Some Example.after_semifinals).
Proof.
  cbv zeta.
  assert (Hm : built
    (KnockoutController.recordResult
       (Match.constructor (Match._generateId "lq3k2x1ab") Example.r16_config)
       (Js.Int 2) (Js.Int 1) None None))
    by (apply built_recordResult, built_constructor).
  assert (Hc : run Example.created).
  { apply (run_constructor
             {| Drawn.idSuffix := ""; Drawn.draw := fun i => i;
                Drawn.teamSuffix := fun _ => ""; Drawn.groupSuffix := fun _ => "";
                Drawn.clock := fun _ _ => 0%Z |}
             (Tournament.serialize Example.created)).
    reflexivity. }
  assert (Ht : run Example.after_semifinals)
    by (unfold Example.after_semifinals, Example.after_six, Example.after_three,
          Example.result; repeat apply run_updateMatchResult; exact Hc).
  destruct (C9_serialization_round_trip _ _ Hm Ht) as (Ha & _ & Hb).
  split; [|by split].
  vm_compute. repeat split.
Defined.

(** * Further properties of the code *)

(** ** Results and their display *)

Lemma string_app_assoc (a b c : string) : (a +:+ b) +:+ c = a +:+ (b +:+ c).
Proof.
  induction a as [|x a IH]; [done|].
  change (String x ((a +:+ b) +:+ c) = String x (a +:+ (b +:+ c))).
  by f_equal.
Qed.

Lemma parseInt_score (z : Z) : form_score z → Js.parseInt (Js.Int z) = Js.Int z.
Proof. intros Hz. apply parseInt_Int. unfold form_score in Hz. lia. Qed.

(** X1.  What [Match.getFinalScoreDisplay] prints.  A match whose result
    has been reset prints 'vs'; after [updateResult] on it, the two stored
    scores; after a result, an extra-time result and a penalty result,
    the three score lines with the labels AET and Pens.
    [MatchController.formatMatchResult] prints the same text, except for a
    played match with penalties, where its label is Pen.
    [Helpers.formatTeamWithScore] prints the name of a team alone for the
    score of a reset match, and the name followed by the stored score in
    brackets after a result. *)
Theorem X_score_display (m : Match.t) (h a eh ea ph pa : Js.value) :
  let regular := Match.updateResult (KnockoutController.cleared m) h a in
  let shootout :=
    Match.updatePenaltyResult
      (Match.updateExtraTimeResult (Match.updateResult m h a) eh ea) ph pa in
  Match.getFinalScoreDisplay (KnockoutController.cleared m) = "vs"
  ∧ Match.getFinalScoreDisplay regular = scoreline (Js.parseInt h) (Js.parseInt a)
  ∧ Match.getFinalScoreDisplay shootout
    = scoreline (Js.parseInt h) (Js.parseInt a)
        +:+ " (AET: " +:+ scoreline (Js.parseInt eh) (Js.parseInt ea) +:+ ")"
        +:+ " (Pens: " +:+ scoreline (Js.parseInt ph) (Js.parseInt pa) +:+ ")"
  ∧ (MatchController.formatMatchResult (Some m) = Match.getFinalScoreDisplay m
     ↔ Match.played m = false ∨ Match.hadPenalties m = false)
  ∧ Helpers.formatTeamWithScore (Match.homeTeam m)
      (Match.homeScore (KnockoutController.cleared m))
    = Team.name (Match.homeTeam m)
  ∧ Helpers.formatTeamWithScore (Match.homeTeam m) (Match.homeScore regular)
    = Team.name (Match.homeTeam m) +:+ " (" +:+ Js.toString (Js.parseInt h) +:+ ")".
Proof.
  intros regular shootout.
  split; [done|]. split; [|split; [|split; [|split; [done|]]]];
    [| | |subst regular; by rewrite updateResult_stores].
  - assert (Hr : Match.played regular = true
               ∧ Match.homeScore regular = Some (Js.parseInt h)
               ∧ Match.awayScore regular = Some (Js.parseInt a)
               ∧ Match.extraTime regular = ExtraTime.initial
               ∧ Match.penalties regular = Penalties.initial).
    { subst regular. by rewrite updateResult_stores. }
    destruct Hr as (R1 & R2 & R3 & R4 & R5).
    unfold Match.getFinalScoreDisplay, Match.hadExtraTime, Match.hadPenalties.
    by rewrite R1, R2, R3, R4, R5.
  - assert (Hp : Match.played shootout = true
               ∧ Match.homeScore shootout = Some (Js.parseInt h)
               ∧ Match.awayScore shootout = Some (Js.parseInt a)
               ∧ Match.extraTime shootout
                 = {| ExtraTime.played := true;
                      ExtraTime.homeScore := Some (Js.parseInt eh);
                      ExtraTime.awayScore := Some (Js.parseInt ea) |}
               ∧ Penalties.played (Match.penalties shootout) = true
               ∧ Penalties.homeScore (Match.penalties shootout) = Some (Js.parseInt ph)
               ∧ Penalties.awayScore (Match.penalties shootout) = Some (Js.parseInt pa)).
    { subst shootout. rewrite updateResult_stores.
      unfold Match.updatePenaltyResult, Match.updateExtraTimeResult.
      repeat match goal with |- context [if ?b then _ else _] => destruct b end; done. }
    destruct Hp as (H1 & H2 & H3 & H4 & H5 & H6 & H7).
    unfold Match.getFinalScoreDisplay, Match.hadExtraTime, Match.hadPenalties, scoreline.
    rewrite H1, H2, H3, H4, H5, H6, H7.
    cbn [negb ExtraTime.played ExtraTime.homeScore ExtraTime.awayScore].
    by rewrite !string_app_assoc.
  - unfold MatchController.formatMatchResult, Match.getFinalScoreDisplay,
      Match.hadExtraTime, Match.hadPenalties.
    destruct (Match.played m); cbn [negb]; [|by split; auto].
    destruct (Penalties.played (Match.penalties m)); [|by split; auto].
    split; [|by intros [|]].
    intros E. exfalso.
    destruct (ExtraTime.played (Match.extraTime m));
      apply String.app_inj in E; discriminate E.
Qed.

(** What the result code of the knockout controller leaves of a match
    when it is given no extra time and no penalties. *)
Lemma recordResult_plain (m : Match.t) (h a : Z) :
  form_score h → form_score a →
  let m' := KnockoutController.recordResult m (Js.Int h) (Js.Int a) None None in
  Match.winner m' = leader m (h, a)
  ∧ Match.homeTeam m' = Match.homeTeam m ∧ Match.awayTeam m' = Match.awayTeam m
  ∧ Match.extraTime m' = Match.extraTime m ∧ Match.penalties m' = Match.penalties m
  ∧ Match.played m' = true
  ∧ Match.homeScore m' = Some (Js.Int h) ∧ Match.awayScore m' = Some (Js.Int a).
Proof.
  intros Hh Ha. cbv zeta. unfold KnockoutController.recordResult.
  rewrite updateResult_stores, !parseInt_score by done.
  unfold outcome, leader. cbn -[Z.ltb].
  destruct (a <? h)%Z; cbn -[Z.ltb]; [done|].
  destruct (h <? a)%Z; cbn -[Z.ltb]; done.
Qed.

(** X2.  A shootout outlives the next result.  When a match has been
    decided on penalties for its home side and a second result is then
    entered with no penalties, won by the away side in regulation, the
    away side is the winner, but the penalties of the first result are
    still in the match, with the home side as their winner, extra time is
    as it was, and the display prints the new score followed by the old
    shootout. *)
Theorem X_result_keeps_shootout (m : Match.t) (h a ph pa : Z) (h0 a0 : Js.num) :
  (ph > pa)%Z → form_score h → form_score a → (h < a)%Z →
  let first := KnockoutController.recordResult m h0 a0 None (Some (Js.Int ph, Js.Int pa)) in
  let second := KnockoutController.recordResult first (Js.Int h) (Js.Int a) None None in
  Match.winner first = Some (Match.homeTeam m)
  ∧ Match.winner second = Some (Match.awayTeam m)
  ∧ Match.penalties second
    = {| Penalties.played := true; Penalties.homeScore := Some (Js.Int ph);
         Penalties.awayScore := Some (Js.Int pa);
         Penalties.winner := Some (Match.homeTeam m) |}
  ∧ Match.extraTime second = Match.extraTime m
  ∧ Match.getFinalScoreDisplay second
    = scoreline (Js.Int h) (Js.Int a) +:+
      (if Match.hadExtraTime m
       then " (AET: " +:+ Js.show (ExtraTime.homeScore (Match.extraTime m)) +:+ " - "
            +:+ Js.show (ExtraTime.awayScore (Match.extraTime m)) +:+ ")"
       else "")
      +:+ " (Pens: " +:+ scoreline (Js.Int ph) (Js.Int pa) +:+ ")".
Proof.
  intros Hp Hh Ha Hs first second.
  assert (Hgt : Js.gt (Js.Int ph) (Js.Int pa) = true) by (apply Z.ltb_lt; lia).
  assert (F : Match.winner first = Some (Match.homeTeam m)
              ∧ Match.homeTeam first = Match.homeTeam m
              ∧ Match.awayTeam first = Match.awayTeam m
              ∧ Match.extraTime first = Match.extraTime m
              ∧ Match.penalties first
                = {| Penalties.played := true; Penalties.homeScore := Some (Js.Int ph);
                     Penalties.awayScore := Some (Js.Int pa);
                     Penalties.winner := Some (Match.homeTeam m) |}).
  { subst first. unfold KnockoutController.recordResult.
    rewrite updateResult_stores.
    generalize (outcome m (Js.parseInt h0) (Js.parseInt a0)).
    generalize (Js.parseInt h0) (Js.parseInt a0). intros x y o.
    cbn -[Js.gt Js.lt]. rewrite Hgt. done. }
  destruct F as (F1 & F2 & F3 & F4 & F5).
  destruct (recordResult_plain first h a Hh Ha) as (S1 & _ & _ & S2 & S3 & S4 & S5 & S6).
  fold second in S1, S2, S3, S4, S5, S6.
  assert (L : leader first (h, a) = Some (Match.awayTeam first)).
  { unfold leader. cbn -[Z.ltb].
    destruct (Z.ltb_spec a h); [lia|]. by destruct (Z.ltb_spec h a); [|lia]. }
  rewrite S1, L, S2, S3, F3, F4, F5. repeat split; try done.
  unfold Match.getFinalScoreDisplay, Match.hadExtraTime, Match.hadPenalties, scoreline.
  rewrite S2, S3, S4, S5, S6, F4, F5.
  cbn [negb Penalties.played Penalties.homeScore Penalties.awayScore].
  destruct (ExtraTime.played (Match.extraTime m)); by rewrite !string_app_assoc.
Qed.

(** The first quarterfinal of the example bracket: 1-1 and 4-3 on
    penalties for WA, then entered again as 0-2. *)
Lemma X_result_keeps_shootout_witness :
  let first :=
    KnockoutController.recordResult Example.qf_0 (Js.Int 1) (Js.Int 1) None
      (Some (Js.Int 4, Js.Int 3)) in
  let second := KnockoutController.recordResult first (Js.Int 0) (Js.Int 2) None None in
  Match.winner second = Some (Example.team "RD")
  ∧ Penalties.winner (Match.penalties second) = Some (Example.team "WA")
  ∧ Match.getFinalScoreDisplay second = "0 - 2 (Pens: 4 - 3)".
Proof.
  cbv zeta.
  destruct (X_result_keeps_shootout Example.qf_0 0 2 4 3 (Js.Int 1) (Js.Int 1)
              ltac:(lia) ltac:(unfold form_score; lia) ltac:(unfold form_score; lia) ltac:(lia))
    as (_ & H2 & H3 & _ & H5).
  split; [exact H2|]. split; [by rewrite H3|]. rewrite H5. vm_compute. reflexivity.
Defined.



(** ** Searching an array *)

Lemma findIndex_Some {A} (p : A -> bool) (l : list A) (i : nat) :
  findIndex p l = Some i →
  ∃ x, l !! i = Some x ∧ p x = true
       ∧ ∀ j y, (j < i)%nat → l !! j = Some y → p y = false.
Proof.
  revert i. induction l as [|x l IH]; intros i H; [done|]. simpl in H.
  destruct (p x) eqn:Hx.
  - injection H as <-. exists x. repeat split; [done|]. intros j y Hj. lia.
  - destruct (findIndex p l) as [k|] eqn:Hk; [|done]. injection H as <-.
    destruct (IH k eq_refl) as (y & Hy & Hpy & Hlt).
    exists y. repeat split; [done..|].
    intros [|j] z Hj Hz; simplify_eq/=; [done|]. apply (Hlt j); [lia|done].
Qed.

Lemma findIndex_None_inv {A} (p : A -> bool) (l : list A) :
  findIndex p l = None → ∀ x, x ∈ l → p x = false.
Proof.
  induction l as [|x l IH]; intros H y Hy; [by apply elem_of_nil in Hy|].
  simpl in H. destruct (p x) eqn:Hx; [done|].
  destruct (findIndex p l) eqn:Hk; [done|].
  apply elem_of_cons in Hy as [->|Hy]; [done|]. by apply IH.
Qed.

Lemma find_findIndex {A} (p : A -> bool) (l : list A) :
  List.find p l = findIndex p l ≫= (l !!.).
Proof.
  induction l as [|x l IH]; [done|]. simpl.
  destruct (p x); [done|]. rewrite IH.
  by destruct (findIndex p l).
Qed.

Lemma findIndex_listed (teams : list Team.t) (i : option string) :
  listed teams i = bool_decide (is_Some (findIndex (fun t => Js.id_eq (Team.id t) i) teams)).
Proof.
  unfold listed. apply bool_decide_ext.
  destruct (findIndex _ teams) as [k|] eqn:H.
  - apply findIndex_Some in H as (t & Ht & Hp & _).
    apply bool_decide_eq_true in Hp. split; [by eauto|]. intros _.
    rewrite <- Hp. change (map Team.id) with (fmap (M:=list) Team.id).
    apply list_elem_of_fmap_2. by eapply list_elem_of_lookup_2.
  - split; [|by intros [? ?]]. intros Hi. exfalso.
    change (map Team.id) with (fmap (M:=list) Team.id) in Hi.
    apply list_elem_of_fmap in Hi as (t & -> & Ht).
    pose proof (findIndex_None_inv _ _ H t Ht) as Hf.
    by apply bool_decide_eq_false in Hf.
Qed.

(** ** Groups *)

Lemma recalculateStandings_fields (g : GroupData.t) :
  let g' := Group.recalculateStandings g in
  GroupData.id g' = GroupData.id g ∧ GroupData.name g' = GroupData.name g
  ∧ GroupData.teams g' = GroupData.teams g ∧ GroupData.matches g' = GroupData.matches g.
Proof. done. Qed.

Lemma recalculateStandings_rows (g : GroupData.t) :
  map Row.team (GroupData.standings (Group.recalculateStandings g)) ≡ₚ GroupData.teams g.
Proof.
  unfold Group.recalculateStandings, Group.sortStandings. simpl.
  change (map Row.team) with (fmap (M:=list) Row.team) at 1.
  rewrite sort_perm. simpl.
  by rewrite teams_set_goalDifference, fold_tally_teams, teams_initial.
Qed.

Lemma recalculateStandings_standings (g g' : GroupData.t) :
  GroupData.teams g = GroupData.teams g' → GroupData.matches g = GroupData.matches g' →
  GroupData.standings (Group.recalculateStandings g)
  = GroupData.standings (Group.recalculateStandings g').
Proof.
  intros Ht Hm. unfold Group.recalculateStandings, Group.sortStandings. simpl.
  rewrite Ht, Hm. apply sort_ext. intros x y _ _.
  unfold Group.compareStandings, Group._getHeadToHeadResult. simpl. by rewrite Hm.
Qed.

Lemma recalculateStandings_idem (g : GroupData.t) :
  Group.recalculateStandings (Group.recalculateStandings g) = Group.recalculateStandings g.
Proof.
  destruct g as [i n ts ms st].
  unfold Group.recalculateStandings at 1 3. unfold Group.sortStandings. simpl.
  f_equal.
Qed.

Lemma set_teams_id (g : GroupData.t) : GroupData.set_teams g (GroupData.teams g) = g.
Proof. by destruct g. Qed.

Lemma filter_all {A} (p : A -> bool) (l : list A) :
  length (List.filter p l) = length l → List.filter p l = l.
Proof.
  induction l as [|x l IH]; [done|]. simpl.
  destruct (p x); simpl; intros H.
  - f_equal. apply IH. lia.
  - pose proof (List.filter_length_le p l). lia.
Qed.

Lemma filter_listed (teams : list Team.t) (i : option string) :
  listed (List.filter (fun team => negb (Js.id_eq (Team.id team) i)) teams) i = false.
Proof.
  unfold listed. apply bool_decide_eq_false.
  change (map Team.id) with (fmap (M:=list) Team.id).
  intros H. apply list_elem_of_fmap in H as (t & -> & Ht).
  apply list_elem_of_In, List.filter_In in Ht as [_ Ht].
  apply negb_true_iff, bool_decide_eq_false in Ht. done.
Qed.

Lemma filter_unlisted (teams : list Team.t) (i : option string) :
  listed teams i = false →
  List.filter (fun team => negb (Js.id_eq (Team.id team) i)) teams = teams.
Proof.
  unfold listed. intros H. apply bool_decide_eq_false in H.
  induction teams as [|t teams IH]; [done|]. simpl.
  destruct (Js.id_eq (Team.id t) i) eqn:E; simpl.
  - apply bool_decide_eq_true in E. exfalso. apply H. simpl. rewrite E. apply elem_of_cons; auto.
  - f_equal. apply IH. intros Hi. apply H. simpl. apply elem_of_cons; auto.
Qed.

Lemma filter_shorter (teams : list Team.t) (i : option string) :
  listed teams i = true →
  (length (List.filter (fun team => negb (Js.id_eq (Team.id team) i)) teams)
   < length teams)%nat.
Proof.
  intros H.
  pose proof (List.filter_length_le (fun team => negb (Js.id_eq (Team.id team) i)) teams) as Hle.
  destruct (decide (length (List.filter (fun team => negb (Js.id_eq (Team.id team) i)) teams)
                    = length teams)) as [E|]; [|lia].
  apply filter_all in E. pose proof (filter_listed teams i) as Hf. rewrite E in Hf. congruence.
Qed.

(** X4.  [Group.addTeam].  A team whose identifier is already in the
    group changes nothing.  Any other team is appended to the team list,
    the matches are kept and the table is recomputed with a row for it.
    Afterwards the team is listed, the identifiers of the group are
    distinct exactly when they were and the team is new, and adding
    the team again changes nothing. *)
Theorem X_addTeam (this : GroupData.t) (team : Team.t) :
  let this' := Group.addTeam this team in
  (if listed (GroupData.teams this) (Team.id team)
   then this' = this
   else GroupData.teams this' = GroupData.teams this ++ [team]
        ∧ map Row.team (GroupData.standings this') ≡ₚ GroupData.teams this ++ [team]
        ∧ GroupData.matches this' = GroupData.matches this)
  ∧ listed (GroupData.teams this') (Team.id team) = true
  ∧ (NoDup (map Team.id (GroupData.teams this'))
     ↔ NoDup (map Team.id (GroupData.teams this)))
  ∧ Group.addTeam this' team = this'.
Proof.
  intros this'. subst this'.
  assert (Hadd : ∀ g, listed (GroupData.teams g) (Team.id team) = true →
                      Group.addTeam g team = g).
  { intros g Hg. unfold Group.addTeam. rewrite findIndex_listed in Hg.
    apply bool_decide_eq_true in Hg as [k Hk]. by rewrite Hk. }
  destruct (listed (GroupData.teams this) (Team.id team)) eqn:Hl.
  - rewrite (Hadd this Hl). repeat split; try done. by apply Hadd.
  - assert (Hn : Group.addTeam this team
                 = Group.recalculateStandings
                     (GroupData.set_teams this (GroupData.teams this ++ [team]))).
    { unfold Group.addTeam. rewrite findIndex_listed in Hl.
      apply bool_decide_eq_false in Hl.
      destruct (findIndex _ _) as [k|]; [|done]. exfalso. apply Hl. by eexists. }
    rewrite Hn.
    assert (Hin : listed (GroupData.teams this ++ [team]) (Team.id team) = true).
    { apply bool_decide_eq_true. rewrite map_app. apply elem_of_app. right.
      simpl. apply elem_of_cons. by left. }
    split; [|split; [|split]].
    + split; [done|]. split; [|done].
      by rewrite recalculateStandings_rows.
    + exact Hin.
    + simpl. rewrite map_app. simpl.
      change (map Team.id) with (fmap (M:=list) Team.id).
      rewrite NoDup_app. split.
      * by intros (H & _ & _).
      * intros H. split; [done|]. split; [|apply NoDup_singleton].
        intros i Hi Hi'. apply list_elem_of_singleton in Hi' as ->.
        apply bool_decide_eq_false in Hl. by apply Hl.
    + by apply Hadd.
Qed.

Lemma recalculateStandings_present (g : GroupData.t) :
  GroupData.standings (Group.recalculateStandings g)
  = GroupData.standings
      (Group.recalculateStandings
         (GroupData.set_matches g
            (List.filter (present (GroupData.teams g)) (GroupData.matches g)))).
Proof.
  unfold Group.recalculateStandings, Group.sortStandings. simpl.
  rewrite fold_tally_present by apply teams_initial.
  apply sort_ext. intros x y Hx Hy.
  assert (Hl : ∀ r, r ∈ map Row.set_goalDifference
             (fold_left tally (GroupData.matches g)
                (map Row.initial (GroupData.teams g))) →
           listed (GroupData.teams g) (Row.id r) = true).
  { intros r Hr. apply bool_decide_eq_true.
    change (Row.id r) with (Team.id (Row.team r)).
    change (map Team.id) with (fmap (M:=list) Team.id).
    apply list_elem_of_fmap_2.
    rewrite <- (teams_initial (GroupData.teams g)).
    rewrite <- (fold_tally_teams (GroupData.matches g)).
    rewrite <- teams_set_goalDifference.
    change (map Row.team) with (fmap (M:=list) Row.team).
    by apply list_elem_of_fmap_2. }
  unfold Group.compareStandings.
  pose proof (headToHead_present g (Row.id x) (Row.id y) (Hl x Hx) (Hl y Hy)) as Hh.
  simpl in Hh.
  unfold Group._getHeadToHeadResult in *. simpl in *. by rewrite Hh.
Qed.

(** X5.  [Group.removeTeam].  The teams carrying the identifier are
    removed from the team list, the identifier is no longer listed and the
    matches are all kept, those of the removed team included.  When the
    identifier was listed the table is recomputed: it has the rows of the
    remaining teams and is the table of the matches both sides of which
    remain.  When it was not listed nothing changes.  Removing again
    changes nothing. *)
Theorem X_removeTeam (this : GroupData.t) (teamId : option string) :
  let this' := Group.removeTeam this teamId in
  let remaining :=
    List.filter (fun team => negb (Js.id_eq (Team.id team) teamId)) (GroupData.teams this) in
  GroupData.teams this' = remaining
  ∧ listed (GroupData.teams this') teamId = false
  ∧ GroupData.matches this' = GroupData.matches this
  ∧ (if listed (GroupData.teams this) teamId
     then map Row.team (GroupData.standings this') ≡ₚ remaining
          ∧ GroupData.standings this'
            = GroupData.standings
                (Group.recalculateStandings
                   (GroupData.set_matches this'
                      (List.filter (present remaining) (GroupData.matches this))))
     else this' = this)
  ∧ Group.removeTeam this' teamId = this'.
Proof.
  intros this' remaining.
  assert (Hkeep : ∀ g, listed (GroupData.teams g) teamId = false →
                       Group.removeTeam g teamId = g).
  { intros g Hg. unfold Group.removeTeam. cbn [GroupData.teams GroupData.set_teams].
    rewrite (filter_unlisted _ _ Hg), Nat.eqb_refl. cbn [negb]. apply set_teams_id. }
  destruct (listed (GroupData.teams this) teamId) eqn:Hl.
  - assert (Hr : this' = Group.recalculateStandings (GroupData.set_teams this remaining)).
    { subst this'. unfold Group.removeTeam. cbn [GroupData.teams GroupData.set_teams].
      fold remaining. pose proof (filter_shorter _ _ Hl) as Hlt. fold remaining in Hlt.
      destruct (length remaining =? length (GroupData.teams this))%nat eqn:E; [|done].
      apply Nat.eqb_eq in E. lia. }
    assert (Hf : listed remaining teamId = false) by apply filter_listed.
    rewrite Hr. split; [done|]. split; [exact Hf|]. split; [done|]. split; [split|].
    + by rewrite recalculateStandings_rows.
    + rewrite (recalculateStandings_present (GroupData.set_teams this remaining)).
      by apply recalculateStandings_standings.
    + rewrite <- Hr. apply Hkeep. by rewrite Hr.
  - subst this'. rewrite (Hkeep this Hl). subst remaining.
    rewrite (filter_unlisted _ _ Hl). repeat split; try done. by apply Hkeep.
Qed.

Lemma filter_map_swap {A B} (f : A -> B) (p : B -> bool) (l : list A) :
  map f (List.filter (fun x => p (f x)) l) = List.filter p (map f l).
Proof.
  induction l as [|x l IH]; [done|]. simpl.
  destruct (p (f x)); simpl; by rewrite IH.
Qed.

(** X6.  [Group.getMatchesByMatchday] on the matches [generateMatches]
    builds for four teams: matchdays 1, 2 and 3 hold the two fixtures of
    the pattern each, in which every team plays exactly once; any other
    matchday has no match; and the three matchdays in order are the
    matches of the group. *)
Theorem X_group_matchdays (generated : nat -> string) (g : GroupData.t)
    (t1 t2 t3 t4 : Team.t) (matchday : Z) :
  let teams := [t1; t2; t3; t4] in
  let this := Group.generateMatches generated (GroupData.set_teams g teams) in
  let day d := sides (Group.getMatchesByMatchday this d) in
  day 1%Z = [ (t1, t4); (t2, t3) ]
  ∧ day 2%Z = [ (t1, t2); (t3, t4) ]
  ∧ day 3%Z = [ (t3, t1); (t4, t2) ]
  ∧ Forall (fun d => concat (map (fun s : Team.t * Team.t => [s.1; s.2]) (day d)) ≡ₚ teams)
      [1%Z; 2%Z; 3%Z]
  ∧ length (Group.getMatchesByMatchday this matchday)
    = (if (1 <=? matchday)%Z && (matchday <=? 3)%Z then 2 else 0)%nat
  ∧ Group.getMatchesByMatchday this 1%Z ++ Group.getMatchesByMatchday this 2%Z
      ++ Group.getMatchesByMatchday this 3%Z
    = GroupData.matches this.
Proof.
  intros teams this day.
  split; [done|]. split; [done|]. split; [done|]. split; [|split; [|done]].
  - repeat (apply Forall_cons; split); [| | |by apply Forall_nil]; cbn.
    + apply Permutation_skip. apply (Permutation_cons_append [t2; t3] t4).
    + done.
    + etrans; [apply Permutation_swap|]. apply Permutation_skip.
      symmetry. apply (Permutation_cons_append [t3; t4] t2).
  - assert (Hb : ((1 <=? matchday)%Z && (matchday <=? 3)%Z)
                 = bool_decide (matchday = 1 ∨ matchday = 2 ∨ matchday = 3)%Z).
    { symmetry. destruct (Z.leb_spec 1 matchday), (Z.leb_spec matchday 3); simpl;
        [apply bool_decide_eq_true_2|apply bool_decide_eq_false_2..]; lia. }
    rewrite Hb. clear Hb.
    assert (Hd : map Match.matchday (GroupData.matches this)
                 = [Some 1; Some 1; Some 2; Some 2; Some 3; Some 3]%Z) by done.
    unfold Group.getMatchesByMatchday.
    rewrite <- (length_map Match.matchday (List.filter _ _)).
    pose proof (filter_map_swap Match.matchday (fun d => bool_decide (d = Some matchday))
                  (GroupData.matches this)) as E.
    cbv beta in E. rewrite E, Hd. clear E Hd. simpl.
    repeat match goal with
    | |- context [bool_decide (Some ?x = Some matchday)] =>
      destruct (decide (x = matchday)) as [<-|];
        [rewrite (bool_decide_eq_true_2 (Some x = Some x)) by done
        |rewrite (bool_decide_eq_false_2 (Some x = Some matchday)) by congruence]
    end; try done.
    rewrite bool_decide_eq_false_2; [done|]. lia.
Qed.

Lemma forallb_filter_length {A} (p : A -> bool) (l : list A) :
  forallb p l = true ↔ length (List.filter p l) = length l.
Proof.
  induction l as [|x l IH]; [done|]. simpl.
  pose proof (List.filter_length_le p l).
  destruct (p x); simpl.
  - rewrite IH. lia.
  - split; [done|lia].
Qed.

Lemma filter_alter_length {A} (p : A -> bool) (f : A -> A) (l : list A) (i : nat) (x : A) :
  l !! i = Some x →
  (Z.of_nat (length (List.filter p (alter f i l)))
   = Z.of_nat (length (List.filter p l))
     + (if p (f x) then 1 else 0) - (if p x then 1 else 0))%Z.
Proof.
  revert i. induction l as [|y l IH]; intros [|i] H; simplify_eq/=.
  - destruct (p (f x)), (p x); simpl; lia.
  - specialize (IH i H). destruct (p y); simpl; lia.
Qed.

Lemma getStats_played (ms : list Match.t) (goals : Js.num) (count : Z) :
  (fold_left (fun '(totalGoals, matchesPlayed) m =>
      if Match.played m
      then (Js.add totalGoals
              (Js.add (Js.toNumber (Match.homeScore m))
                      (Js.toNumber (Match.awayScore m))),
            (matchesPlayed + 1)%Z)
      else (totalGoals, matchesPlayed)) ms (goals, count)).2
  = (count + Z.of_nat (length (List.filter Match.played ms)))%Z.
Proof.
  revert goals count. induction ms as [|m ms IH]; intros goals count; simpl; [lia|].
  destruct (Match.played m); rewrite IH; simpl; lia.
Qed.

(** X7.  [Group.getStats].  The matches played are those with the
    [played] flag, played and remaining add up to the number of matches,
    the remaining number is never negative, and [completed] says that none
    remains.  [Group.updateMatchResult] keeps the numbers of matches and
    of teams, and raises the matches played by one exactly when the match
    with the identifier exists and was not played before. *)
Theorem X_group_stats (this : GroupData.t) (matchId : string) (homeScore awayScore : Js.num) :
  let stats := Group.getStats this in
  let updated := Group.updateMatchResult this matchId homeScore awayScore in
  let stats' := Group.getStats updated.2 in
  GroupStats.matchesPlayed stats
    = Z.of_nat (length (List.filter Match.played (GroupData.matches this)))
  ∧ (GroupStats.matchesPlayed stats + GroupStats.matchesRemaining stats
     = GroupStats.matches stats)%Z
  ∧ (0 ≤ GroupStats.matchesRemaining stats)%Z
  ∧ (GroupStats.completed stats = true ↔ GroupStats.matchesRemaining stats = 0%Z)
  ∧ GroupStats.matches stats' = GroupStats.matches stats
  ∧ GroupStats.teams stats' = GroupStats.teams stats
  ∧ GroupStats.matchesPlayed stats'
    = (GroupStats.matchesPlayed stats
       + match List.find (fun m => bool_decide (Match.id m = matchId))
                 (GroupData.matches this) with
         | Some m => if Match.played m then 0 else 1
         | None => 0
         end)%Z.
Proof.
  intros stats updated stats'.
  assert (Hp : ∀ g, GroupStats.matchesPlayed (Group.getStats g)
                    = Z.of_nat (length (List.filter Match.played (GroupData.matches g)))).
  { intros g. unfold Group.getStats.
    pose proof (getStats_played (GroupData.matches g) (Js.Int 0) 0) as H.
    destruct (fold_left _ _ _) as [goals count]. simpl in *. lia. }
  assert (Hr : ∀ g, GroupStats.matchesRemaining (Group.getStats g)
                    = (Z.of_nat (length (GroupData.matches g))
                       - GroupStats.matchesPlayed (Group.getStats g))%Z).
  { intros g. unfold Group.getStats. by destruct (fold_left _ _ _). }
  assert (Hm : ∀ g, GroupStats.matches (Group.getStats g)
                    = Z.of_nat (length (GroupData.matches g))).
  { intros g. unfold Group.getStats. by destruct (fold_left _ _ _). }
  assert (Ht : ∀ g, GroupStats.teams (Group.getStats g)
                    = Z.of_nat (length (GroupData.teams g))).
  { intros g. unfold Group.getStats. by destruct (fold_left _ _ _). }
  assert (Hc : ∀ g, GroupStats.completed (Group.getStats g) = Group.isCompleted g).
  { intros g. unfold Group.getStats. by destruct (fold_left _ _ _). }
  pose proof (List.filter_length_le Match.played (GroupData.matches this)) as Hle.
  split; [apply Hp|]. split; [subst stats; rewrite Hr, Hm; lia|].
  split; [subst stats; rewrite Hr, Hp; lia|].
  split.
  { subst stats. rewrite Hc, Hr, Hp. unfold Group.isCompleted.
    rewrite forallb_filter_length. lia. }
  subst stats stats' updated. rewrite !Hm, !Ht, !Hp.
  unfold Group.updateMatchResult. rewrite find_findIndex.
  destruct (findIndex _ (GroupData.matches this)) as [i|] eqn:Hi; simpl.
  - apply findIndex_Some in Hi as (m & Hm' & _ & _). rewrite Hm'.
    rewrite length_alter.
    rewrite (filter_alter_length _ _ _ _ _ Hm'), played_updateResult.
    split; [done|]. split; [done|]. destruct (Match.played m); lia.
  - split; [done|]. split; [done|]. lia.
Qed.

(** ** The shuffle *)

Lemma insert_exchange {A} (l : list A) (j : nat) (x y : A) :
  l !! j = Some y → y :: <[j := x]> l ≡ₚ x :: l.
Proof.
  revert j. induction l as [|z l IH]; intros [|j] H; simplify_eq/=.
  - apply Permutation_swap.
  - etrans; [apply Permutation_swap|].
    etrans; [apply Permutation_skip, (IH j H)|]. apply Permutation_swap.
Qed.

Lemma swap_perm {A} (i j : nat) (a : list A) : Helpers.swap i j a ≡ₚ a.
Proof.
  unfold Helpers.swap.
  destruct (a !! i) as [x|] eqn:Hi; [|done].
  destruct (a !! j) as [y|] eqn:Hj; [|done].
  revert i j Hi Hj. induction a as [|z a IH]; intros [|i] [|j] Hi Hj; simplify_eq/=.
  - done.
  - by apply insert_exchange.
  - by apply insert_exchange.
  - apply Permutation_skip. by apply IH.
Qed.

Lemma shuffleFrom_perm {A} (draw : nat -> nat) (i : nat) (a : list A) :
  Helpers.shuffleFrom draw i a ≡ₚ a.
Proof.
  revert a. induction i as [|i IH]; intros a; simpl; [done|].
  by rewrite IH, swap_perm.
Qed.

Lemma swap_length {A} (i j : nat) (a : list A) : length (Helpers.swap i j a) = length a.
Proof. by rewrite swap_perm. Qed.

Lemma swap_lookup_other {A} (i j k : nat) (a : list A) :
  k ≠ i → k ≠ j → Helpers.swap i j a !! k = a !! k.
Proof.
  intros Hi Hj. unfold Helpers.swap.
  destruct (a !! i), (a !! j); try done.
  by rewrite !list_lookup_insert_ne by done.
Qed.

Lemma swap_lookup_first {A} (i j : nat) (a : list A) :
  (j ≤ i)%nat → (i < length a)%nat → Helpers.swap i j a !! i = a !! j.
Proof.
  intros Hj Hi. unfold Helpers.swap.
  destruct (lookup_lt_is_Some_2 a i Hi) as [x Hx].
  destruct (lookup_lt_is_Some_2 a j ltac:(lia)) as [y Hy].
  rewrite Hx, Hy. destruct (decide (i = j)) as [<-|Hne].
  - rewrite list_lookup_insert_eq by (rewrite length_insert; lia). congruence.
  - rewrite list_lookup_insert_ne by done.
    by rewrite list_lookup_insert_eq by lia.
Qed.

(** The steps from [i] downwards leave the positions above [i] alone. *)
Lemma shuffleFrom_above {A} (draw : nat -> nat) (i k : nat) (a : list A) :
  (∀ n, draw n ≤ n)%nat → (i < k)%nat →
  Helpers.shuffleFrom draw i a !! k = a !! k.
Proof.
  intros Hd. revert a. induction i as [|i IH]; intros a Hk; simpl; [done|].
  rewrite IH by lia. apply swap_lookup_other; [lia|]. specialize (Hd (S i)). lia.
Qed.

(** X8.  [Helpers.shuffleArray], whatever indices are drawn within their
    range (the index drawn at step [i] is at most [i]): the result is a
    rearrangement of the array, with the same length and the same
    elements, distinct if they were, and its last element is the element
    at the index drawn first, at step [length - 1]. *)
Theorem X_shuffleArray {A} (draw : nat -> nat) (array : list A) :
  (∀ i, draw i ≤ i)%nat →
  Helpers.shuffleArray draw array ≡ₚ array
  ∧ length (Helpers.shuffleArray draw array) = length array
  ∧ (NoDup (Helpers.shuffleArray draw array) ↔ NoDup array)
  ∧ last (Helpers.shuffleArray draw array) = array !! draw (length array - 1)%nat.
Proof.
  intros Hd.
  assert (H : Helpers.shuffleArray draw array ≡ₚ array) by apply shuffleFrom_perm.
  split; [done|]. split; [by rewrite H|]. split; [by rewrite H|].
  assert (Hl : length (Helpers.shuffleArray draw array) = length array) by by rewrite H.
  rewrite last_lookup, Hl. unfold Helpers.shuffleArray.
  destruct (length array) as [|[|i]] eqn:Hn; simpl.
  - by apply nil_length_inv in Hn as ->.
  - pose proof (Hd 0%nat) as H0. by replace (draw 0%nat) with 0%nat by lia.
  - rewrite shuffleFrom_above by (done || lia).
    apply swap_lookup_first; [apply Hd|lia].
Qed.

(** Five numbers, the index drawn at step [i] being [i / 2]. *)
Lemma X_shuffleArray_witness :
  let array := [1; 2; 3; 4; 5]%Z in
  let draw := fun i : nat => (i / 2)%nat in
  Helpers.shuffleArray draw array ≡ₚ array
  ∧ last (Helpers.shuffleArray draw array) = Some 3%Z.
Proof.
  assert (Hd : ∀ i : nat, (i / 2 ≤ i)%nat).
  { intros i. apply Nat.Div0.div_le_upper_bound. lia. }
  pose proof (X_shuffleArray (fun i : nat => (i / 2)%nat) [1; 2; 3; 4; 5]%Z Hd)
    as (H1 & _ & _ & H2).
  split; [exact H1|exact H2].
Defined.

(** ** The match controller *)

Lemma filter_partition {A} (p : A -> bool) (l : list A) :
  List.filter p l ++ List.filter (fun x => negb (p x)) l ≡ₚ l.
Proof.
  induction l as [|x l IH]; [done|]. cbn [List.filter].
  destruct (p x); cbn [negb].
  - cbn. by apply Permutation_skip.
  - etrans; [symmetry; apply Permutation_middle|]. by apply Permutation_skip.
Qed.

(** X10.  [MatchController.getMatchesByStatus].  The status 'completed'
    gives the played matches and 'scheduled' the others, each in the order
    of the loaded matches; together they are all the loaded matches, once
    each.  Every other status, 'in_progress' and 'cancelled' included,
    gives no match. *)
Theorem X_matches_by_status (_matches : list Match.t) (status : string) :
  let scheduled := MatchController.getMatchesByStatus _matches "scheduled" in
  let completed := MatchController.getMatchesByStatus _matches "completed" in
  Forall (fun m => Match.played m = false) scheduled
  ∧ Forall (fun m => Match.played m = true) completed
  ∧ scheduled `sublist_of` _matches
  ∧ completed `sublist_of` _matches
  ∧ completed ++ scheduled ≡ₚ _matches
  ∧ (length scheduled + length completed = length _matches)%nat
  ∧ (status ≠ "scheduled" → status ≠ "completed" →
     MatchController.getMatchesByStatus _matches status = [])
  ∧ MatchController.getMatchesByStatus _matches "in_progress" = []
  ∧ MatchController.getMatchesByStatus _matches "cancelled" = [].
Proof.
  intros scheduled completed.
  assert (Hs : scheduled = List.filter (fun m => negb (Match.played m)) _matches) by done.
  assert (Hc : completed = List.filter Match.played _matches) by done.
  assert (Hsub : ∀ (p : Match.t -> bool) l, List.filter p l `sublist_of` l).
  { intros p l. induction l as [|x l IH]; [done|]. cbn [List.filter].
    destruct (p x); by constructor. }
  assert (Hnone : ∀ l : list Match.t, List.filter (fun _ => false) l = []).
  { intros l. by induction l. }
  pose proof (filter_partition Match.played _matches) as Hp.
  rewrite Hs, Hc. split; [|split; [|split; [|split; [|split; [|split; [|split]]]]]].
  - apply Forall_forall. intros m Hm.
    apply list_elem_of_In, List.filter_In in Hm as [_ Hm]. by apply negb_true_iff.
  - apply Forall_forall. intros m Hm.
    by apply list_elem_of_In, List.filter_In in Hm as [_ Hm].
  - apply Hsub.
  - apply Hsub.
  - exact Hp.
  - apply Permutation_length in Hp. rewrite length_app in Hp. lia.
  - intros H1 H2. unfold MatchController.getMatchesByStatus.
    rewrite (bool_decide_eq_false_2 _ H1), (bool_decide_eq_false_2 _ H2). apply Hnone.
  - split; apply Hnone.
Qed.

Lemma faced_mirrored (teamId1 teamId2 : option string) (stats : HeadToHead.t) (m : Match.t) :
  teamId1 ≠ teamId2 → between teamId1 teamId2 m = true →
  MatchController.faced teamId2 (mirrored stats) m
  = mirrored (MatchController.faced teamId1 stats m).
Proof.
  intros Hne Hb. unfold MatchController.faced, between, Js.id_eq in *.
  destruct (Match.played m); cbn [negb]; [|done].
  generalize (Js.toNumber (Match.homeScore m)) (Js.toNumber (Match.awayScore m)).
  intros x y.
  apply orb_true_iff in Hb as [Hb|Hb]; apply andb_true_iff in Hb as [H1 H2];
    apply bool_decide_eq_true in H1, H2.
  - rewrite (bool_decide_eq_true_2 _ H1).
    rewrite bool_decide_eq_false_2 by congruence.
    unfold mirrored. cbn. destruct x as [x|], y as [y|]; cbn; try done.
    destruct (Z.ltb_spec y x), (Z.ltb_spec x y); try lia; done.
  - rewrite (bool_decide_eq_true_2 _ H1).
    rewrite bool_decide_eq_false_2 by congruence.
    unfold mirrored. cbn. destruct x as [x|], y as [y|]; cbn; try done.
    destruct (Z.ltb_spec y x), (Z.ltb_spec x y); try lia; done.
Qed.

Lemma faced_counts (teamId1 : option string) (ms : list Match.t) (stats : HeadToHead.t) :
  let stats' := fold_left (MatchController.faced teamId1) ms stats in
  (HeadToHead.matches stats'
   = HeadToHead.matches stats + Z.of_nat (length (List.filter Match.played ms)))%Z
  ∧ (HeadToHead.team1Wins stats' + HeadToHead.team2Wins stats' + HeadToHead.draws stats'
     - HeadToHead.matches stats'
     = HeadToHead.team1Wins stats + HeadToHead.team2Wins stats + HeadToHead.draws stats
       - HeadToHead.matches stats)%Z
  ∧ (HeadToHead.team1Wins stats ≤ HeadToHead.team1Wins stats')%Z
  ∧ (HeadToHead.team2Wins stats ≤ HeadToHead.team2Wins stats')%Z
  ∧ (HeadToHead.draws stats ≤ HeadToHead.draws stats')%Z.
Proof.
  revert stats. induction ms as [|m ms IH]; intros stats; cbn [fold_left List.filter].
  - cbn. lia.
  - destruct (IH (MatchController.faced teamId1 stats m)) as (H1 & H2 & H3 & H4 & H5).
    cbv zeta. revert H1 H2 H3 H4 H5.
    generalize (fold_left (MatchController.faced teamId1) ms
                  (MatchController.faced teamId1 stats m)).
    intros s. unfold MatchController.faced.
    destruct (Match.played m); cbn [negb length]; [|lia].
    destruct (Js.id_eq _ _);
      destruct (Js.gt _ _); cbn; try lia;
      destruct (Js.lt _ _); cbn; lia.
Qed.

(** X11.  [MatchController.getHeadToHeadStats].  The matches counted are
    the played ones among the loaded matches that oppose the two teams,
    at either venue; every one of them is a win of the first team, a win
    of the second or a draw, so that the three add up to the matches.  For
    two different identifiers, asking with the teams exchanged gives the
    same statistics with the wins and the goals of the two exchanged.  No
    loaded match gives the all-zero statistics. *)
Theorem X_head_to_head (_matches : list Match.t) (teamId1 teamId2 : option string) :
  let stats := MatchController.getHeadToHeadStats _matches teamId1 teamId2 in
  HeadToHead.matches stats
  = Z.of_nat (length (List.filter (fun m => between teamId1 teamId2 m && Match.played m)
                        _matches))
  ∧ (HeadToHead.matches stats
     = HeadToHead.team1Wins stats + HeadToHead.team2Wins stats + HeadToHead.draws stats)%Z
  ∧ (0 ≤ HeadToHead.team1Wins stats)%Z ∧ (0 ≤ HeadToHead.team2Wins stats)%Z
  ∧ (0 ≤ HeadToHead.draws stats)%Z
  ∧ (teamId1 ≠ teamId2 →
     MatchController.getHeadToHeadStats _matches teamId2 teamId1 = mirrored stats)
  ∧ MatchController.getHeadToHeadStats [] teamId1 teamId2
    = {| HeadToHead.matches := 0; HeadToHead.team1Wins := 0;
         HeadToHead.team2Wins := 0; HeadToHead.draws := 0;
         HeadToHead.team1Goals := Js.Int 0; HeadToHead.team2Goals := Js.Int 0 |}.
Proof.
  intros stats. subst stats. unfold MatchController.getHeadToHeadStats.
  fold (between teamId1 teamId2). fold (between teamId2 teamId1).
  set (zero := {| HeadToHead.matches := 0%Z; HeadToHead.team1Wins := 0%Z;
                  HeadToHead.team2Wins := 0%Z; HeadToHead.draws := 0%Z;
                  HeadToHead.team1Goals := Js.Int 0; HeadToHead.team2Goals := Js.Int 0 |}).
  destruct (faced_counts teamId1 (List.filter (between teamId1 teamId2) _matches) zero)
    as (H1 & H2 & H3 & H4 & H5).
  cbv zeta in H1, H2, H3, H4, H5. cbn in H1, H2, H3, H4, H5.
  split; [|split; [lia|split; [lia|split; [lia|split; [lia|split; [|done]]]]]].
  - rewrite H1.
    assert (E : List.filter Match.played (List.filter (between teamId1 teamId2) _matches)
                = List.filter (fun m => between teamId1 teamId2 m && Match.played m)
                    _matches).
    { clear. induction _matches as [|m ms IH]; [done|]. cbn [List.filter].
      destruct (between teamId1 teamId2 m); cbn [andb List.filter]; [|done].
      destruct (Match.played m); by rewrite IH. }
    rewrite E. lia.
  - intros Hne.
    assert (Hb : ∀ m, between teamId2 teamId1 m = between teamId1 teamId2 m).
    { intros m. unfold between. apply orb_comm. }
    rewrite (List.filter_ext _ _ Hb).
    assert (Hall : Forall (fun m => between teamId1 teamId2 m = true)
                     (List.filter (between teamId1 teamId2) _matches)).
    { apply Forall_forall. intros m Hm.
      by apply list_elem_of_In, List.filter_In in Hm as [_ Hm]. }
    change zero with (mirrored zero) at 1.
    revert Hall. generalize zero. 
    generalize (List.filter (between teamId1 teamId2) _matches).
    intros l. induction l as [|m l IH]; intros st Hall; [done|].
    apply Forall_cons in Hall as [Hm Hall]. cbn [fold_left].
    rewrite (faced_mirrored teamId1 teamId2) by done. by apply IH.
Qed.
(** ** The save handlers of the views *)

Lemma invalid_entered (x y : Js.num) :
  KnockoutView.invalid x y = false → admitted (x, y).
Proof.
  unfold KnockoutView.invalid, admitted.
  destruct x as [x|], y as [y|]; cbn; try done.
  destruct (Z.ltb_spec x 0), (Z.ltb_spec y 0); cbn; first [done|lia].
Qed.

Lemma strict_neq_unlevel (x y : Js.num) :
  admitted (x, y) → Js.strict_neq x y = true → unlevel (x, y).
Proof.
  destruct x as [x|], y as [y|]; cbn; try done.
  intros _ H ->. by rewrite Z.eqb_refl in H.
Qed.

(** X12.  What the knockout form hands to the match controller.  Whatever
    the fields hold, [KnockoutView._saveKnockoutMatchResult] either leaves
    the state as it is, or calls the controller's [updateMatchResult],
    once, with two scores that are integers and not negative, with
    extra-time scores exactly when the extra-time box is checked, integers
    and not negative, and with penalty scores exactly when the penalties
    box is checked, integers, not negative and not level.  So a level
    shootout never comes from the form, while a level score without extra
    time and penalties does. *)
Theorem X_view_passes_valid_results (S : Type)
    (update : string -> Js.num -> Js.num -> option (Js.num * Js.num) ->
              option (Js.num * Js.num) -> S -> S)
    (matchId : string) (form : KnockoutView.Form) (s : S) :
  (KnockoutView._saveKnockoutMatchResult update matchId form s = s
   ∨ ∃ (h a : Js.num) (et pen : option (Js.num * Js.num)),
       KnockoutView._saveKnockoutMatchResult update matchId form s
       = update matchId h a et pen s
       ∧ matchId ≠ ""
       ∧ admitted (h, a)
       ∧ (is_Some et ↔ KnockoutView.extraTimeCheck form = true)
       ∧ (is_Some pen ↔ KnockoutView.penaltiesCheck form = true)
       ∧ (∀ p, et = Some p → admitted p)
       ∧ (∀ p, pen = Some p → admitted p ∧ unlevel p))
  ∧ KnockoutView._saveKnockoutMatchResult update "qf_0"
      {| KnockoutView.homeTeamScore := "1";
         KnockoutView.awayTeamScore := "1";
         KnockoutView.extraTimeCheck := false;
         KnockoutView.homeExtraTimeScore := "";
         KnockoutView.awayExtraTimeScore := "";
         KnockoutView.penaltiesCheck := false;
         KnockoutView.homePenaltiesScore := "";
         KnockoutView.awayPenaltiesScore := "" |} s
    = update "qf_0" (Js.Int 1) (Js.Int 1) None None s
  ∧ KnockoutView._saveKnockoutMatchResult update "qf_0"
      {| KnockoutView.homeTeamScore := "1";
         KnockoutView.awayTeamScore := "1";
         KnockoutView.extraTimeCheck := false;
         KnockoutView.homeExtraTimeScore := "";
         KnockoutView.awayExtraTimeScore := "";
         KnockoutView.penaltiesCheck := true;
         KnockoutView.homePenaltiesScore := "3";
         KnockoutView.awayPenaltiesScore := "3" |} s
    = s.
Proof.
  split; [|split; reflexivity].
  unfold KnockoutView._saveKnockoutMatchResult. cbv zeta.
  destruct (bool_decide (matchId = "")) eqn:Hid; [by left|].
  apply bool_decide_eq_false in Hid.
  generalize (Js.parseInt (Js.Text (KnockoutView.homeTeamScore form)))
             (Js.parseInt (Js.Text (KnockoutView.awayTeamScore form)))
             (Js.parseInt (Js.Text (KnockoutView.homeExtraTimeScore form)))
             (Js.parseInt (Js.Text (KnockoutView.awayExtraTimeScore form)))
             (Js.parseInt (Js.Text (KnockoutView.homePenaltiesScore form)))
             (Js.parseInt (Js.Text (KnockoutView.awayPenaltiesScore form))).
  intros h a eh ea ph pa.
  destruct (KnockoutView.invalid h a) eqn:Hha; [by left|].
  apply invalid_entered in Hha.
  destruct (KnockoutView.extraTimeCheck form) eqn:Het; cbn [andb].
  - destruct (KnockoutView.invalid eh ea) eqn:Hee; [by left|].
    apply invalid_entered in Hee.
    destruct (KnockoutView.penaltiesCheck form) eqn:Hpen; cbn [andb].
    + destruct (KnockoutView.invalid ph pa) eqn:Hpp; [by left|].
      apply invalid_entered in Hpp.
      destruct (Js.strict_neq ph pa) eqn:Hlevel; cbn [negb]; [|by left].
      right. exists h, a, (Some (eh, ea)), (Some (ph, pa)).
      split; [done|]. split; [done|]. split; [done|].
      split; [by split; eauto|]. split; [by split; eauto|].
      split; [by intros p [= <-]|]. intros p [= <-].
      split; [done|]. by apply strict_neq_unlevel.
    + right. exists h, a, (Some (eh, ea)), None.
      split; [done|]. split; [done|]. split; [done|].
      split; [by split; eauto|]. split; [split; [by intros [? ?]|done]|].
      split; [by intros p [= <-]|]. by intros p [=].
  - destruct (KnockoutView.penaltiesCheck form) eqn:Hpen; cbn [andb].
    + destruct (KnockoutView.invalid ph pa) eqn:Hpp; [by left|].
      apply invalid_entered in Hpp.
      destruct (Js.strict_neq ph pa) eqn:Hlevel; cbn [negb]; [|by left].
      right. exists h, a, None, (Some (ph, pa)).
      split; [done|]. split; [done|]. split; [done|].
      split; [split; [by intros [? ?]|done]|]. split; [by split; eauto|].
      split; [by intros p [=]|]. intros p [= <-].
      split; [done|]. by apply strict_neq_unlevel.
    + right. exists h, a, None, None.
      split; [done|]. split; [done|]. split; [done|].
      split; [split; [by intros [? ?]|done]|].
      split; [split; [by intros [? ?]|done]|].
      split; by intros p [=].
Qed.
(** X19.  What the result form of the match view does.  Whatever the
    modal holds, [MatchView._saveMatchResult] ends in one of three ways:
    it returns with the state as it was; or the match is a knockout match
    and [KnockoutView] is loaded, and it throws with the state as it was,
    because the function it calls there is not among those [KnockoutView]
    exports; or it returns after one call of the controller's
    [updateMatchResult] with two integer scores that are not negative.  So
    with [KnockoutView] loaded, no result of a knockout match is ever
    stored through this handler. *)
Theorem X_match_form (S : Type) (update : string -> Js.num -> Js.num -> S -> S)
    (_saveResultBtn _matchController knockoutView : bool)
    (modal : MatchView.Modal) (s : S) :
  let ended := MatchView._saveMatchResult update _saveResultBtn _matchController
                 knockoutView modal s in
  (ended = Returned s
   ∨ (∃ error, ended = Threw error s)
      ∧ MatchView.stage modal = Some "knockout" ∧ knockoutView = true
   ∨ (∃ matchId h a,
        ended = Returned (update matchId h a s)
        ∧ MatchView.matchId modal = Some matchId ∧ matchId ≠ ""
        ∧ admitted (h, a)
        ∧ (MatchView.stage modal = Some "knockout" → knockoutView = false)))
  ∧ (MatchView.stage modal = Some "knockout" → knockoutView = true →
     ended = Returned s ∨ ∃ error, ended = Threw error s).
Proof.
  intros ended. subst ended. unfold MatchView._saveMatchResult.
  destruct (negb _saveResultBtn || negb _matchController); [by split; left; auto|].
  destruct (MatchView.matchId modal) as [matchId|]; [|by split; left; auto].
  destruct (bool_decide (matchId = "")) eqn:Hid; [by split; left; auto|].
  apply bool_decide_eq_false in Hid. cbv zeta.
  generalize (Js.parseInt (Js.Text (MatchView.homeTeamScore modal)))
             (Js.parseInt (Js.Text (MatchView.awayTeamScore modal))).
  intros h a.
  fold (KnockoutView.invalid h a).
  destruct (KnockoutView.invalid h a) eqn:Hha; [by split; left; auto|].
  apply invalid_entered in Hha.
  destruct (bool_decide (MatchView.stage modal = Some "knockout")) eqn:Hst.
  - apply bool_decide_eq_true in Hst. destruct knockoutView; cbn [andb].
    + split; [|intros _ _; right; by eexists].
      right. left. split; [by eexists|done].
    + split; [|done]. right. right. exists matchId, h, a. by repeat split.
  - apply bool_decide_eq_false in Hst. cbn [andb].
    split; [|done]. right. right. exists matchId, h, a. repeat split; try done.
Qed.
(** ** Statistics and reset of the knockout stage *)

Lemma counted_fold (ms : list Match.t) (stats : KnockoutStats.t) :
  let stats' := fold_left KnockoutController.counted ms stats in
  (KnockoutStats.matches stats'
   = KnockoutStats.matches stats + Z.of_nat (length ms))%Z
  ∧ (KnockoutStats.matchesPlayed stats'
     = KnockoutStats.matchesPlayed stats
       + Z.of_nat (length (List.filter Match.played ms)))%Z
  ∧ (KnockoutStats.matchesRemaining stats'
     = KnockoutStats.matchesRemaining stats
       + Z.of_nat (length (List.filter (fun m => negb (Match.played m)) ms)))%Z
  ∧ (KnockoutStats.extraTimeMatches stats'
     = KnockoutStats.extraTimeMatches stats
       + Z.of_nat (length (List.filter
           (fun m => Match.played m && ExtraTime.played (Match.extraTime m)) ms)))%Z
  ∧ (KnockoutStats.penaltyShootouts stats'
     = KnockoutStats.penaltyShootouts stats
       + Z.of_nat (length (List.filter
           (fun m => Match.played m && Penalties.played (Match.penalties m)) ms)))%Z
  ∧ KnockoutStats.upsets stats' = KnockoutStats.upsets stats
  ∧ KnockoutStats.rounds stats' = KnockoutStats.rounds stats
  ∧ (Forall (fun m => Match.played m = false) ms →
     KnockoutStats.totalGoals stats' = KnockoutStats.totalGoals stats).
Proof.
  revert stats. induction ms as [|m ms IH]; intros stats.
  - cbn. repeat split; lia.
  - cbn [fold_left List.filter length].
    destruct (IH (KnockoutController.counted stats m))
      as (H1 & H2 & H3 & H4 & H5 & H6 & H7 & H8).
    cbv zeta. revert H1 H2 H3 H4 H5 H6 H7 H8.
    generalize (fold_left KnockoutController.counted ms
                  (KnockoutController.counted stats m)).
    intros s. unfold KnockoutController.counted.
    destruct (Match.played m) eqn:Hp; cbn [negb andb length].
    + destruct (ExtraTime.played (Match.extraTime m));
        destruct (Penalties.played (Match.penalties m)); cbn [length KnockoutStats.matches
          KnockoutStats.matchesPlayed KnockoutStats.matchesRemaining
          KnockoutStats.extraTimeMatches KnockoutStats.penaltyShootouts
          KnockoutStats.upsets KnockoutStats.rounds KnockoutStats.totalGoals];
        intros; repeat split; try lia; try done;
        intros Hall; apply Forall_cons in Hall as [Hm _]; congruence.
    + cbn [length KnockoutStats.matches
          KnockoutStats.matchesPlayed KnockoutStats.matchesRemaining
          KnockoutStats.extraTimeMatches KnockoutStats.penaltyShootouts
          KnockoutStats.upsets KnockoutStats.rounds KnockoutStats.totalGoals].
      intros H1 H2 H3 H4 H5 H6 H7 H8. repeat split; try lia; try done.
      intros Hall. apply Forall_cons in Hall as [_ Hall]. by apply H8.
Qed.

Lemma counted_rounds (rounds : list Round.t) (stats : KnockoutStats.t) :
  fold_left (fun stats round => fold_left KnockoutController.counted (Round.matches round) stats)
    rounds stats
  = fold_left KnockoutController.counted (bracket_matches rounds) stats.
Proof.
  revert stats. induction rounds as [|r rounds IH]; intros stats; [done|].
  unfold bracket_matches. cbn [map concat fold_left]. rewrite fold_left_app. apply IH.
Qed.

Lemma forallb_rounds (rounds : list Round.t) :
  forallb (fun round => forallb Match.played (Round.matches round)) rounds
  = forallb Match.played (bracket_matches rounds).
Proof.
  induction rounds as [|r rounds IH]; [done|].
  unfold bracket_matches. cbn [map concat forallb]. rewrite forallb_app. by rewrite IH.
Qed.

Lemma stats_counts (s : App.t) :
  let stats := KnockoutController.getKnockoutStageStats s in
  let ms := bracket_matches (App._rounds s) in
  KnockoutStats.rounds stats = Z.of_nat (length (App._rounds s))
  ∧ KnockoutStats.matches stats = Z.of_nat (length ms)
  ∧ KnockoutStats.matchesPlayed stats = Z.of_nat (length (List.filter Match.played ms))
  ∧ KnockoutStats.matchesRemaining stats
    = Z.of_nat (length (List.filter (fun m => negb (Match.played m)) ms))
  ∧ KnockoutStats.extraTimeMatches stats
    = Z.of_nat (length (List.filter
        (fun m => Match.played m && ExtraTime.played (Match.extraTime m)) ms))
  ∧ KnockoutStats.penaltyShootouts stats
    = Z.of_nat (length (List.filter
        (fun m => Match.played m && Penalties.played (Match.penalties m)) ms))
  ∧ KnockoutStats.upsets stats = 0%Z
  ∧ KnockoutStats.completed stats = KnockoutController.isKnockoutStageCompleted s
  ∧ (Forall (fun m => Match.played m = false) ms →
     KnockoutStats.totalGoals stats = Js.Int 0).
Proof.
  intros stats ms. subst stats. unfold KnockoutController.getKnockoutStageStats.
  cbv zeta. rewrite counted_rounds. fold ms.
  match goal with
  | |- context [fold_left KnockoutController.counted ms ?z] =>
      destruct (counted_fold ms z) as (H1 & H2 & H3 & H4 & H5 & H6 & H7 & H8);
      revert H1 H2 H3 H4 H5 H6 H7 H8;
      generalize (fold_left KnockoutController.counted ms z)
  end.
  intros st H1 H2 H3 H4 H5 H6 H7 H8.
  cbn [KnockoutStats.matches KnockoutStats.matchesPlayed KnockoutStats.matchesRemaining
       KnockoutStats.extraTimeMatches KnockoutStats.penaltyShootouts
       KnockoutStats.upsets KnockoutStats.rounds KnockoutStats.completed
       KnockoutStats.totalGoals] in *.
  repeat split; try lia; try done.
Qed.

Lemma filter_played_partition (ms : list Match.t) :
  (length (List.filter Match.played ms)
   + length (List.filter (fun m => negb (Match.played m)) ms)
   = length ms)%nat.
Proof.
  induction ms as [|m ms IH]; [done|]. cbn [List.filter].
  destruct (Match.played m); cbn [negb length]; lia.
Qed.

(** X13.  [KnockoutController.getKnockoutStageStats].  The matches are
    all the matches of the bracket, those played and those remaining add
    up to them, extra-time matches and shootouts are counted among the
    played matches only, [upsets] is always 0, and [completed] says that
    the bracket has a round and no match remains. *)
Theorem X_knockout_stats (s : App.t) :
  let stats := KnockoutController.getKnockoutStageStats s in
  let ms := bracket_matches (App._rounds s) in
  KnockoutStats.rounds stats = Z.of_nat (length (App._rounds s))
  ∧ KnockoutStats.matches stats = Z.of_nat (length ms)
  ∧ KnockoutStats.matchesPlayed stats = Z.of_nat (length (List.filter Match.played ms))
  ∧ (KnockoutStats.matchesPlayed stats + KnockoutStats.matchesRemaining stats
     = KnockoutStats.matches stats)%Z
  ∧ (0 ≤ KnockoutStats.extraTimeMatches stats ≤ KnockoutStats.matchesPlayed stats)%Z
  ∧ (0 ≤ KnockoutStats.penaltyShootouts stats ≤ KnockoutStats.matchesPlayed stats)%Z
  ∧ KnockoutStats.upsets stats = 0%Z
  ∧ (KnockoutStats.completed stats = true
     ↔ App._rounds s ≠ [] ∧ KnockoutStats.matchesRemaining stats = 0%Z).
Proof.
  intros stats ms.
  destruct (stats_counts s) as (H1 & H2 & H3 & H4 & H5 & H6 & H7 & H8 & _).
  fold stats ms in H1, H2, H3, H4, H5, H6, H7, H8.
  pose proof (filter_played_partition ms) as Hpart.
  assert (Hsub : ∀ q : Match.t -> bool,
            (length (List.filter (fun m => Match.played m && q m) ms)
             ≤ length (List.filter Match.played ms))%nat).
  { intros q. clear. induction ms as [|m ms IH]; [done|]. cbn [List.filter].
    destruct (Match.played m); cbn [andb]; [|done].
    destruct (q m); cbn [length]; lia. }
  pose proof (Hsub (fun m => ExtraTime.played (Match.extraTime m))) as He.
  pose proof (Hsub (fun m => Penalties.played (Match.penalties m))) as Hq.
  cbv beta in He, Hq.
  split; [lia|]. split; [lia|]. split; [lia|]. split; [lia|].
  split; [lia|]. split; [lia|]. split; [lia|].
  rewrite H8. unfold KnockoutController.isKnockoutStageCompleted.
  rewrite forallb_rounds. fold ms.
  destruct (App._rounds s) as [|r rounds] eqn:Hr; cbn [length Nat.eqb].
  - split; [done|]. by intros [? _].
  - rewrite forallb_filter_length. split.
    + intros E. split; [done|]. lia.
    + intros [_ E]. lia.
Qed.

(** X14.  [KnockoutController.resetKnockoutStage].  Every match of the
    bracket loses its scores, its winner, its extra time and its
    penalties and is unplayed again, but keeps its identifier, its round
    and its two sides: the teams that had advanced stay in the later
    rounds.  The rounds and the order of the matches are kept.  Afterwards
    no match is counted as played, the goals are 0, and the knockout stage
    is not completed unless the bracket has rounds but no match at all. *)
Theorem X_reset_knockout (s : App.t) :
  let s' := KnockoutController.resetKnockoutStage s in
  let stats := KnockoutController.getKnockoutStageStats s' in
  bracket_matches (App._rounds s')
  = map KnockoutController.cleared (bracket_matches (App._rounds s))
  ∧ map Round.name (App._rounds s') = map Round.name (App._rounds s)
  ∧ shape (App._rounds s') = shape (App._rounds s)
  ∧ sides (bracket_matches (App._rounds s')) = sides (bracket_matches (App._rounds s))
  ∧ Forall (fun m =>
       (Match.homeScore m, Match.awayScore m, Match.played m, Match.winner m,
        Match.extraTime m, Match.penalties m)
       = (None, None, false, None, ExtraTime.initial, Penalties.initial))
      (bracket_matches (App._rounds s'))
  ∧ KnockoutStats.matches stats
    = KnockoutStats.matches (KnockoutController.getKnockoutStageStats s)
  ∧ KnockoutStats.matchesPlayed stats = 0%Z
  ∧ KnockoutStats.matchesRemaining stats = KnockoutStats.matches stats
  ∧ KnockoutStats.totalGoals stats = Js.Int 0
  ∧ (KnockoutController.isKnockoutStageCompleted s' = true
     ↔ App._rounds s ≠ [] ∧ bracket_matches (App._rounds s) = [])
  ∧ KnockoutController.resetKnockoutStage s' = s'.
Proof.
  intros s' stats.
  assert (Hm : bracket_matches (App._rounds s')
               = map KnockoutController.cleared (bracket_matches (App._rounds s))).
  { subst s'. unfold KnockoutController.resetKnockoutStage, bracket_matches.
    destruct s as [rounds ctl tour stage loading notes]. cbn [App._rounds App.set_rounds].
    induction rounds as [|r rounds IH]; [done|].
    cbn [map concat Round.matches Round.set_matches]. by rewrite map_app, IH. }
  assert (Hall : Forall (fun m => Match.played m = false)
                   (bracket_matches (App._rounds s'))).
  { rewrite Hm. apply Forall_forall. intros m Hx.
    change (map KnockoutController.cleared) with (fmap (M:=list) KnockoutController.cleared) in Hx.
    by apply list_elem_of_fmap in Hx as (m0 & -> & _). }
  assert (Hf : List.filter Match.played (bracket_matches (App._rounds s')) = []).
  { revert Hall. generalize (bracket_matches (App._rounds s')). intros l Hl.
    induction l as [|m l IH]; [done|]. apply Forall_cons in Hl as [H1 H2].
    cbn [List.filter]. rewrite H1. by apply IH. }
  destruct (stats_counts s') as (K1 & K2 & K3 & K3' & _ & _ & _ & _ & K4).
  pose proof (filter_played_partition (bracket_matches (App._rounds s'))) as Hpart.
  assert (Hlen : length (App._rounds s') = length (App._rounds s)).
  { subst s'. unfold KnockoutController.resetKnockoutStage.
    destruct s as [rounds ctl tour stage loading notes]. cbn. apply length_map. }
  split; [exact Hm|]. split; [|split; [|split; [|split; [|split; [|split; [|split;
    [|split; [|split]]]]]]]].
  - subst s'. unfold KnockoutController.resetKnockoutStage.
    destruct s as [rounds ctl tour stage loading notes]. cbn [App._rounds App.set_rounds].
    rewrite map_map. by apply map_ext.
  - subst s'. unfold KnockoutController.resetKnockoutStage, shape.
    destruct s as [rounds ctl tour stage loading notes]. cbn [App._rounds App.set_rounds].
    rewrite map_map. apply map_ext. intros r. cbn. rewrite map_map. by apply map_ext.
  - rewrite Hm. unfold sides. rewrite map_map. by apply map_ext.
  - rewrite Hm. apply Forall_forall. intros m Hx.
    change (map KnockoutController.cleared) with (fmap (M:=list) KnockoutController.cleared) in Hx.
    by apply list_elem_of_fmap in Hx as (m0 & -> & _).
  - destruct (stats_counts s) as (_ & K2' & _). subst stats.
    rewrite K2, K2', Hm. by rewrite length_map.
  - subst stats. by rewrite K3, Hf.
  - subst stats. rewrite K3', K2. rewrite Hf in Hpart.
    change (length (@nil Match.t)) with 0%nat in Hpart. lia.
  - exact (K4 Hall).
  - unfold KnockoutController.isKnockoutStageCompleted. rewrite forallb_rounds, Hlen.
    destruct (App._rounds s) as [|r rounds] eqn:Hr; cbn [length Nat.eqb].
    + split; [done|]. by intros [? _].
    + rewrite forallb_filter_length, Hf, Hm, length_map. cbn [length]. split.
      * intros E. split; [done|]. by apply nil_length_inv.
      * intros [_ ->]. done.
  - subst s'. unfold KnockoutController.resetKnockoutStage.
    destruct s as [rounds ctl tour stage loading notes]. cbn [App._rounds App.set_rounds].
    f_equal. rewrite map_map. apply map_ext. intros r. cbn. f_equal.
    rewrite map_map. by apply map_ext.
Qed.
(** ** A new tournament *)

Lemma fold_count {A} (f : A -> Z) (l : list A) (k count : Z) :
  Forall (fun x => f x = k) l →
  fold_left (fun count x => (count + f x)%Z) l count
  = (count + k * Z.of_nat (length l))%Z.
Proof.
  revert count. induction l as [|x l IH]; intros count H; cbn [fold_left length].
  - lia.
  - apply Forall_cons in H as [Hx Hl]. rewrite IH by done. rewrite Hx. lia.
Qed.

Lemma schedule_of_four (clock : nat -> Z) (teams : list Team.t) :
  length teams = 4%nat →
  let matches := concat (map snd (Helpers.generateMatchSchedule clock teams)) in
  length matches = 6%nat
  ∧ Forall (fun m => Match.played m = false) matches
  ∧ map Match.matchday matches = [Some 1; Some 1; Some 2; Some 2; Some 3; Some 3]%Z.
Proof.
  intros H. destruct teams as [|t1 [|t2 [|t3 [|t4 [|t5 teams]]]]];
    try (cbn in H; lia).
  cbn. split; [done|]. split; [|done]. repeat (apply Forall_cons; split; [done|]).
  by apply Forall_nil.
Qed.

Lemma standings_length (teams : list Team.t) (matches : list Match.t) :
  length (Helpers.calculateGroupStandings teams matches) = length teams.
Proof.
  unfold Helpers.calculateGroupStandings, Helpers.sortGroupStandings.
  rewrite sort_perm, length_map.
  rewrite <- (length_map Row.team), fold_tally_teams, teams_initial. done.
Qed.

(** X15.  A tournament made from a list of teams.  With no groups and no
    bracket in the configuration, the constructor fails with 'Not enough
    teams' when the list has fewer than four teams per group, and
    otherwise builds as many groups as the group count says (none when it
    is negative), each with four teams, the six unplayed matches of the
    schedule, two per matchday, and a table of four rows; its stage and
    status are those of the configuration, 'group' and 'active' by
    default, and it has no bracket.  The counts of the tournament are then
    four teams and six matches per group and no match played, and every
    matchday from 1 to 3 has two matches per group. *)
Theorem X_tournament_created (d : Drawn.t) (config : TournamentConfig.t)
    (teams : list Entrant) :
  TournamentConfig.teams config = Some teams →
  teams ≠ [] →
  default [] (TournamentConfig.groups config) = [] →
  TournamentConfig.knockout config = None →
  let groupCount :=
    if Js.truthy_int (TournamentConfig.groupCount config)
    then default 1%Z (TournamentConfig.groupCount config) else 1%Z in
  if (Z.of_nat (length teams) <? groupCount * 4)%Z
  then Tournament.constructor d config = None
  else
    ∃ t, Tournament.constructor d config = Some t
      ∧ Tournament.groupCount t = groupCount
      ∧ Tournament.currentStage t
        = default Stage.group (TournamentConfig.currentStage config)
      ∧ Tournament.status t = default Status.active (TournamentConfig.status config)
      ∧ Tournament.knockout t = None
      ∧ length (Tournament.groups t) = Z.to_nat groupCount
      ∧ Forall (fun g =>
           length (GroupData.teams g) = 4%nat
           ∧ length (GroupData.matches g) = 6%nat
           ∧ Forall (fun m => Match.played m = false) (GroupData.matches g)
           ∧ map Match.matchday (GroupData.matches g)
             = [Some 1; Some 1; Some 2; Some 2; Some 3; Some 3]%Z
           ∧ length (GroupData.standings g) = 4%nat) (Tournament.groups t)
      ∧ Tournament._countTotalTeams t = (4 * Z.of_nat (Z.to_nat groupCount))%Z
      ∧ Tournament._countTotalMatches t = (6 * Z.of_nat (Z.to_nat groupCount))%Z
      ∧ Tournament._countPlayedMatches t = 0%Z
      ∧ (∀ matchday, (1 ≤ matchday ≤ Tournament.getTotalMatchdays t)%Z →
           length (Tournament.getMatchesByMatchday t matchday)
           = (2 * Z.to_nat groupCount)%nat).
Proof.
  intros Hteams Hne Hgroups Hko groupCount.
  unfold Tournament.constructor. rewrite Hteams, Hgroups, Hko.
  fold groupCount. clearbody groupCount. cbn [Tournament.groups length Nat.eqb andb].
  assert (Hpos : (0 <? length teams)%nat = true).
  { apply Nat.ltb_lt. destruct teams; [done|]. cbn. lia. }
  rewrite Hpos. cbn [andb].
  unfold Tournament._initializeGroups. cbn [Tournament.groupCount].
  change (Z.of_nat 4) with 4%Z.
  destruct (Z.ltb_spec (Z.of_nat (length teams)) (groupCount * 4)) as [Hlt|Hge]; [done|].
  eexists. split; [reflexivity|].
  cbn [Tournament.set_groups Tournament.groupCount Tournament.currentStage
       Tournament.status Tournament.knockout Tournament.groups].
  split; [done|]. split; [done|]. split; [done|]. split; [done|].
  set (groups := map _ (seq 0 (Z.to_nat groupCount))).
  assert (Hlen : length groups = Z.to_nat groupCount)
    by (unfold groups; by rewrite length_map, length_seq).
  assert (Hall : Forall (fun g =>
           length (GroupData.teams g) = 4%nat
           ∧ length (GroupData.matches g) = 6%nat
           ∧ Forall (fun m => Match.played m = false) (GroupData.matches g)
           ∧ map Match.matchday (GroupData.matches g)
             = [Some 1; Some 1; Some 2; Some 2; Some 3; Some 3]%Z
           ∧ length (GroupData.standings g) = 4%nat) groups).
  { unfold groups. apply Forall_forall. intros g Hg.
    change (map ?f ?l) with (fmap (M:=list) f l) in Hg.
    apply list_elem_of_fmap in Hg as (i & -> & Hi).
    apply elem_of_seq in Hi as [_ Hi].
    cbn [GroupData.teams GroupData.matches GroupData.standings].
    set (shuffled := Helpers.shuffleArray (Drawn.draw d) teams).
    assert (Hsh : length shuffled = length teams) by (unfold shuffled, Helpers.shuffleArray; by rewrite shuffleFrom_perm).
    assert (Hfour : ∀ j, (j < 4)%nat → is_Some (shuffled !! (i * 4 + j)%nat)).
    { intros j Hj. apply lookup_lt_is_Some. lia. }
    destruct (Hfour 0%nat ltac:(lia)) as [e0 E0], (Hfour 1%nat ltac:(lia)) as [e1 E1],
      (Hfour 2%nat ltac:(lia)) as [e2 E2], (Hfour 3%nat ltac:(lia)) as [e3 E3].
    set (groupTeams := omap _ (seq 0 4)).
    assert (Hgt : length groupTeams = 4%nat).
    { unfold groupTeams. cbn [seq omap]. cbn [list_omap].
      by rewrite E0, E1, E2, E3. }
    destruct (schedule_of_four (Drawn.clock d i) groupTeams Hgt) as (S1 & S2 & S3).
    split; [done|]. split; [done|]. split; [done|]. split; [done|].
    by rewrite standings_length. }
  clearbody groups.
  split; [done|]. split; [done|].
  unfold Tournament._countTotalTeams, Tournament._countTotalMatches,
    Tournament._countPlayedMatches, Tournament.getMatchesByMatchday,
    Tournament.getTotalMatchdays.
  cbn [Tournament.groups Tournament.knockout Tournament.set_groups].
  split; [|split; [|split]].
  - rewrite (fold_count (fun g => Z.of_nat (length (GroupData.teams g))) groups 4).
    + rewrite Hlen. reflexivity.
    + eapply Forall_impl; [exact Hall|]. intros g (-> & _). done.
  - rewrite (fold_count (fun g => Z.of_nat (length (GroupData.matches g))) groups 6).
    + rewrite Hlen. reflexivity.
    + eapply Forall_impl; [exact Hall|]. intros g (_ & -> & _). done.
  - rewrite (fold_count
               (fun g => Z.of_nat (length (List.filter Match.played (GroupData.matches g))))
               groups 0).
    + reflexivity.
    + eapply Forall_impl; [exact Hall|]. intros g (_ & _ & Hu & _). cbv beta.
      assert (E : List.filter Match.played (GroupData.matches g) = []).
      { revert Hu. generalize (GroupData.matches g). intros l Hl.
        induction l as [|m l IH]; [done|]. apply Forall_cons in Hl as [H1 H2].
        cbn [List.filter]. rewrite H1. by apply IH. }
      by rewrite E.
  - intros matchday Hday. rewrite <- Hlen. clear Hlen. revert Hall.
    generalize groups. intros l Hl. induction l as [|g l IH]; [done|].
    apply Forall_cons in Hl as [(_ & _ & _ & Hd & _) Hl].
    cbn [map concat]. rewrite length_app, IH by done. cbn [length].
    rewrite length_map.
    rewrite <- (length_map Match.matchday (List.filter _ _)).
    pose proof (filter_map_swap Match.matchday (fun x => bool_decide (x = Some matchday))
                  (GroupData.matches g)) as E.
    cbv beta in E. rewrite E, Hd.
    assert (matchday = 1 ∨ matchday = 2 ∨ matchday = 3)%Z as [->|[->| ->]] by lia;
      (change (length (List.filter _ _)) with 2%nat; lia).
Qed.

(** Eight teams by name in two groups, and five teams for the same two
    groups. *)
Lemma X_tournament_created_witness :
  let d :=
    {| Drawn.idSuffix := "lq3k2x1ab"; Drawn.draw := fun i => (i / 2)%nat;
       Drawn.teamSuffix := fun i => pretty i; Drawn.groupSuffix := fun i => pretty i;
       Drawn.clock := fun _ _ => 0%Z |} in
  let config names :=
    {| TournamentConfig.id := None; TournamentConfig.name := Some "Cup";
       TournamentConfig.groupCount := Some 2%Z;
       TournamentConfig.currentStage := None; TournamentConfig.status := None;
       TournamentConfig.groups := None;
       TournamentConfig.teams := Some (map team_name names);
       TournamentConfig.knockout := None; TournamentConfig.events := None |} in
  (∃ t, Tournament.constructor d
          (config ["A1"; "A2"; "A3"; "A4"; "B1"; "B2"; "B3"; "B4"]) = Some t
        ∧ map GroupData.name (Tournament.groups t) = ["A"; "B"]
        ∧ Tournament._countTotalMatches t = 12%Z
        ∧ Tournament.id t = "tournament_lq3k2x1ab")
  ∧ Tournament.constructor d (config ["A1"; "A2"; "A3"; "A4"; "B1"]) = None.
Proof.
  cbv zeta. split.
  - pose proof (X_tournament_created
        {| Drawn.idSuffix := "lq3k2x1ab"; Drawn.draw := fun i => (i / 2)%nat;
           Drawn.teamSuffix := fun i => pretty i; Drawn.groupSuffix := fun i => pretty i;
           Drawn.clock := fun _ _ => 0%Z |}
        {| TournamentConfig.id := None; TournamentConfig.name := Some "Cup";
           TournamentConfig.groupCount := Some 2%Z;
           TournamentConfig.currentStage := None; TournamentConfig.status := None;
           TournamentConfig.groups := None;
           TournamentConfig.teams :=
             Some (map team_name ["A1"; "A2"; "A3"; "A4"; "B1"; "B2"; "B3"; "B4"]);
           TournamentConfig.knockout := None; TournamentConfig.events := None |}
        _ eq_refl ltac:(done) eq_refl eq_refl) as H.
    cbv zeta in H. change (_ <? _)%Z with false in H.
    destruct H as (t & Ht & _ & _ & _ & _ & _ & _ & _ & Hm & _).
    exists t. split; [exact Ht|]. split; [|split; [exact Hm|]].
    + vm_compute in Ht. injection Ht as <-. reflexivity.
    + vm_compute in Ht. injection Ht as <-. reflexivity.
  - exact (X_tournament_created
        {| Drawn.idSuffix := "lq3k2x1ab"; Drawn.draw := fun i => (i / 2)%nat;
           Drawn.teamSuffix := fun i => pretty i; Drawn.groupSuffix := fun i => pretty i;
           Drawn.clock := fun _ _ => 0%Z |}
        {| TournamentConfig.id := None; TournamentConfig.name := Some "Cup";
           TournamentConfig.groupCount := Some 2%Z;
           TournamentConfig.currentStage := None; TournamentConfig.status := None;
           TournamentConfig.groups := None;
           TournamentConfig.teams :=
             Some (map team_name ["A1"; "A2"; "A3"; "A4"; "B1"]);
           TournamentConfig.knockout := None; TournamentConfig.events := None |}
        _ eq_refl ltac:(done) eq_refl eq_refl).
Defined.
(** ** Team names *)

Lemma countries_NoDup : NoDup Helpers.countries.
Proof. apply (bool_decide_unpack _). vm_compute. exact I. Qed.

Lemma slice_shuffled {A} (draw : nat -> nat) (count : Z) (l : list A) :
  let result := Js.slice count (Helpers.shuffleArray draw l) in
  result ⊆ l
  ∧ (NoDup l → NoDup result)
  ∧ length result
    = Z.to_nat (if (count <? 0)%Z then Z.of_nat (length l) + count
                else Z.min count (Z.of_nat (length l))).
Proof.
  intros result. subst result. unfold Js.slice.
  assert (Hp : Helpers.shuffleArray draw l ≡ₚ l) by apply shuffleFrom_perm.
  assert (Hl : length (Helpers.shuffleArray draw l) = length l) by (by rewrite Hp).
  rewrite Hl. split; [|split].
  - intros x Hx. rewrite <- Hp. by eapply subseteq_take.
  - intros Hn. apply (sublist_NoDup _ (Helpers.shuffleArray draw l));
      first [apply sublist_take | by rewrite Hp].
  - rewrite length_take, Hl. destruct (Z.ltb_spec count 0); lia.
Qed.

(** X16.  [Helpers.generateRandomTeamNames].  Whatever the shuffle draws,
    the names returned are names of the table of 32 countries, no name
    comes twice, and for a count from 0 to 32 there are exactly [count] of
    them; a count above 32 gives all 32 names and a negative count leaves
    out that many names from the end of the shuffled table. *)
Theorem X_generateRandomTeamNames (draw : nat -> nat) (count : Z) :
  let names := Helpers.generateRandomTeamNames draw count in
  names ⊆ Helpers.countries
  ∧ NoDup names
  ∧ length Helpers.countries = 32%nat
  ∧ ((0 ≤ count ≤ 32)%Z → Z.of_nat (length names) = count)
  ∧ ((32 ≤ count)%Z → names ≡ₚ Helpers.countries)
  ∧ ((count < 0)%Z → Z.of_nat (length names) = Z.max 0 (32 + count)).
Proof.
  intros names. subst names. unfold Helpers.generateRandomTeamNames.
  assert (H32 : length Helpers.countries = 32%nat) by reflexivity.
  destruct (slice_shuffled draw count Helpers.countries) as (H1 & H2 & H3).
  cbv zeta in H1, H2, H3. rewrite H32 in H3.
  pose proof countries_NoDup as Hn.
  revert H1 H2 H3 H32 Hn. 
  assert (Hall : (32 ≤ count)%Z →
            Js.slice count (Helpers.shuffleArray draw Helpers.countries)
            ≡ₚ Helpers.countries).
  { intros Hc. unfold Js.slice.
    destruct (Z.ltb_spec count 0); [lia|].
    rewrite take_ge; [apply shuffleFrom_perm|].
    assert (Hl : length (Helpers.shuffleArray draw Helpers.countries) = 32%nat).
    { unfold Helpers.shuffleArray. by rewrite shuffleFrom_perm. }
    rewrite Hl. lia. }
  revert Hall.
  generalize (Js.slice count (Helpers.shuffleArray draw Helpers.countries)).
  generalize Helpers.countries.
  intros countries names Hall H1 H2 H3 H32 Hn.
  split; [done|]. split; [by apply H2|]. split; [done|].
  split; [|split; [done|]].
  - intros Hc. rewrite H3. destruct (Z.ltb_spec count 0); lia.
  - intros Hc. rewrite H3. destruct (Z.ltb_spec count 0); lia.
Qed.
(** ** Brackets as generated *)

(** X17.  Which matches count as scheduled.  [Match.isScheduled] asks for
    an identifier on both sides.  The empty rounds of the knockout
    controller, whose sides are the placeholder without identifier, are
    not scheduled, and a match becomes scheduled once both of its sides
    have been assigned teams with identifiers.  The placeholders the
    helpers put into their empty rounds carry identifiers: those matches
    count as scheduled although both sides are still 'TBD'. *)
Theorem X_isScheduled (count : nat) (roundName : string) (roundIndex : Z)
    (n : Match.t) (home away : Team.t) :
  Forall (fun m => Match.isScheduled m = false
                   ∧ Match.homeTeam m = TBD ∧ Match.awayTeam m = TBD)
    (KnockoutController.generateEmptyRound count roundName roundIndex)
  ∧ Match.isScheduled (Match.set_awayTeam (Match.set_homeTeam n home) away)
    = Js.truthy_string (Team.id home) && Js.truthy_string (Team.id away)
  ∧ Forall (fun m => Match.isScheduled m = true
                     ∧ Team.name (Match.homeTeam m) = "TBD"
                     ∧ Team.name (Match.awayTeam m) = "TBD")
      (Helpers.generateQuarterfinals [] [] [] ++ Helpers.generateSemifinals []
         ++ Helpers.generateFinal).
Proof.
  split; [|split; [done|]].
  - unfold KnockoutController.generateEmptyRound. apply Forall_forall. intros m Hm.
    change (map ?f ?l) with (fmap (M:=list) f l) in Hm.
    by apply list_elem_of_fmap in Hm as (i & -> & _).
  - cbn. repeat (apply Forall_cons; split; [done|]). by apply Forall_nil.
Qed.

(** X18.  [KnockoutController.getRoundByName] on the bracket the
    controller generates.  For a supported group count the bracket is
    stored, and its rounds are named, in order, 'Semifinals' and 'Final'
    for one group, 'Quarterfinals', 'Semifinals' and 'Final' for two,
    three or four groups, and 'Round of 16', 'Quarterfinals', 'Semifinals'
    and 'Final' for six or eight; each round is the one that its name
    finds, and a name that no round carries finds nothing.  For any other
    group count no round is returned and the controllers, the bracket they
    hold included, are left as they were. *)
Theorem X_getRoundByName (q : Qualified.t) (groupCount : Z) (s : App.t) :
  let generated := KnockoutController.generateKnockoutStage q groupCount s in
  let named name := KnockoutController.getRoundByName generated.2 name in
  let names :=
    if (groupCount =? 1)%Z then [ "Semifinals"; "Final" ]
    else if (groupCount =? 2)%Z || (groupCount =? 3)%Z || (groupCount =? 4)%Z
    then [ "Quarterfinals"; "Semifinals"; "Final" ]
    else if (groupCount =? 6)%Z || (groupCount =? 8)%Z
    then [ "Round of 16"; "Quarterfinals"; "Semifinals"; "Final" ]
    else [] in
  map Round.name generated.1 = map Some names
  ∧ (if bool_decide (names = []) then generated = ([], s)
     else App._rounds generated.2 = generated.1
          ∧ Forall (fun round =>
               ∃ name, Round.name round = Some name ∧ named name = Some round)
              generated.1
          ∧ (∀ name, name ∉ names → named name = None)).
Proof.
  intros generated named names. subst generated named names.
  unfold KnockoutController.generateKnockoutStage, KnockoutController.getRoundByName.
  assert (Hnone : ∀ (name : string) (rounds : list Round.t),
            Some name ∉ map Round.name rounds →
            List.find (fun round => bool_decide (Round.name round = Some name)) rounds
            = None).
  { intros name rounds. induction rounds as [|r rounds IH]; [done|].
    cbn [map List.find]. intros Hn.
    rewrite bool_decide_eq_false_2.
    - apply IH. intros Hin. apply Hn. by apply elem_of_cons; right.
    - intros E. apply Hn. rewrite E. by apply elem_of_cons; left. }
  assert (Hin : ∀ (name : string) (l : list string),
            name ∉ l → Some name ∉ map Some l).
  { intros name l Hn Hin. apply Hn.
    change (map Some l) with (fmap (M:=list) Some l) in Hin.
    by apply list_elem_of_fmap in Hin as (x & [= ->] & Hx). }
  destruct (groupCount =? 1)%Z;
    [|destruct ((groupCount =? 2)%Z || (groupCount =? 3)%Z || (groupCount =? 4)%Z);
      [|destruct ((groupCount =? 6)%Z || (groupCount =? 8)%Z)]];
    destruct s as [rounds ctl tour stage loading notes];
    cbv beta zeta; cbn [fst snd App._rounds App.set_rounds map Round.name];
    (split; [reflexivity|]);
    [rewrite bool_decide_eq_false_2 by done..|by rewrite bool_decide_eq_true_2];
    (split; [reflexivity|]);
    (split; [|intros name Hn; apply Hnone; by apply (Hin name) in Hn]);
    repeat (apply Forall_cons; split; [by eexists|]); by apply Forall_nil.
Qed.
